(** * Session correlation and webhook reconciliation: a shallow embedding

    The development follows the Python sources

      - [src/utils/dataproc.py]       (payload normaliser), and
      - [src/conv_orchestration.py]   (session store, correlation, webhook
                                       endpoint, realtime handlers).

    Python values that come out of [json.loads] are embedded as [pyval];
    operations that Python resolves dynamically ([.get], [==], [<], [/],
    truthiness, iteration) are functions on [pyval] that return a
    [result], whose [Raise] case is a Python exception.  Functions of the
    Python standard library and of third-party packages that the sources
    merely call (HMAC-SHA256, [datetime], [str.title], the OpenAI client)
    are fields of the class [PyLib].

    Conventions:
      - a [str] is a [string], one [ascii] per character;
      - an [int] is a [Z], a [float] a binary64 [float];
      - a [datetime] is a [Z], the microseconds since an epoch; a handler
        reads the clock once per request ([now]);
      - a handler is a function from the store of sessions to the store
        afterwards, together with what it returns and what it emits
        ([emit] and [socketio.emit] themselves do not raise);
      - logging is left out, but not the exceptions that evaluating the
        logged expressions can raise. *)

From Stdlib Require Import ZArith String Ascii Bool Floats DecimalString Lia Sorted.
From stdpp Require Import base option list.

Open Scope string_scope.
Open Scope Z_scope.

(** ** Exceptions and results *)

Inductive exn : Type :=
| AttributeError
| TypeError
| KeyError
| ValueError
| ZeroDivisionError
| OverflowError
| BadRequest
| ExternalError (detail : string).

Inductive result (A : Type) : Type :=
| Ok (a : A)
| Raise (e : exn).

Arguments Ok {A} a.
Arguments Raise {A} e.

#[export] Instance result_ret : MRet result := fun _ a => Ok a.
#[export] Instance result_bind : MBind result := fun _ _ f m =>
  match m with
  | Ok a => f a
  | Raise e => Raise e
  end.

(** [try: m except: h] is Python's [try ... except Exception as e]. *)
Definition try_except {A} (m : result A) (h : exn -> A) : A :=
  match m with
  | Ok a => a
  | Raise e => h e
  end.

Definition raises {A} (m : result A) : bool :=
  match m with
  | Ok _ => false
  | Raise _ => true
  end.

(** ** Values *)

Unset Elimination Schemes.
Inductive pyval : Type :=
| PNone
| PBool (b : bool)
| PInt (n : Z)
| PFloat (x : float)
| PStr (s : string)
| PList (l : list pyval)
| PDict (d : list (string * pyval)).
Set Elimination Schemes.

(** A [dict] with string keys keeps its entries in insertion order; the
    entries of a well-formed dictionary have pairwise distinct keys. *)
Fixpoint assoc {V} (k : string) (d : list (string * V)) : option V :=
  match d with
  | [] => None
  | (k', v) :: d' => if String.eqb k k' then Some v else assoc k d'
  end.

(** [d[k] = v]: the entry is replaced where it stands, or appended. *)
Fixpoint assoc_set {V} (k : string) (v : V) (d : list (string * V))
  : list (string * V) :=
  match d with
  | [] => [(k, v)]
  | (k', v') :: d' =>
      if String.eqb k k' then (k, v) :: d' else (k', v') :: assoc_set k v d'
  end.

(** The entries of a [Dict[str, Any]]. *)
Abbreviation dict := (list (string * pyval)).

Definition empty_dict : pyval := PDict [].

(** [v.get(k, default)]: only a [dict] has the attribute [get]. *)
Definition py_get (v : pyval) (k : string) (dflt : pyval) : result pyval :=
  match v with
  | PDict d => Ok (default dflt (assoc k d))
  | _ => Raise AttributeError
  end.

(** Truth value testing ([if v:], [not v], [a and b]). *)
Definition py_truthy (v : pyval) : bool :=
  match v with
  | PNone => false
  | PBool b => b
  | PInt n => negb (n =? 0)
  | PFloat x => negb (PrimFloat.eqb x 0%float)
  | PStr s => negb (String.eqb s "")
  | PList l => negb (Nat.eqb (length l) 0)
  | PDict d => negb (Nat.eqb (length d) 0)
  end.

(** ** Numbers

    [int] is unbounded ([Z]); [float] is IEEE binary64 ([PrimFloat.float],
    with the operations of [SpecFloat] where an integer of any size has to
    be rounded once).  [bool] is a subclass of [int]. *)

Inductive number : Type :=
| NInt (n : Z)
| NFloat (x : float).

Definition as_number (v : pyval) : option number :=
  match v with
  | PBool b => Some (NInt (Z.b2z b))
  | PInt n => Some (NInt n)
  | PFloat x => Some (NFloat x)
  | _ => None
  end.

Definition Z2SF (z : Z) : spec_float :=
  match z with
  | Z0 => S754_zero false
  | Zpos p => S754_finite false p 0
  | Zneg p => S754_finite true p 0
  end.

Definition finite_or_overflow (x : spec_float) : result float :=
  match x with
  | S754_infinity _ => Raise OverflowError
  | _ => Ok (SF2Prim x)
  end.

(** [float(n)]: the nearest double (ties to even), [OverflowError] beyond
    the largest one. *)
Definition int_to_float (n : Z) : result float :=
  finite_or_overflow (binary_normalize prec emax n 0 false).

(** [a / b] on two [int]s: the exact quotient rounded once. *)
Definition int_true_div (a b : Z) : result float :=
  if b =? 0 then Raise ZeroDivisionError
  else finite_or_overflow (SFdiv prec emax (Z2SF a) (Z2SF b)).

(** [v / n] for an [int] literal [n]. *)
Definition py_truediv_int (v : pyval) (n : Z) : result pyval :=
  match as_number v with
  | Some (NInt a) => x ← int_true_div a n; Ok (PFloat x)
  | Some (NFloat x) =>
      if n =? 0 then Raise ZeroDivisionError
      else y ← int_to_float n; Ok (PFloat (x / y)%float)
  | None => Raise TypeError
  end.

(** The integer nearest to [p / q] ([0 < q]), ties to the even one. *)
Definition div_half_even (p q : Z) : Z :=
  let k := p / q in
  let r := p mod q in
  match 2 * r ?= q with
  | Lt => k
  | Gt => k + 1
  | Eq => if Z.even k then k else k + 1
  end.

(** [round(x, ndigits)] on a [float], for [0 <= ndigits] (CPython's
    [double_round]): the exact binary value is rounded to [ndigits]
    decimal places, ties to even, and the decimal is converted back to the
    nearest double; zeros, infinities and NaN round to themselves. *)
Definition float_round (x : float) (ndigits : Z) : result float :=
  match Prim2SF x with
  | S754_finite s m e =>
      let scale := 10 ^ ndigits in
      let k := if 0 <=? e then Zpos m * 2 ^ e * scale
               else div_half_even (Zpos m * scale) (2 ^ (- e)) in
      match k with
      | Zpos p =>
          finite_or_overflow
            (SFdiv prec emax (S754_finite s p 0) (Z2SF scale))
      | _ => Ok (SF2Prim (S754_zero s))
      end
  | _ => Ok x
  end.

(** The built-in [round(v, ndigits)] with [0 <= ndigits]. *)
Definition py_round (v : pyval) (ndigits : Z) : result pyval :=
  match as_number v with
  | Some (NInt a) => Ok (PInt a)
  | Some (NFloat x) => y ← float_round x ndigits; Ok (PFloat y)
  | None => Raise TypeError
  end.

(** [x == n] between a [float] and an [int] compares the exact values. *)
Definition float_eq_int (x : float) (n : Z) : bool :=
  match Prim2SF x with
  | S754_zero _ => n =? 0
  | S754_finite s m e =>
      let v := if s then Zneg m else Zpos m in
      if 0 <=? e then n =? v * 2 ^ e
      else (v mod 2 ^ (- e) =? 0) && (n =? v / 2 ^ (- e))
  | _ => false
  end.

Definition number_eq (a b : number) : bool :=
  match a, b with
  | NInt m, NInt n => m =? n
  | NFloat x, NFloat y => PrimFloat.eqb x y
  | NInt m, NFloat y => float_eq_int y m
  | NFloat x, NInt n => float_eq_int x n
  end.

(** [a == b] on values read from two different JSON documents (no two
    of their parts are the same object). *)
Fixpoint py_eq (a b : pyval) {struct a} : bool :=
  match a, b with
  | PNone, PNone => true
  | PStr s, PStr t => String.eqb s t
  | PList l, PList m =>
      (fix all2 (l m : list pyval) : bool :=
         match l, m with
         | [], [] => true
         | x :: l', y :: m' => py_eq x y && all2 l' m'
         | _, _ => false
         end) l m
  | PDict d, PDict e =>
      Nat.eqb (length d) (length e) &&
      (fix sub (d : list (string * pyval)) : bool :=
         match d with
         | [] => true
         | (k, v) :: d' =>
             match assoc k e with
             | Some w => py_eq v w && sub d'
             | None => false
             end
         end) d
  | _, _ =>
      match as_number a, as_number b with
      | Some x, Some y => number_eq x y
      | _, _ => false
      end
  end.

(** [a + b]. *)
Definition py_add (a b : pyval) : result pyval :=
  match as_number a, as_number b with
  | Some (NInt m), Some (NInt n) => Ok (PInt (m + n))
  | Some (NInt m), Some (NFloat y) =>
      x ← int_to_float m; Ok (PFloat (x + y)%float)
  | Some (NFloat x), Some (NInt n) =>
      y ← int_to_float n; Ok (PFloat (x + y)%float)
  | Some (NFloat x), Some (NFloat y) => Ok (PFloat (x + y)%float)
  | _, _ =>
      match a, b with
      | PStr s, PStr t => Ok (PStr (s ++ t)%string)
      | PList l, PList m => Ok (PList (l ++ m))
      | _, _ => Raise TypeError
      end
  end.

(** Iteration ([for x in v]): a [list] yields its items, a [dict] its
    keys, a [str] its characters; nothing else is iterable. *)
Fixpoint chars (s : string) : list pyval :=
  match s with
  | EmptyString => []
  | String c s' => PStr (String c EmptyString) :: chars s'
  end.

Definition py_iter (v : pyval) : result (list pyval) :=
  match v with
  | PList l => Ok l
  | PDict d => Ok (map (fun kv => PStr (fst kv)) d)
  | PStr s => Ok (chars s)
  | _ => Raise TypeError
  end.

(** [v.items()]. *)
Definition py_items (v : pyval) : result (list (string * pyval)) :=
  match v with
  | PDict d => Ok d
  | _ => Raise AttributeError
  end.

Definition is_substring (k s : string) : bool :=
  match String.index 0 k s with
  | Some _ => true
  | None => false
  end.

(** [k in v] for a [str] [k]. *)
Definition py_contains (k : string) (v : pyval) : result bool :=
  match v with
  | PDict d => Ok (bool_decide (is_Some (assoc k d)))
  | PList l => Ok (existsb (py_eq (PStr k)) l)
  | PStr s => Ok (is_substring k s)
  | _ => Raise TypeError
  end.

(** [v[k]] for a [str] [k]. *)
Definition py_getitem (v : pyval) (k : string) : result pyval :=
  match v with
  | PDict d =>
      match assoc k d with
      | Some x => Ok x
      | None => Raise KeyError
      end
  | _ => Raise TypeError
  end.

(** [len(v)]. *)
Definition py_len (v : pyval) : result Z :=
  match v with
  | PStr s => Ok (Z.of_nat (String.length s))
  | PList l => Ok (Z.of_nat (length l))
  | PDict d => Ok (Z.of_nat (length d))
  | _ => Raise TypeError
  end.

(** [str(n)] for an [int]. *)
Definition int_str (n : Z) : string := NilZero.string_of_int (Z.to_int n).

(** [x < n] between a [float] and an [int] compares the exact values. *)
Definition float_lt_int (x : float) (n : Z) : bool :=
  match Prim2SF x with
  | S754_zero _ => 0 <? n
  | S754_finite s m e =>
      let v := if s then Zneg m else Zpos m in
      if 0 <=? e then v * 2 ^ e <? n else v <? n * 2 ^ (- e)
  | S754_infinity s => s
  | S754_nan => false
  end.

(** [v < n] for an [int] literal [n]. *)
Definition py_lt_int (v : pyval) (n : Z) : result bool :=
  match as_number v with
  | Some (NInt a) => Ok (a <? n)
  | Some (NFloat x) => Ok (float_lt_int x n)
  | None => Raise TypeError
  end.

(** ** Library functions the sources call

    None of these is code of the repository.  The proofs below hold for
    every implementation of them. *)
Class PyLib : Type := {
  (** [hmac.new(key, msg, hashlib.sha256).hexdigest()] *)
  hmac_sha256_hexdigest : string -> string -> string;
  (** [str(x)] of a [float] *)
  float_str : float -> string;
  (** [x // n] and [x % n] of a [float] by a non-zero [int] literal *)
  float_floordiv : float -> Z -> float;
  float_mod : float -> Z -> float;
  (** [str(v)] of a [list] or a [dict] *)
  container_str : pyval -> string;
  (** [s.title()] *)
  str_title : string -> string;
  (** [datetime.fromtimestamp(v).isoformat()], local time *)
  fromtimestamp_isoformat : pyval -> result string;
  (** [t.isoformat()] of a [datetime] given in microseconds *)
  isoformat : Z -> string;
  (** [str(e)] of a caught exception *)
  exn_str : exn -> string;
  (** [utils.conversation_stage.classify_conversation_stages]: a request
      to the OpenAI service; any outcome is possible. *)
  classify_conversation_stages : pyval -> result pyval;
}.

Section Dataproc.
Context `{PyLib}.

(** [v // n] and [v % n] for a positive [int] literal [n]. *)
Definition py_floordiv_int (v : pyval) (n : Z) : result pyval :=
  match as_number v with
  | Some (NInt a) => Ok (PInt (a / n))
  | Some (NFloat x) => Ok (PFloat (float_floordiv x n))
  | None => Raise TypeError
  end.

Definition py_mod_int (v : pyval) (n : Z) : result pyval :=
  match as_number v with
  | Some (NInt a) => Ok (PInt (a mod n))
  | Some (NFloat x) => Ok (PFloat (float_mod x n))
  | None => Raise TypeError
  end.

(** [str(v)], as an f-string replacement field formats [v]. *)
Definition py_str (v : pyval) : string :=
  match v with
  | PNone => "None"
  | PBool true => "True"
  | PBool false => "False"
  | PInt n => int_str n
  | PFloat x => float_str x
  | PStr s => s
  | PList _ | PDict _ => container_str v
  end.

(** ** [utils/dataproc.py] *)

(** [format_duration] *)
Definition format_duration (seconds : pyval) : result string :=
  under_minute ← py_lt_int seconds 60;
  if (under_minute : bool) then
    Ok (py_str seconds ++ " seconds")%string
  else
    under_hour ← py_lt_int seconds 3600;
    if (under_hour : bool) then
      minutes ← py_floordiv_int seconds 60;
      secs ← py_mod_int seconds 60;
      Ok (py_str minutes ++ "m " ++ py_str secs ++ "s")%string
    else
      hours ← py_floordiv_int seconds 3600;
      rest ← py_mod_int seconds 3600;
      minutes ← py_floordiv_int rest 60;
      secs ← py_mod_int seconds 60;
      Ok (py_str hours ++ "h " ++ py_str minutes ++ "m "
          ++ py_str secs ++ "s")%string.

(** The body of the loop of [extract_transcript_data]: the formatted
    entry and whether its message is kept. *)
Definition format_entry (entry : pyval) : result (pyval * bool) :=
  role ← py_get entry "role" (PStr "unknown");
  message ← py_get entry "message" (PStr "");
  time_in_call_secs ← py_get entry "time_in_call_secs" (PInt 0);
  interrupted ← py_get entry "interrupted" (PBool false);
  source_medium ← py_get entry "source_medium" (PStr "unknown");
  Ok (PDict [("role", role); ("message", message);
             ("time_in_call_secs", time_in_call_secs);
             ("interrupted", interrupted);
             ("source_medium", source_medium)],
      py_truthy message).

Fixpoint format_transcript (entries formatted : list pyval)
  : result (list pyval) :=
  match entries with
  | [] => Ok formatted
  | entry :: entries' =>
      '(formatted_entry, keep) ← format_entry entry;
      format_transcript entries'
        (if (keep : bool) then formatted ++ [formatted_entry] else formatted)
  end.

(** [extract_transcript_data] *)
Definition extract_transcript_data (webhook_data : pyval) : result pyval :=
  data ← py_get webhook_data "data" empty_dict;
  transcript_raw ← py_get data "transcript" (PList []);
  entries ← py_iter transcript_raw;
  formatted_transcript ← format_transcript entries [];
  conversation_id ← py_get data "conversation_id" PNone;
  agent_id ← py_get data "agent_id" PNone;
  Ok (PDict [("conversation_id", conversation_id);
             ("agent_id", agent_id);
             ("transcript", PList formatted_transcript);
             ("message_count", PInt (Z.of_nat (length formatted_transcript)));
             ("raw_transcript", transcript_raw)]).

(** [s.replace('_', ' ')] *)
Fixpoint replace_underscores (s : string) : string :=
  match s with
  | EmptyString => EmptyString
  | String c s' =>
      String (if Ascii.eqb c "_"%char then " "%char else c)
             (replace_underscores s')
  end.

Definition is_dict (v : pyval) : bool :=
  match v with PDict _ => true | _ => false end.

Definition is_bool (v : pyval) : bool :=
  match v with PBool _ => true | _ => false end.

(** [extract_features_used] *)
Fixpoint features_loop (items : list (string * pyval)) (used_features : list pyval)
  : result (list pyval) :=
  match items with
  | [] => Ok used_features
  | (feature, details) :: items' =>
      let name := PStr (str_title (replace_underscores feature)) in
      if is_dict details then
        used ← py_get details "used" PNone;
        features_loop items'
          (if py_truthy used then used_features ++ [name] else used_features)
      else if is_bool details && py_truthy details then
        features_loop items' (used_features ++ [name])
      else
        features_loop items' used_features
  end.

Definition extract_features_used (features_usage : pyval) : result pyval :=
  items ← py_items features_usage;
  used_features ← features_loop items [];
  Ok (PList used_features).

(** [llm_details[model_name][field] += v] *)
Definition details_iadd (llm_details : list (string * pyval))
    (model_name field : string) (v : pyval)
  : result (list (string * pyval)) :=
  entry ← py_getitem (PDict llm_details) model_name;
  current ← py_getitem entry field;
  updated ← py_add current v;
  match entry with
  | PDict e =>
      Ok (assoc_set model_name (PDict (assoc_set field updated e)) llm_details)
  | _ => Raise TypeError
  end.

Definition fresh_model_details : pyval :=
  PDict [("total_input_tokens", PInt 0);
         ("total_output_tokens", PInt 0);
         ("total_cost", PInt 0)].

(** The inner loop of [extract_call_statistics], over
    [models.items()]. *)
Fixpoint models_loop (models : list (string * pyval))
    (llm_details : list (string * pyval))
  : result (list (string * pyval)) :=
  match models with
  | [] => Ok llm_details
  | (model_name, usage) :: models' =>
      let llm_details :=
        match assoc model_name llm_details with
        | None => assoc_set model_name fresh_model_details llm_details
        | Some _ => llm_details
        end in
      input_data ← py_get usage "input" empty_dict;
      output_data ← py_get usage "output_total" empty_dict;
      input_tokens ← py_get input_data "tokens" (PInt 0);
      llm_details ← details_iadd llm_details model_name "total_input_tokens" input_tokens;
      output_tokens ← py_get output_data "tokens" (PInt 0);
      llm_details ← details_iadd llm_details model_name "total_output_tokens" output_tokens;
      input_price ← py_get input_data "price" (PInt 0);
      output_price ← py_get output_data "price" (PInt 0);
      price ← py_add input_price output_price;
      llm_details ← details_iadd llm_details model_name "total_cost" price;
      models_loop models' llm_details
  end.

(** The outer loop, over the two generation types. *)
Fixpoint generations_loop (generation_types : list string) (llm_usage : pyval)
    (llm_details : list (string * pyval))
  : result (list (string * pyval)) :=
  match generation_types with
  | [] => Ok llm_details
  | generation_type :: generation_types' =>
      present ← py_contains generation_type llm_usage;
      if (present : bool) then
        generation ← py_getitem llm_usage generation_type;
        models ← py_get generation "model_usage" empty_dict;
        items ← py_items models;
        llm_details ← models_loop items llm_details;
        generations_loop generation_types' llm_usage llm_details
      else
        generations_loop generation_types' llm_usage llm_details
  end.

(** [extract_call_statistics] *)
Definition extract_call_statistics (webhook_data : pyval) : result pyval :=
  data ← py_get webhook_data "data" empty_dict;
  metadata ← py_get data "metadata" empty_dict;
  charging ← py_get metadata "charging" empty_dict;
  call_charge ← py_get charging "call_charge" (PInt 0);
  call_cost_dollars ← py_truediv_int call_charge 100000;
  llm_charge ← py_get charging "llm_charge" (PInt 0);
  llm_cost_dollars ← py_truediv_int llm_charge 100000;
  cost ← py_get metadata "cost" (PInt 0);
  total_cost_dollars ← py_truediv_int cost 100000;
  llm_usage ← py_get charging "llm_usage" empty_dict;
  llm_details ←
    generations_loop ["irreversible_generation"; "initiated_generation"]
      llm_usage [];
  call_duration_secs ← py_get metadata "call_duration_secs" (PInt 0);
  call_duration_formatted ← format_duration call_duration_secs;
  start_time_unix_secs ← py_get metadata "start_time_unix_secs" PNone;
  start_time ←
    (if py_truthy start_time_unix_secs
     then s ← fromtimestamp_isoformat start_time_unix_secs; Ok (PStr s)
     else Ok PNone);
  termination_reason ← py_get metadata "termination_reason" (PStr "Unknown");
  main_language ← py_get metadata "main_language" (PStr "Unknown");
  total_rounded ← py_round total_cost_dollars 4;
  call_rounded ← py_round call_cost_dollars 4;
  llm_rounded ← py_round llm_cost_dollars 4;
  features_usage ← py_get metadata "features_usage" empty_dict;
  features_used ← extract_features_used features_usage;
  Ok (PDict [("call_duration_secs", call_duration_secs);
             ("call_duration_formatted", PStr call_duration_formatted);
             ("start_time", start_time);
             ("termination_reason", termination_reason);
             ("main_language", main_language);
             ("costs", PDict [("total_cost_dollars", total_rounded);
                              ("call_cost_dollars", call_rounded);
                              ("llm_cost_dollars", llm_rounded);
                              ("total_cost_credits", cost);
                              ("call_cost_credits", call_charge);
                              ("llm_cost_credits", llm_charge)]);
             ("llm_usage", PDict llm_details);
             ("features_used", features_used)]).

(** The loop of [extract_analysis_data], over
    [data_collection.items()]. *)
Fixpoint collection_loop (items : list (string * pyval))
    (collected_data : list (string * pyval))
  : result (list (string * pyval)) :=
  match items with
  | [] => Ok collected_data
  | (key, item) :: items' =>
      value ← py_get item "value" PNone;
      schema ← py_get item "json_schema" empty_dict;
      type ← py_get schema "type" (PStr "unknown");
      schema' ← py_get item "json_schema" empty_dict;
      description ← py_get schema' "description" (PStr "");
      rationale ← py_get item "rationale" (PStr "");
      collection_loop items'
        (assoc_set key
           (PDict [("value", value); ("type", type);
                   ("description", description); ("rationale", rationale)])
           collected_data)
  end.

(** [extract_analysis_data] *)
Definition extract_analysis_data (webhook_data : pyval) : result pyval :=
  data ← py_get webhook_data "data" empty_dict;
  analysis ← py_get data "analysis" empty_dict;
  data_collection ← py_get analysis "data_collection_results" empty_dict;
  items ← py_items data_collection;
  collected_data ← collection_loop items [];
  summary ← py_get analysis "transcript_summary" (PStr "");
  call_successful ← py_get analysis "call_successful" (PStr "unknown");
  evaluation_results ← py_get analysis "evaluation_criteria_results" empty_dict;
  Ok (PDict [("summary", summary);
             ("call_successful", call_successful);
             ("collected_data", PDict collected_data);
             ("evaluation_results", evaluation_results)]).

(** The result returned on the two error paths of
    [process_post_call_webhook]. *)
Definition error_result (message : string) (webhook_data : pyval) : dict :=
  [("error", PStr message); ("raw_data", webhook_data)].

(** [process_post_call_webhook]; [now_iso] is
    [datetime.now().isoformat()] at the time of the call. *)
Definition process_post_call_webhook (now_iso : string) (webhook_data : pyval)
  : result dict :=
  webhook_type ← py_get webhook_data "type" (PStr "");
  if negb (py_eq webhook_type (PStr "post_call_transcription")) then
    Ok (error_result
          ("Unexpected webhook type: " ++ py_str webhook_type)%string
          webhook_data)
  else
    Ok (try_except
          (transcript_data ← extract_transcript_data webhook_data;
           statistics ← extract_call_statistics webhook_data;
           analysis ← extract_analysis_data webhook_data;
           conversation_id ← py_get transcript_data "conversation_id" PNone;
           agent_id ← py_get transcript_data "agent_id" PNone;
           Ok [("webhook_type", webhook_type);
               ("timestamp", PStr now_iso);
               ("conversation_id", conversation_id);
               ("agent_id", agent_id);
               ("transcript", transcript_data);
               ("statistics", statistics);
               ("analysis", analysis);
               ("raw_data", webhook_data)])
          (fun e =>
             error_result ("Error processing webhook: " ++ exn_str e)%string
                          webhook_data)).

(** [extract_key_patient_info] *)
Definition extract_key_patient_info (collected_data : pyval) : result pyval :=
  let field (key : string) (dflt : pyval) : result pyval :=
    item ← py_get collected_data key empty_dict;
    py_get item "value" dflt in
  patient_name ← field "patient_name" (PStr "Unknown");
  patient_dob ← field "patient_dob" (PStr "Unknown");
  primary_diagnosis ← field "primary_diagnosis" (PStr "Unknown");
  comorbidities ← field "comorbidities" (PStr "None");
  transportation_needed ← field "transportation_assistance" (PBool false);
  Ok (PDict [("patient_name", patient_name);
             ("patient_dob", patient_dob);
             ("primary_diagnosis", primary_diagnosis);
             ("comorbidities", comorbidities);
             ("transportation_needed", transportation_needed)]).

End Dataproc.

(** ** [conv_orchestration.py]: data model *)

Inductive ConversationStatus : Type :=
| INITIALIZING
| ACTIVE
| COMPLETED
| ERROR.

(** [status.value] *)
Definition status_value (s : ConversationStatus) : string :=
  match s with
  | INITIALIZING => "initializing"
  | ACTIVE => "active"
  | COMPLETED => "completed"
  | ERROR => "error"
  end.

#[export] Instance ConversationStatus_eq_dec : EqDecision ConversationStatus.
Proof. solve_decision. Defined.

(** [created_at] and [updated_at] are naive UTC [datetime]s, counted here
    in microseconds (the resolution of [datetime]). *)
Record ConversationSession : Type := {
  session_id : string;
  agent_id : string;
  conversation_id : pyval;
  status : ConversationStatus;
  created_at : Z;
  updated_at : Z;
  metadata : dict;
  webhook_data : list pyval;
  processed_data : dict;
}.

Definition set_conversation_id (c : pyval) (s : ConversationSession) :=
  {| session_id := session_id s; agent_id := agent_id s;
     conversation_id := c; status := status s;
     created_at := created_at s; updated_at := updated_at s;
     metadata := metadata s; webhook_data := webhook_data s;
     processed_data := processed_data s |}.

Definition set_status (st : ConversationStatus) (s : ConversationSession) :=
  {| session_id := session_id s; agent_id := agent_id s;
     conversation_id := conversation_id s; status := st;
     created_at := created_at s; updated_at := updated_at s;
     metadata := metadata s; webhook_data := webhook_data s;
     processed_data := processed_data s |}.

Definition set_updated_at (t : Z) (s : ConversationSession) :=
  {| session_id := session_id s; agent_id := agent_id s;
     conversation_id := conversation_id s; status := status s;
     created_at := created_at s; updated_at := t;
     metadata := metadata s; webhook_data := webhook_data s;
     processed_data := processed_data s |}.

Definition append_webhook_data (ev : pyval) (s : ConversationSession) :=
  {| session_id := session_id s; agent_id := agent_id s;
     conversation_id := conversation_id s; status := status s;
     created_at := created_at s; updated_at := updated_at s;
     metadata := metadata s; webhook_data := webhook_data s ++ [ev];
     processed_data := processed_data s |}.

Definition set_processed_data (d : dict) (s : ConversationSession) :=
  {| session_id := session_id s; agent_id := agent_id s;
     conversation_id := conversation_id s; status := status s;
     created_at := created_at s; updated_at := updated_at s;
     metadata := metadata s; webhook_data := webhook_data s;
     processed_data := d |}.

(** The module-level [sessions] dictionary, in insertion order.  A
    session object is the entry at its position: the handlers below
    mutate a session through its position, as the Python code mutates the
    object it holds a reference to. *)
Abbreviation store := (list (string * ConversationSession)).

Definition update_session (i : nat) (f : ConversationSession -> ConversationSession)
    (sessions : store) : store :=
  alter (fun kv => (fst kv, f (snd kv))) i sessions.

(** [sessions.values()] together with the position of each object. *)
Definition enumerate (sessions : store) : list (nat * ConversationSession) :=
  imap (fun i kv => (i, snd kv)) sessions.

(** [sessions.get(key)] for a key of any type: a list or a dict is not
    hashable, and no key of [sessions] equals a value that is not a
    string. *)
Fixpoint key_index (k : string) (sessions : store) : option nat :=
  match sessions with
  | [] => None
  | (k', _) :: rest =>
      if String.eqb k k' then Some 0%nat else S <$> key_index k rest
  end.

Definition sessions_get (key : pyval) (sessions : store) : result (option nat) :=
  match key with
  | PStr k => Ok (key_index k sessions)
  | PList _ | PDict _ => Raise TypeError
  | _ => Ok None
  end.

(** [agent_configs] *)
Definition agent_configs : list (string * (string * string * string)) :=
  [("clara", ("agent_01jz0h1rqperc8z03gsvkprmsw", "Clara",
              "Patient Intake Coordinator"));
   ("marcus", ("agent_01jz2jh0cdekqv8j35hqpw9wbb", "Marcus",
               "Authorization Coordinator"));
   ("sarah", ("agent_01jz2n3j1dfnrbj2vpdpghkbm3", "Sarah",
              "Patient Educator"));
   ("david", ("agent_01k0rvs4awfsn8vj6n4awffc2f", "David",
              "Extended Stay Authorization Coordinator"))].

(** ** Requests, responses and realtime events *)

(** What the handlers read from Flask's [request]. *)
Record request : Type := {
  (** [request.headers.get('elevenlabs-signature')] *)
  signature_header : option string;
  (** [request.get_data()] *)
  body : string;
  (** [request.json]: the parsed body, or the exception Flask raises *)
  request_json : result pyval;
}.

(** [jsonify(body), status_code] *)
Record response : Type := {
  status_code : Z;
  response_body : dict;
}.

(** [emit(event, data, room=room)] *)
Record emitted : Type := {
  event : string;
  event_data : dict;
  room : option pyval;
}.

Section Orchestration.
Context `{PyLib}.

(** [Config.WEBHOOK_SECRET], read from the environment at start-up. *)
Context (WEBHOOK_SECRET : string).

Fixpoint is_ascii (s : string) : bool :=
  match s with
  | EmptyString => true
  | String c s' => (nat_of_ascii c <? 128)%nat && is_ascii s'
  end.

(** [hmac.compare_digest(a, b)] on two [str]: both must be ASCII. *)
Definition compare_digest (a b : string) : result bool :=
  if is_ascii a && is_ascii b then Ok (String.eqb a b) else Raise TypeError.

(** [verify_webhook_signature] *)
Definition verify_webhook_signature (req : request) : bool :=
  try_except
    (match signature_header req with
     | None => Ok false
     | Some signature =>
         if String.eqb signature "" then Ok false
         else
           let payload := body req in
           let expected_signature :=
             hmac_sha256_hexdigest WEBHOOK_SECRET payload in
           same ← compare_digest signature expected_signature;
           if negb same then
             (* logger.warning("Invalid webhook signature"); return True *)
             Ok true
           else
             Ok true
     end)
    (fun _ => false).

(** ** Correlation (the first part of [webhook]) *)

(** Lines 318-323 of [webhook]: the first session, in the order of
    [sessions.values()], whose [conversation_id] equals the given one. *)
Definition find_by_call_id (conversation_id' : pyval) (sessions : store)
  : option (nat * (string * ConversationSession)) :=
  list_find (fun kv => py_eq (conversation_id (snd kv)) conversation_id' = true)
            sessions.

(** [sess.status in [ConversationStatus.ACTIVE, ConversationStatus.INITIALIZING]] *)
Definition in_progress (s : ConversationSession) : bool :=
  bool_decide (status s = ACTIVE) || bool_decide (status s = INITIALIZING).

(** [max(candidates, key=lambda s: s.created_at)]: the running maximum
    is replaced only by a strictly later session. *)
Fixpoint max_created_at (candidates : list (nat * ConversationSession))
    (best : nat * ConversationSession) : nat * ConversationSession :=
  match candidates with
  | [] => best
  | c :: candidates' =>
      max_created_at candidates'
        (if created_at (snd best) <? created_at (snd c) then c else best)
  end.

Definition most_recent (candidates : list (nat * ConversationSession))
  : option (nat * ConversationSession) :=
  match candidates with
  | [] => None
  | c :: candidates' => Some (max_created_at candidates' c)
  end.

(** [matching_sessions] of the agent-scoped fallback. *)
Definition matching_sessions (agent : pyval) (sessions : store)
  : list (nat * ConversationSession) :=
  List.filter
    (fun c => py_eq (PStr (agent_id (snd c))) agent && in_progress (snd c))
    (enumerate sessions).

(** [recent_sessions] of the recency fallback.  [now - created_at] is a
    [timedelta]; its [total_seconds()] is below 300 exactly when it is
    below 300 000 000 microseconds. *)
Definition recent_sessions (now : Z) (sessions : store)
  : list (nat * ConversationSession) :=
  List.filter
    (fun c => in_progress (snd c) && (now - created_at (snd c) <? 300000000))
    (enumerate sessions).

(** [session.conversation_id = conversation_id;
     session.status = ConversationStatus.ACTIVE] *)
Definition link (conversation_id' : pyval) (s : ConversationSession)
  : ConversationSession :=
  set_status ACTIVE (set_conversation_id conversation_id' s).

(** Lines 318-367 of [webhook]: the session the callback is attributed
    to (its position and its state after linking) and the store. *)
Definition correlate (now : Z) (webhook_type data conversation_id' : pyval)
    (sessions : store)
  : result (option (nat * ConversationSession) * store) :=
  match find_by_call_id conversation_id' sessions with
  | Some (i, (_, session)) => Ok (Some (i, session), sessions)
  | None =>
      if py_eq webhook_type (PStr "post_call_transcription") then
        agent ← py_get data "agent_id" PNone;
        if py_truthy agent then
          match most_recent (matching_sessions agent sessions) with
          | Some (i, session) =>
              Ok (Some (i, link conversation_id' session),
                  update_session i (link conversation_id') sessions)
          | None =>
              match most_recent (recent_sessions now sessions) with
              | Some (i, session) =>
                  Ok (Some (i, link conversation_id' session),
                      update_session i (link conversation_id') sessions)
              | None => Ok (None, sessions)
              end
          end
        else Ok (None, sessions)
      else Ok (None, sessions)
  end.

(** ** The rest of [webhook] *)

(** [v[:n]] for [0 <= n] *)
Definition py_slice_to (v : pyval) (n : nat) : result pyval :=
  match v with
  | PStr s => Ok (PStr (String.substring 0 n s))
  | PList l => Ok (PList (take n l))
  | _ => Raise TypeError
  end.

(** The argument expressions of the [logger.info] calls on lines
    398-401; [format(v, '.4f')] needs a number. *)
Definition logged_fields (processed : dict) : result unit :=
  transcript ← py_get (PDict processed) "transcript" empty_dict;
  _ ← py_get transcript "message_count" (PInt 0);
  statistics ← py_get (PDict processed) "statistics" empty_dict;
  _ ← py_get statistics "call_duration_formatted" (PStr "N/A");
  statistics' ← py_get (PDict processed) "statistics" empty_dict;
  costs ← py_get statistics' "costs" empty_dict;
  total ← py_get costs "total_cost_dollars" (PInt 0);
  match as_number total with
  | Some _ => Ok ()
  | None => Raise TypeError
  end.

(** Lines 403-407: the key patient information, computed for the log. *)
Definition logged_patient_info (processed : dict) : result unit :=
  match assoc "analysis" processed with
  | None => Ok ()
  | Some analysis =>
      present ← py_contains "collected_data" analysis;
      if (present : bool) then
        collected_data ← py_getitem analysis "collected_data";
        patient_info ← extract_key_patient_info collected_data;
        _ ← py_get patient_info "patient_name" (PStr "Unknown");
        _ ← py_get patient_info "primary_diagnosis" (PStr "Unknown");
        Ok ()
      else Ok ()
  end.

(** Lines 380-411: the value of [session.processed_data] after the
    [try] statement, from its value before. *)
Definition post_call_processing (now_iso : string) (webhook_json : pyval)
    (previous : dict) : dict :=
  match process_post_call_webhook now_iso webhook_json with
  | Raise e => assoc_set "processing_error" (PStr (exn_str e)) previous
  | Ok processed =>
      let processed :=
        match assoc "transcript" processed with
        | Some transcript =>
            try_except
              (classified ← classify_conversation_stages transcript;
               Ok (assoc_set "classified_transcript" classified processed))
              (fun _ => processed)
        | None => processed
        end in
      try_except
        (_ ← logged_fields processed;
         _ ← logged_patient_info processed;
         Ok processed)
        (fun e => assoc_set "processing_error" (PStr (exn_str e)) processed)
  end.

(** The conditional expression on line 432. *)
Definition call_summary (processed : dict) : result pyval :=
  analysis ← py_get (PDict processed) "analysis" empty_dict;
  summary ← py_get analysis "summary" (PStr "");
  n ← py_len summary;
  if 200 <? n then
    head ← py_slice_to summary 200;
    py_add head (PStr "...")
  else
    Ok summary.

(** Lines 427-433: the [summary] entry of [emit_data]. *)
Definition emit_summary (processed : dict) : result pyval :=
  transcript ← py_get (PDict processed) "transcript" empty_dict;
  message_count ← py_get transcript "message_count" (PInt 0);
  statistics ← py_get (PDict processed) "statistics" empty_dict;
  call_duration ← py_get statistics "call_duration_formatted" (PStr "N/A");
  statistics' ← py_get (PDict processed) "statistics" empty_dict;
  costs ← py_get statistics' "costs" empty_dict;
  total_cost ← py_get costs "total_cost_dollars" (PInt 0);
  summary ← call_summary processed;
  Ok (PDict [("message_count", message_count);
             ("call_duration", call_duration);
             ("total_cost", total_cost);
             ("call_summary", summary)]).

Definition is_type (webhook_type : pyval) (name : string) : bool :=
  py_eq webhook_type (PStr name).

(** Lines 369-437, for the session the callback was attributed to: the
    session afterwards, and the event handed to [socketio.emit] unless
    an exception left the block first. *)
Definition process_matched (now : Z) (now_iso : string)
    (webhook_json webhook_type data : pyval) (session : ConversationSession)
  : ConversationSession * result emitted :=
  let session :=
    append_webhook_data
      (PDict [("type", webhook_type);
              ("timestamp", PStr (isoformat now));
              ("data", data)]) session in
  let session := set_updated_at now session in
  let session :=
    if is_type webhook_type "post_call_transcription" then
      set_processed_data
        (post_call_processing now_iso webhook_json (processed_data session))
        session
    else session in
  let session :=
    if is_type webhook_type "conversation.completed"
       || is_type webhook_type "post_call_transcription"
    then set_status COMPLETED session
    else if is_type webhook_type "conversation.error"
    then set_status ERROR session
    else session in
  let emit_data : dict :=
    [("type", webhook_type);
     ("session_id", PStr (session_id session));
     ("data", data)] in
  (session,
   emit_data ←
     (if is_type webhook_type "post_call_transcription"
         && py_truthy (PDict (processed_data session))
      then summary ← emit_summary (processed_data session);
           Ok (assoc_set "summary" summary emit_data)
      else Ok emit_data);
   Ok {| event := "webhook_update"; event_data := emit_data;
         room := Some (PStr (session_id session)) |}).

Definition unauthorized : response :=
  {| status_code := 401;
     response_body := [("error", PStr "Invalid signature")] |}.

Definition processed : response :=
  {| status_code := 200; response_body := [("status", PStr "processed")] |}.

Definition processing_failed : response :=
  {| status_code := 500;
     response_body := [("error", PStr "Processing failed")] |}.

(** Lines 312-314 and the correlation: everything [webhook] does before
    it looks at the session it found. *)
Definition receive (now : Z) (req : request) (sessions : store)
  : result (pyval * pyval * pyval
            * option (nat * ConversationSession) * store) :=
  webhook_json ← request_json req;
  webhook_type ← py_get webhook_json "type" PNone;
  data ← py_get webhook_json "data" empty_dict;
  conversation_id' ← py_get data "conversation_id" PNone;
  '(found, sessions') ← correlate now webhook_type data conversation_id' sessions;
  Ok (webhook_json, webhook_type, data, found, sessions').

(** [webhook]: the response, the store afterwards and the events
    emitted.  [now] is [datetime.utcnow()] and [now_iso] is
    [datetime.now().isoformat()] during the request. *)
Definition webhook (now : Z) (now_iso : string) (req : request)
    (sessions : store) : response * store * list emitted :=
  if negb (verify_webhook_signature req) then (unauthorized, sessions, [])
  else
    match receive now req sessions with
    | Raise _ => (processing_failed, sessions, [])
    | Ok (webhook_json, webhook_type, data, None, sessions') =>
        (processed, sessions', [])
    | Ok (webhook_json, webhook_type, data, Some (i, session), sessions') =>
        let '(session', outcome) :=
          process_matched now now_iso webhook_json webhook_type data session in
        let sessions'' := update_session i (fun _ => session') sessions' in
        match outcome with
        | Ok ev => (processed, sessions'', [ev])
        | Raise _ => (processing_failed, sessions'', [])
        end
    end.

(** ** Session creation and the realtime handlers *)

(** [Config.SERVER_PORT] *)
Context (SERVER_PORT : Z).

(** [create_session]; [fresh_id] is [str(uuid.uuid4())], [now] is
    [datetime.utcnow()] and [remote_addr] is [request.remote_addr]. *)
Definition create_session (now : Z) (fresh_id : string) (remote_addr : pyval)
    (req : request) (sessions : store) : result (response * store) :=
  data ← request_json req;
  agent_key ← py_get data "agent_key" PNone;
  known ←
    match agent_key with
    | PStr k => Ok (assoc k agent_configs)
    | PList _ | PDict _ => Raise TypeError
    | _ => Ok None
    end;
  match known with
  | None =>
      Ok ({| status_code := 400;
             response_body := [("error", PStr "Invalid agent key")] |},
          sessions)
  | Some (agent, name, role) =>
      let session :=
        {| session_id := fresh_id;
           agent_id := agent;
           conversation_id := PNone;
           status := INITIALIZING;
           created_at := now;
           updated_at := now;
           metadata := [("agent_name", PStr name);
                        ("agent_role", PStr role);
                        ("client_ip", remote_addr)];
           webhook_data := [];
           processed_data := [] |} in
      Ok ({| status_code := 200;
             response_body :=
               [("session_id", PStr fresh_id);
                ("agent", PDict [("name", PStr name); ("role", PStr role)]);
                ("websocket_url",
                 PStr ("ws://localhost:" ++ int_str SERVER_PORT)%string);
                ("status", PStr (status_value (status session)))] |},
          assoc_set fresh_id session sessions)
  end.

(** [handle_join_session] *)
Definition handle_join_session (data : pyval) (sessions : store)
  : result (store * list emitted) :=
  session_id' ← py_get data "session_id" PNone;
  found ← sessions_get session_id' sessions;
  match found with
  | None =>
      Ok (sessions,
          [{| event := "error";
              event_data := [("message", PStr "Invalid session")];
              room := None |}])
  | Some i =>
      Ok (update_session i (set_status ACTIVE) sessions,
          [{| event := "session_joined";
              event_data := [("session_id", session_id');
                             ("status", PStr (status_value ACTIVE))];
              room := None |}])
  end.

(** [handle_conversation_started] *)
Definition handle_conversation_started (now : Z) (data : pyval)
    (sessions : store) : result (store * list emitted) :=
  session_id' ← py_get data "session_id" PNone;
  conversation_id' ← py_get data "conversation_id" PNone;
  found ← sessions_get session_id' sessions;
  match found with
  | None => Ok (sessions, [])
  | Some i =>
      Ok (update_session i
            (fun s => set_updated_at now
                        (set_status ACTIVE
                           (set_conversation_id conversation_id' s)))
            sessions,
          [{| event := "conversation_update";
              event_data := [("session_id", session_id');
                             ("conversation_id", conversation_id');
                             ("status", PStr "started")];
              room := Some session_id' |}])
  end.

End Orchestration.

(** ** [utils/dataproc.py]: the transcript as text *)

Section TranscriptText.
Context `{PyLib}.

(** [s.upper()], a method of [str] (Unicode case mapping). *)
Context (str_upper : string -> string).

(** [v.upper()]: only a [str] has the attribute. *)
Definition py_upper (v : pyval) : result pyval :=
  match v with
  | PStr s => Ok (PStr (str_upper s))
  | _ => Raise AttributeError
  end.

(** The loop of [get_formatted_transcript_text]. *)
Fixpoint transcript_lines (entries : list pyval) (lines : list string)
  : result (list string) :=
  match entries with
  | [] => Ok lines
  | entry :: entries' =>
      time_in_call_secs ← py_get entry "time_in_call_secs" (PInt 0);
      time ← format_duration time_in_call_secs;
      role ← py_get entry "role" (PStr "unknown");
      role ← py_upper role;
      message ← py_get entry "message" (PStr "");
      transcript_lines entries'
        (if py_truthy message
         then lines ++ [("[" ++ time ++ "] " ++ py_str role ++ ": "
                         ++ py_str message)%string]
         else lines)
  end.

Definition newline : string := String (ascii_of_nat 10) EmptyString.

(** [get_formatted_transcript_text] *)
Definition get_formatted_transcript_text (transcript_data : pyval)
  : result string :=
  entries ← py_iter transcript_data;
  lines ← transcript_lines entries [];
  Ok (String.concat (newline ++ newline)%string lines).

End TranscriptText.

(** ** [conv_orchestration.py]: the read endpoints

    An exception that leaves one of these handlers is answered by
    Flask with status 500; the handlers are given as [result]s. *)

Section Readers.
Context `{PyLib}.

Definition session_not_found : response :=
  {| status_code := 404;
     response_body := [("error", PStr "Session not found")] |}.

(** [get_agents] *)
Definition get_agents : response :=
  {| status_code := 200;
     response_body :=
       [("agents",
         PList (map (fun '(key, (agent, name, role)) =>
                       PDict [("key", PStr key); ("name", PStr name);
                              ("role", PStr role); ("agent_id", PStr agent)])
                    agent_configs))] |}.

(** [health_check]; [now] is [datetime.utcnow()]. *)
Definition health_check (now : Z) (sessions : store) : response :=
  {| status_code := 200;
     response_body :=
       [("status", PStr "healthy");
        ("timestamp", PStr (isoformat now));
        ("sessions_active",
         PInt (Z.of_nat
                 (length (List.filter
                            (fun kv => bool_decide (status (snd kv) = ACTIVE))
                            sessions))))] |}.

(** [get_session]; the identifier is a segment of the URL, a [str]. *)
Definition get_session (session_id' : string) (sessions : store) : response :=
  match assoc session_id' sessions with
  | None => session_not_found
  | Some session =>
      {| status_code := 200;
         response_body :=
           [("session_id", PStr (session_id session));
            ("status", PStr (status_value (status session)));
            ("agent_id", PStr (agent_id session));
            ("conversation_id", conversation_id session);
            ("created_at", PStr (isoformat (created_at session)));
            ("updated_at", PStr (isoformat (updated_at session)));
            ("metadata", PDict (metadata session));
            ("webhook_count", PInt (Z.of_nat (length (webhook_data session))));
            ("processed_data", PDict (processed_data session))] |}
  end.

(** The fallback loop of [get_transcript], over [session.webhook_data]. *)
Fixpoint raw_transcript_loop (events transcript : list pyval)
  : result (list pyval) :=
  match events with
  | [] => Ok transcript
  | webhook :: events' =>
      type ← py_get webhook "type" PNone;
      if py_eq type (PStr "conversation.update") then
        data ← py_get webhook "data" empty_dict;
        present ← py_contains "transcript" data;
        if (present : bool) then
          part ← py_getitem data "transcript";
          items ← py_iter part;
          raw_transcript_loop events' (transcript ++ items)
        else raw_transcript_loop events' transcript
      else raw_transcript_loop events' transcript
  end.

Definition transcript_response (session_id' : string)
    (transcript message_count : pyval) : response :=
  {| status_code := 200;
     response_body := [("session_id", PStr session_id');
                       ("transcript", transcript);
                       ("message_count", message_count)] |}.

(** [get_transcript] *)
Definition get_transcript (session_id' : string) (sessions : store)
  : result response :=
  match assoc session_id' sessions with
  | None => Ok session_not_found
  | Some session =>
      if py_truthy (PDict (processed_data session))
         && bool_decide (is_Some (assoc "transcript" (processed_data session)))
      then
        section ← py_getitem (PDict (processed_data session)) "transcript";
        transcript ← py_get section "transcript" (PList []);
        message_count ← py_get section "message_count" (PInt 0);
        Ok (transcript_response session_id' transcript message_count)
      else
        transcript ← raw_transcript_loop (webhook_data session) [];
        Ok (transcript_response session_id' (PList transcript)
              (PInt (Z.of_nat (length transcript))))
  end.

(** [get_staged_transcript] *)
Definition get_staged_transcript (session_id' : string) (sessions : store)
  : result response :=
  match assoc session_id' sessions with
  | None => Ok session_not_found
  | Some session =>
      if py_truthy (PDict (processed_data session))
         && bool_decide
              (is_Some (assoc "classified_transcript" (processed_data session)))
      then
        section ←
          py_getitem (PDict (processed_data session)) "classified_transcript";
        transcript ← py_get section "transcript" (PList []);
        message_count ← py_get section "message_count" (PInt 0);
        Ok (transcript_response session_id' transcript message_count)
      else
        Ok (transcript_response session_id' (PList []) (PInt 0))
  end.

Definition no_processed_data : response :=
  {| status_code := 404;
     response_body := [("error", PStr "No processed data available yet")] |}.

(** [get_call_summary].  The lookups the source repeats
    ([session.processed_data.get('statistics', {})], ...) are written
    once, where they first occur. *)
Definition get_call_summary (session_id' : string) (sessions : store)
  : result response :=
  match assoc session_id' sessions with
  | None => Ok session_not_found
  | Some session =>
      let processed := PDict (processed_data session) in
      if negb (py_truthy processed) then Ok no_processed_data
      else
        timestamp ← py_get processed "timestamp" PNone;
        transcript ← py_get processed "transcript" empty_dict;
        message_count ← py_get transcript "message_count" (PInt 0);
        agent ← py_get processed "agent_id" PNone;
        statistics ← py_get processed "statistics" empty_dict;
        duration ← py_get statistics "call_duration_formatted" PNone;
        start_time ← py_get statistics "start_time" PNone;
        termination_reason ← py_get statistics "termination_reason" PNone;
        costs ← py_get statistics "costs" empty_dict;
        features_used ← py_get statistics "features_used" (PList []);
        analysis ← py_get processed "analysis" empty_dict;
        analysis_summary ← py_get analysis "summary" PNone;
        call_successful ← py_get analysis "call_successful" PNone;
        collected_data ← py_get analysis "collected_data" empty_dict;
        collected_data_count ← py_len collected_data;
        let summary : dict :=
          [("session_id", PStr session_id');
           ("conversation_id", conversation_id session);
           ("status", PStr (status_value (status session)));
           ("timestamp", timestamp);
           ("transcript_summary",
            PDict [("message_count", message_count); ("agent_id", agent)]);
           ("call_statistics",
            PDict [("duration", duration);
                   ("start_time", start_time);
                   ("termination_reason", termination_reason);
                   ("costs", costs);
                   ("features_used", features_used)]);
           ("analysis",
            PDict [("summary", analysis_summary);
                   ("call_successful", call_successful);
                   ("collected_data_count", PInt collected_data_count)])] in
        summary ←
          match assoc "analysis" (processed_data session) with
          | None => Ok summary
          | Some analysis' =>
              present ← py_contains "collected_data" analysis';
              if (present : bool) then
                collected_data' ← py_getitem analysis' "collected_data";
                patient_info ← extract_key_patient_info collected_data';
                Ok (assoc_set "patient_info" patient_info summary)
              else Ok summary
          end;
        Ok {| status_code := 200; response_body := summary |}
  end.

End Readers.

(** ** The states of the server *)

Section Server.
Context `{PyLib} (WEBHOOK_SECRET : string) (SERVER_PORT : Z).

(** One call of a handler that writes to [sessions]. *)
Inductive step : store -> store -> Prop :=
| step_create_session now fresh_id remote_addr req sessions resp sessions' :
    create_session SERVER_PORT now fresh_id remote_addr req sessions
    = Ok (resp, sessions') ->
    step sessions sessions'
| step_webhook now now_iso req sessions :
    step sessions (snd (fst (webhook WEBHOOK_SECRET now now_iso req sessions)))
| step_join_session data sessions sessions' out :
    handle_join_session data sessions = Ok (sessions', out) ->
    step sessions sessions'
| step_conversation_started now data sessions sessions' out :
    handle_conversation_started now data sessions = Ok (sessions', out) ->
    step sessions sessions'.

(** The stores the server passes through: [sessions] is empty when the
    module is loaded, and only the handlers write to it. *)
Inductive reachable : store -> Prop :=
| reachable_start : reachable []
| reachable_step sessions sessions' :
    reachable sessions -> step sessions sessions' -> reachable sessions'.

End Server.

(** ** Derived notions used in the statements *)

(** What [extract_call_statistics] reports for an amount of [credits]:
    [round(credits / 100000, 4)]. *)
Definition dollars (credits : pyval) : result pyval :=
  quotient ← py_truediv_int credits 100000; py_round quotient 4.

(** The transcript, the statistics and their costs in a processed
    record are dictionaries (or absent). *)
Definition sections_ready (d : dict) : Prop :=
  (exists t, default empty_dict (assoc "transcript" d) = PDict t)
  /\ (exists st costs,
        default empty_dict (assoc "statistics" d) = PDict st
        /\ default empty_dict (assoc "costs" st) = PDict costs).

(** The analysis summary of a processed record is a string. *)
Definition summary_string (d : dict) : Prop :=
  exists a s,
    default empty_dict (assoc "analysis" d) = PDict a
    /\ default (PStr "") (assoc "summary" a) = PStr s.

(** Positions grow along a list of candidates. *)
Definition ascending (l : list (nat * ConversationSession)) : Prop :=
  StronglySorted (fun a b => (fst a < fst b)%nat) l.

(** No two sessions hold the same call identity. *)
Definition unique_call_ids (sessions : store) : Prop :=
  forall i j ki si kj sj c,
    sessions !! i = Some (ki, si) -> sessions !! j = Some (kj, sj) ->
    conversation_id si = PStr c -> conversation_id sj = PStr c -> i = j.

(** ** Concrete inputs *)

(** An implementation of the library interface, on which the handlers
    can be run. *)
Definition sample_lib : PyLib := {|
  hmac_sha256_hexdigest := fun _ _ =>
    "0000000000000000000000000000000000000000000000000000000000000000";
  float_str := fun _ => "nan";
  float_floordiv := fun x _ => x;
  float_mod := fun x _ => x;
  container_str := fun _ => "[]";
  str_title := fun s => s;
  fromtimestamp_isoformat := fun _ => Raise OverflowError;
  isoformat := fun t => int_str t;
  exn_str := fun _ => "";
  classify_conversation_stages := fun _ => Raise (ExternalError "offline");
|}.

(** A payload whose charging block is
    [call_charge=100000, llm_charge=50000] with [cost=150000]. *)
Definition charging_example : pyval :=
  PDict [("type", PStr "post_call_transcription");
         ("data",
          PDict [("metadata",
                  PDict [("cost", PInt 150000);
                         ("charging",
                          PDict [("call_charge", PInt 100000);
                                 ("llm_charge", PInt 50000)])])])].

(** Session A (agent X, created at T0 = 0, initializing) and session B
    (agent Y, created ten seconds later, active). *)
Definition session_a : ConversationSession :=
  {| session_id := "session-a"; agent_id := "agent-x";
     conversation_id := PNone; status := INITIALIZING;
     created_at := 0; updated_at := 0;
     metadata := []; webhook_data := []; processed_data := [] |}.

Definition session_b : ConversationSession :=
  {| session_id := "session-b"; agent_id := "agent-y";
     conversation_id := PNone; status := ACTIVE;
     created_at := 10000000; updated_at := 10000000;
     metadata := []; webhook_data := []; processed_data := [] |}.

Definition two_sessions : store :=
  [("session-a", session_a); ("session-b", session_b)].

(** A completion callback for [agent] about the call [conversation]. *)
Definition completion_data (conversation agent : string) : pyval :=
  PDict [("conversation_id", PStr conversation); ("agent_id", PStr agent)].

(** A request that carries [signature] and whose body parses to [json]. *)
Definition signed_request (signature raw : string) (json : result pyval)
  : request :=
  {| signature_header := Some signature; body := raw; request_json := json |}.

Definition sample_signature : string :=
  "0000000000000000000000000000000000000000000000000000000000000000".

(** The [conversation_started] event by which a client asserts that
    [session] carries the call [conversation], and the session it
    leaves. *)
Definition started_event (session conversation : string) : pyval :=
  PDict [("session_id", PStr session); ("conversation_id", PStr conversation)].

Definition started (now : Z) (conversation : string) (s : ConversationSession)
  : ConversationSession :=
  set_updated_at now (set_status ACTIVE (set_conversation_id (PStr conversation) s)).

(** A summary of 201 characters. *)
Definition long_summary : string :=
  string_of_list_ascii (repeat "a"%char 201).

(** A post-call callback about the call [conversation] of [agent] whose
    analysis carries [summary]. *)
Definition post_call_entries (conversation agent : string) (summary : pyval)
  : dict :=
  [("type", PStr "post_call_transcription");
   ("data",
    PDict [("conversation_id", PStr conversation);
           ("agent_id", PStr agent);
           ("analysis", PDict [("transcript_summary", summary)])])].

Definition post_call_payload (conversation agent : string) (summary : pyval)
  : pyval :=
  PDict (post_call_entries conversation agent summary).

(** ** Notions used in the statements about the normaliser *)

(** What [extract_transcript_data] keeps of a transcript entry, and
    whether the entry carries a message. *)
Definition formatted_entry (entry : dict) : pyval :=
  PDict [("role", default (PStr "unknown") (assoc "role" entry));
         ("message", default (PStr "") (assoc "message" entry));
         ("time_in_call_secs", default (PInt 0) (assoc "time_in_call_secs" entry));
         ("interrupted", default (PBool false) (assoc "interrupted" entry));
         ("source_medium", default (PStr "unknown") (assoc "source_medium" entry))].

Definition has_message (entry : dict) : bool :=
  py_truthy (default (PStr "") (assoc "message" entry)).

(** A feature counts as used when its details are [True] or a
    dictionary with a true [used]. *)
Definition feature_used (details : pyval) : bool :=
  match details with
  | PDict d => py_truthy (default PNone (assoc "used" d))
  | PBool b => b
  | _ => false
  end.

(** The [json_schema] of a collected item: a dictionary, empty when the
    item has none. *)
Definition schema_of (item : dict) : option dict :=
  match assoc "json_schema" item with
  | None => Some []
  | Some (PDict schema) => Some schema
  | Some _ => None
  end.

(** What [extract_analysis_data] keeps of a collected item. *)
Definition collected_entry (item : dict) : pyval :=
  let schema := default [] (schema_of item) in
  PDict [("value", default PNone (assoc "value" item));
         ("type", default (PStr "unknown") (assoc "type" schema));
         ("description", default (PStr "") (assoc "description" schema));
         ("rationale", default (PStr "") (assoc "rationale" item))].

(** A dictionary of dictionaries, as a value. *)
Definition dict_of_dicts (items : list (string * dict)) : pyval :=
  PDict (map (fun kv => (fst kv, PDict (snd kv))) items).

(** The [value] of a collected field, [dflt] when the field is absent. *)
Definition key_field (collected : dict) (key : string) (dflt : pyval) : pyval :=
  match assoc key collected with
  | Some (PDict item) => default dflt (assoc "value" item)
  | _ => dflt
  end.

(** Every item of the collected data is a dictionary with a [value]. *)
Definition items_with_value (collected : dict) : Prop :=
  forall key item,
    assoc key collected = Some item ->
    exists fields, item = PDict fields /\ is_Some (assoc "value" fields).

(** The tokens a usage record reports in one of its sections
    ([input], [output_total]); 0 when the record has none. *)
Definition usage_tokens (section : string) (usage : dict) : Z :=
  match default empty_dict (assoc section usage) with
  | PDict s =>
      match default (PInt 0) (assoc "tokens" s) with
      | PInt n => n
      | _ => 0
      end
  | _ => 0
  end.

(** A price as the running total of a model holds it: the initial 0 or
    a [float]. *)
Definition is_price (v : pyval) : bool :=
  match v with
  | PInt 0 | PFloat _ => true
  | _ => false
  end.

(** A usage record as the service sends it: the two sections are
    dictionaries (or absent), with an [int] number of tokens and a
    [float] price where they are present. *)
Definition section_metered (section : string) (usage : dict) : bool :=
  match default empty_dict (assoc section usage) with
  | PDict s =>
      match default (PInt 0) (assoc "tokens" s) with
      | PInt _ => true
      | _ => false
      end
      && is_price (default (PInt 0) (assoc "price" s))
  | _ => false
  end.

Definition metered (usage : dict) : bool :=
  section_metered "input" usage && section_metered "output_total" usage.

(** The tokens the usage records of [model] report, summed. *)
Fixpoint tokens_of (section model : string) (models : list (string * dict)) : Z :=
  match models with
  | [] => 0
  | (name, usage) :: models' =>
      (if String.eqb name model then usage_tokens section usage else 0)
      + tokens_of section model models'
  end.

(** An entry of [llm_details]. *)
Definition model_total (field model : string) (llm_details : dict)
  : option pyval :=
  match assoc model llm_details with
  | Some (PDict totals) => assoc field totals
  | _ => None
  end.

Definition total_tokens (field model : string) (llm_details : dict) : Z :=
  match model_total field model llm_details with
  | Some (PInt n) => n
  | _ => 0
  end.

(** Every entry of [llm_details] holds two token counts and a price. *)
Definition running_totals (llm_details : dict) : Prop :=
  forall model entry,
    assoc model llm_details = Some entry ->
    exists a b c,
      entry = PDict [("total_input_tokens", PInt a);
                     ("total_output_tokens", PInt b);
                     ("total_cost", c)]
      /\ is_price c = true.

(** ** Notions used in the statements about the read endpoints *)

(** A raw event as [webhook] stores it. *)
Definition raw_event (ev : pyval * string * dict) : pyval :=
  let '(type, timestamp, data) := ev in
  PDict [("type", type); ("timestamp", PStr timestamp); ("data", PDict data)].

(** The messages a raw event adds to the fallback transcript: the
    [transcript] of a [conversation.update], nothing otherwise. *)
Definition update_messages (ev : pyval * string * dict) : list pyval :=
  let '(type, _, data) := ev in
  if py_eq type (PStr "conversation.update") then
    match assoc "transcript" data with
    | Some (PList messages) => messages
    | _ => []
    end
  else [].

(** The transcript of an update is a list, where there is one. *)
Definition update_with_list (ev : pyval * string * dict) : Prop :=
  let '(type, _, data) := ev in
  py_eq type (PStr "conversation.update") = true ->
  assoc "transcript" data = None
  \/ exists messages, assoc "transcript" data = Some (PList messages).

(** ** Notions used in the statements about the states of the server *)

(** A processed record that the read endpoints can take apart: its
    sections are dictionaries (or absent), and so are the analysis, its
    collected data and every collected item. *)
Definition record_ready (d : dict) : Prop :=
  sections_ready d
  /\ exists analysis collected,
       default empty_dict (assoc "analysis" d) = PDict analysis
       /\ default empty_dict (assoc "collected_data" analysis) = PDict collected
       /\ items_with_value collected.

(** What the handlers maintain of the session stored under [key]. *)
Definition well_formed_session (key : string) (s : ConversationSession) : Prop :=
  session_id s = key
  /\ (exists agent_key name role,
        assoc agent_key agent_configs = Some (agent_id s, name, role))
  /\ (status s = INITIALIZING ->
      conversation_id s = PNone /\ processed_data s = [])
  /\ Forall (fun ev => exists e, ev = raw_event e) (webhook_data s)
  /\ record_ready (processed_data s).

(** ** Further concrete inputs *)

(** Three transcript entries; the second carries no message. *)
Definition three_entries : list dict :=
  [[("role", PStr "agent"); ("message", PStr "Hello")];
   [("role", PStr "user"); ("message", PStr "")];
   [("role", PStr "user"); ("message", PStr "Hi");
    ("time_in_call_secs", PInt 3)]].

Definition transcript_fields (transcript : pyval) : dict :=
  [("conversation_id", PStr "conv-1"); ("transcript", transcript)].

Definition transcript_payload (transcript : pyval) : dict :=
  [("type", PStr "post_call_transcription");
   ("data", PDict (transcript_fields transcript))].

(** A post-call callback whose data carry only [metadata]. *)
Definition metadata_payload (metadata : dict) : dict :=
  [("type", PStr "post_call_transcription");
   ("data", PDict [("metadata", PDict metadata)])].

(** A post-call callback whose data carry only [analysis]. *)
Definition analysis_payload (analysis : dict) : dict :=
  [("type", PStr "post_call_transcription");
   ("data", PDict [("analysis", PDict analysis)])].

(** Two collected items: a name with its schema, and a date of birth
    without value. *)
Definition two_items : list (string * dict) :=
  [("patient_name",
    [("value", PStr "Ada");
     ("json_schema", PDict [("type", PStr "string")])]);
   ("patient_dob", [("rationale", PStr "not mentioned")])].

(** The usage of two models during a call: [gpt] in both kinds of
    generation, [claude] in the second only. *)
Definition usage (input output : Z) : dict :=
  [("input", PDict [("tokens", PInt input); ("price", PFloat 0.5)]);
   ("output_total", PDict [("tokens", PInt output)])].

Definition first_models : list (string * dict) := [("gpt", usage 100 20)].

Definition second_models : list (string * dict) :=
  [("claude", usage 7 1); ("gpt", usage 30 5)].

Definition llm_usage_example : dict :=
  [("irreversible_generation",
    PDict [("model_usage", dict_of_dicts first_models)]);
   ("initiated_generation",
    PDict [("model_usage", dict_of_dicts second_models)])].

(** An implementation of [str.upper] for the letters of ASCII. *)
Definition ascii_upper (s : string) : string :=
  string_of_list_ascii
    (map (fun c => let n := nat_of_ascii c in
                   if (97 <=? n)%nat && (n <=? 122)%nat
                   then ascii_of_nat (n - 32) else c)
         (list_ascii_of_string s)).

(** An entry without message, and one whose role is [null]. *)
Definition silent_entry : dict :=
  [("role", PStr "user"); ("message", PStr ""); ("time_in_call_secs", PInt 4)].

Definition anonymous_entry : dict :=
  [("role", PNone); ("message", PStr "")].

(** A header with a character outside ASCII. *)
Definition latin_header : string := String (ascii_of_nat 233) "0".

(** Session A after the call ["conv-0"] has ended, and a store in which
    no session is in progress close to time 400 s. *)
Definition session_a_done : ConversationSession :=
  set_status COMPLETED (set_conversation_id (PStr "conv-0") session_a).

Definition quiet_sessions : store :=
  [("session-a", session_a_done); ("session-b", session_b)].

(** A callback that names no call. *)
Definition anonymous_update : dict :=
  [("type", PStr "conversation.update");
   ("data", PDict [("agent_id", PStr "agent-q")])].

(** A signed post-call callback about the call ["conv-1"] of agent X. *)
Definition post_call_request : request :=
  signed_request sample_signature "{}"
    (Ok (post_call_payload "conv-1" "agent-x" (PStr "Patient confirmed."))).

(** A request to create a session for the agent registered as [key]. *)
Definition create_request (key : pyval) : request :=
  {| signature_header := None; body := "{}";
     request_json := Ok (PDict [("agent_key", key)]) |}.

(** Three raw events: two updates around the start of the call. *)
Definition three_events : list (pyval * string * dict) :=
  [(PStr "conversation.update", "t1",
    [("transcript", PList [PStr "Hello"])]);
   (PStr "conversation.started", "t2", [("transcript", PList [PStr "x"])]);
   (PStr "conversation.update", "t3",
    [("transcript", PList [PStr "Hi"; PStr "Bye"])])].

Definition session_with_events : ConversationSession :=
  {| session_id := "session-e"; agent_id := "agent-x";
     conversation_id := PStr "conv-1"; status := ACTIVE;
     created_at := 0; updated_at := 0; metadata := [];
     webhook_data := map raw_event three_events;
     processed_data := [] |}.

(** The library interface with a classifier that answers. *)
Definition staging_lib : PyLib := {|
  hmac_sha256_hexdigest := @hmac_sha256_hexdigest sample_lib;
  float_str := @float_str sample_lib;
  float_floordiv := @float_floordiv sample_lib;
  float_mod := @float_mod sample_lib;
  container_str := @container_str sample_lib;
  str_title := @str_title sample_lib;
  fromtimestamp_isoformat := @fromtimestamp_isoformat sample_lib;
  isoformat := @isoformat sample_lib;
  exn_str := @exn_str sample_lib;
  classify_conversation_stages := fun _ =>
    Ok (PDict [("transcript", PList [PStr "greeting"]);
               ("message_count", PInt 1)]);
|}.

(** Session A once the post-call transcription of ["conv-1"] has been
    processed with the library [lib]. *)
Definition processed_session (lib : PyLib) : ConversationSession :=
  set_processed_data
    (@post_call_processing lib "2025-01-01T00:00:20"
       (post_call_payload "conv-1" "agent-x" (PStr "Patient confirmed.")) [])
    session_a.

(** * Properties *)

(** ** Tools *)

Lemma bind_Ok {A B} (m : result A) (f : A -> result B) (b : B) :
  (x ← m; f x) = Ok b -> exists a, m = Ok a /\ f a = Ok b.
Proof. destruct m as [a|e]; simpl; [eauto | discriminate]. Qed.

Ltac bind_inv H :=
  repeat (apply bind_Ok in H as (? & _ & H)).

Lemma py_eq_str (s t : string) : py_eq (PStr s) (PStr t) = String.eqb s t.
Proof. reflexivity. Qed.

Lemma py_eq_str_l (s : string) (v : pyval) :
  py_eq (PStr s) v = true <-> v = PStr s.
Proof.
  split.
  - destruct v; simpl; try discriminate.
    intros Heq. apply String.eqb_eq in Heq. congruence.
  - intros ->. simpl. apply String.eqb_refl.
Qed.

Lemma py_eq_str_r (v : pyval) (s : string) :
  py_eq v (PStr s) = true <-> v = PStr s.
Proof.
  split.
  - destruct v as [| | | |t| |]; simpl; try discriminate.
    intros Heq. apply String.eqb_eq in Heq. congruence.
  - intros ->. simpl. apply String.eqb_refl.
Qed.

Lemma assoc_set_ne {V} (k k' : string) (v : V) (d : list (string * V)) :
  k <> k' -> assoc k (assoc_set k' v d) = assoc k d.
Proof.
  intros Hne. induction d as [|[k0 v0] d IH]; simpl.
  - destruct (String.eqb_spec k k'); [contradiction | reflexivity].
  - destruct (String.eqb_spec k' k0) as [->|Hne0]; simpl.
    + destruct (String.eqb_spec k k0); [contradiction | reflexivity].
    + destruct (String.eqb_spec k k0); [reflexivity | exact IH].
Qed.

Lemma lookup_assoc_set_inv {V} (k : string) (v : V) (d : list (string * V)) i kv :
  assoc_set k v d !! i = Some kv -> kv = (k, v) \/ d !! i = Some kv.
Proof.
  revert i. induction d as [|[k0 v0] d IH]; intros i; simpl.
  - destruct i; simpl; [intros [= <-]; auto | discriminate].
  - destruct (String.eqb k k0).
    + destruct i; simpl; [intros [= <-]; auto | auto].
    + destruct i; simpl; [auto | apply IH].
Qed.

(** ** Duration formatting (C8) *)

Section FormatDuration.
Context `{PyLib}.

Lemma format_duration_seconds (s : Z) :
  0 <= s < 60 -> format_duration (PInt s) = Ok (int_str s ++ " seconds")%string.
Proof.
  intros Hs. unfold format_duration. simpl.
  destruct (Z.ltb_spec s 60) as [_|Hge]; [reflexivity | lia].
Qed.

Lemma format_duration_minutes (m r : Z) :
  1 <= m < 60 -> 0 <= r < 60 ->
  format_duration (PInt (60 * m + r))
  = Ok (int_str m ++ "m " ++ int_str r ++ "s")%string.
Proof.
  intros Hm Hr. unfold format_duration. simpl.
  destruct (Z.ltb_spec (60 * m + r) 60) as [Hlt|_]; [lia|].
  destruct (Z.ltb_spec (60 * m + r) 3600) as [_|Hge]; [|lia].
  simpl.
  replace ((60 * m + r) / 60) with m by (apply Z.div_unique with r; lia).
  replace ((60 * m + r) mod 60) with r by (apply Z.mod_unique with m; lia).
  reflexivity.
Qed.

Lemma format_duration_hours (h m r : Z) :
  1 <= h -> 0 <= m < 60 -> 0 <= r < 60 ->
  format_duration (PInt (3600 * h + 60 * m + r))
  = Ok (int_str h ++ "h " ++ int_str m ++ "m " ++ int_str r ++ "s")%string.
Proof.
  intros Hh Hm Hr. unfold format_duration. simpl.
  set (s := 3600 * h + 60 * m + r).
  destruct (Z.ltb_spec s 60) as [Hlt|_]; [lia|].
  destruct (Z.ltb_spec s 3600) as [Hlt|_]; [lia|].
  simpl.
  assert (Hq : s / 3600 = h)
    by (symmetry; apply Z.div_unique with (60 * m + r); lia).
  assert (Hrest : s mod 3600 = 60 * m + r)
    by (symmetry; apply Z.mod_unique with h; lia).
  assert (Hmin : (60 * m + r) / 60 = m)
    by (symmetry; apply Z.div_unique with r; lia).
  assert (Hsec : s mod 60 = r)
    by (symmetry; apply Z.mod_unique with (60 * h + m); lia).
  rewrite Hq, Hrest, Hmin, Hsec. reflexivity.
Qed.

(** C8.  For a non-negative number of seconds [format_duration] renders
    a duration below one minute as the number of seconds followed by
    " seconds", a duration of [m] minutes and [r] seconds below one hour
    as "[m]m [r]s", and a duration of [h >= 1] hours, [m] minutes and [r]
    seconds as "[h]h [m]m [r]s"; 45, 125 and 3725 seconds give
    "45 seconds", "2m 5s" and "1h 2m 5s". *)
Theorem format_duration_renders :
  (forall s, 0 <= s < 60 ->
     format_duration (PInt s) = Ok (int_str s ++ " seconds")%string)
  /\ (forall m r, 1 <= m < 60 -> 0 <= r < 60 ->
        format_duration (PInt (60 * m + r))
        = Ok (int_str m ++ "m " ++ int_str r ++ "s")%string)
  /\ (forall h m r, 1 <= h -> 0 <= m < 60 -> 0 <= r < 60 ->
        format_duration (PInt (3600 * h + 60 * m + r))
        = Ok (int_str h ++ "h " ++ int_str m ++ "m " ++ int_str r ++ "s")%string)
  /\ format_duration (PInt 45) = Ok "45 seconds"
  /\ format_duration (PInt 125) = Ok "2m 5s"
  /\ format_duration (PInt 3725) = Ok "1h 2m 5s".
Proof.
  split; [exact format_duration_seconds|].
  split; [exact format_duration_minutes|].
  split; [exact format_duration_hours|].
  repeat split; reflexivity.
Qed.

End FormatDuration.

Lemma format_duration_renders_witness :
  @format_duration sample_lib (PInt 59) = Ok "59 seconds"
  /\ @format_duration sample_lib (PInt (60 * 59 + 59)) = Ok "59m 59s"
  /\ @format_duration sample_lib (PInt (3600 * 100 + 60 * 0 + 7)) = Ok "100h 0m 7s".
Proof.
  destruct (@format_duration_renders sample_lib) as (Hs & Hm & Hh & _).
  split; [exact (Hs 59 ltac:(lia))|].
  split; [exact (Hm 59 59 ltac:(lia) ltac:(lia))|].
  exact (Hh 100 0 7 ltac:(lia) ltac:(lia) ltac:(lia)).
Defined.

(** ** The payload normaliser (C5, C9) *)

Section Normaliser.
Context `{PyLib}.

Lemma process_post_call_webhook_ok (now_iso : string) (payload : dict) :
  exists r, process_post_call_webhook now_iso (PDict payload) = Ok r.
Proof.
  unfold process_post_call_webhook. simpl. destruct (negb _); eauto.
Qed.

Lemma extract_transcript_data_dict (payload v : pyval) :
  extract_transcript_data payload = Ok v -> exists t, v = PDict t.
Proof.
  unfold extract_transcript_data. intros Hv. bind_inv Hv.
  injection Hv as <-. eauto.
Qed.

Lemma extract_call_statistics_dict (payload v : pyval) :
  extract_call_statistics payload = Ok v ->
  exists st costs, v = PDict st /\ assoc "costs" st = Some (PDict costs).
Proof.
  unfold extract_call_statistics. intros Hv. bind_inv Hv.
  injection Hv as <-. eexists _, _. split; reflexivity.
Qed.

(** C5.  On a payload that is a dictionary, as its annotation
    [Dict[str, Any]] says and as [webhook] passes it,
    [process_post_call_webhook] never raises: it always returns a result,
    the result carries the payload itself under ["raw_data"], and when the
    type is not ["post_call_transcription"], or when one of the three
    extractions raises, the result is the error-tagged one: an ["error"]
    entry and the unchanged payload, nothing else. *)
Theorem process_post_call_webhook_never_raises (now_iso : string) (payload : dict) :
  exists r,
    process_post_call_webhook now_iso (PDict payload) = Ok r
    /\ assoc "raw_data" r = Some (PDict payload)
    /\ (assoc "type" payload <> Some (PStr "post_call_transcription") ->
        exists message, r = [("error", PStr message); ("raw_data", PDict payload)])
    /\ (raises (extract_transcript_data (PDict payload)) = true
        \/ raises (extract_call_statistics (PDict payload)) = true
        \/ raises (extract_analysis_data (PDict payload)) = true ->
        exists message, r = [("error", PStr message); ("raw_data", PDict payload)]).
Proof.
  unfold process_post_call_webhook. simpl.
  destruct (py_eq (default (PStr "") (assoc "type" payload))
                  (PStr "post_call_transcription")) eqn:Htype; simpl.
  - apply py_eq_str_r in Htype.
    destruct (extract_transcript_data (PDict payload)) as [transcript|e1] eqn:Ht;
      simpl.
    2: { eexists. split; [reflexivity|]. split; [reflexivity|].
         split; intros _; eexists; reflexivity. }
    destruct (extract_call_statistics (PDict payload)) as [statistics|e2] eqn:Hs;
      simpl.
    2: { eexists. split; [reflexivity|]. split; [reflexivity|].
         split; intros _; eexists; reflexivity. }
    destruct (extract_analysis_data (PDict payload)) as [analysis|e3] eqn:Ha;
      simpl.
    2: { eexists. split; [reflexivity|]. split; [reflexivity|].
         split; intros _; eexists; reflexivity. }
    apply extract_transcript_data_dict in Ht as [d ->]. simpl.
    eexists. split; [reflexivity|]. split; [reflexivity|]. split.
    + intros Hne. destruct (assoc "type" payload) as [v|]; simpl in Htype.
      * subst v. congruence.
      * discriminate.
    + intros [Hr | [Hr | Hr]]; discriminate.
  - eexists. split; [reflexivity|]. split; [reflexivity|].
    split; intros _; eexists; reflexivity.
Qed.

Lemma costs_of_credits (payload stats : pyval) :
  extract_call_statistics payload = Ok stats ->
  exists data metadata charging call_charge llm_charge cost
         fields costs call_dollars llm_dollars total_dollars,
    py_get payload "data" empty_dict = Ok data
    /\ py_get data "metadata" empty_dict = Ok metadata
    /\ py_get metadata "charging" empty_dict = Ok charging
    /\ py_get charging "call_charge" (PInt 0) = Ok call_charge
    /\ py_get charging "llm_charge" (PInt 0) = Ok llm_charge
    /\ py_get metadata "cost" (PInt 0) = Ok cost
    /\ stats = PDict fields
    /\ assoc "costs" fields = Some (PDict costs)
    /\ dollars call_charge = Ok call_dollars
    /\ dollars llm_charge = Ok llm_dollars
    /\ dollars cost = Ok total_dollars
    /\ assoc "call_cost_dollars" costs = Some call_dollars
    /\ assoc "llm_cost_dollars" costs = Some llm_dollars
    /\ assoc "total_cost_dollars" costs = Some total_dollars.
Proof.
  intros Hret. unfold extract_call_statistics in Hret.
  apply bind_Ok in Hret as (data & Hdata & Hret).
  apply bind_Ok in Hret as (metadata & Hmeta & Hret).
  apply bind_Ok in Hret as (charging & Hcharging & Hret).
  apply bind_Ok in Hret as (call_charge & Hcall & Hret).
  apply bind_Ok in Hret as (call_raw & Hc & Hret).
  apply bind_Ok in Hret as (llm_charge & Hllm & Hret).
  apply bind_Ok in Hret as (llm_raw & Hl & Hret).
  apply bind_Ok in Hret as (cost & Hcost & Hret).
  apply bind_Ok in Hret as (total_raw & Ht & Hret).
  do 8 (apply bind_Ok in Hret as (? & _ & Hret)).
  apply bind_Ok in Hret as (total_rounded & Htr & Hret).
  apply bind_Ok in Hret as (call_rounded & Hcr & Hret).
  apply bind_Ok in Hret as (llm_rounded & Hlr & Hret).
  do 2 (apply bind_Ok in Hret as (? & _ & Hret)).
  injection Hret as <-.
  exists data, metadata, charging, call_charge, llm_charge, cost.
  eexists _, _, call_rounded, llm_rounded, total_rounded.
  repeat (split; [eassumption || reflexivity|]).
  unfold dollars. rewrite Hc, Hl, Ht. simpl.
  repeat split; assumption.
Qed.

End Normaliser.

Lemma process_post_call_webhook_never_raises_witness :
  (exists message,
     @process_post_call_webhook sample_lib "2025-01-01T00:00:00"
       (PDict [("type", PStr "conversation.update")])
     = Ok [("error", PStr message);
           ("raw_data", PDict [("type", PStr "conversation.update")])])
  /\ (exists message,
        @process_post_call_webhook sample_lib "2025-01-01T00:00:00"
          (PDict [("type", PStr "post_call_transcription");
                  ("data", PDict [("transcript", PInt 5)])])
        = Ok [("error", PStr message);
              ("raw_data",
               PDict [("type", PStr "post_call_transcription");
                      ("data", PDict [("transcript", PInt 5)])])]).
Proof.
  split.
  - destruct (@process_post_call_webhook_never_raises sample_lib
                "2025-01-01T00:00:00" [("type", PStr "conversation.update")])
      as (r & Hr & _ & Htype & _).
    destruct Htype as [message ->]; [simpl; discriminate|].
    exists message. exact Hr.
  - destruct (@process_post_call_webhook_never_raises sample_lib
                "2025-01-01T00:00:00"
                [("type", PStr "post_call_transcription");
                 ("data", PDict [("transcript", PInt 5)])])
      as (r & Hr & _ & _ & Hfail).
    destruct Hfail as [message ->]; [left; reflexivity|].
    exists message. exact Hr.
Defined.

Section CostConversion.
Context `{PyLib}.

(** C9.  [extract_call_statistics] converts credits to currency by
    dividing by 100000, separately for the three amounts: whenever it
    returns, the entries [call_cost_dollars], [llm_cost_dollars] and
    [total_cost_dollars] of its [costs] are [round(c / 100000, 4)] for,
    respectively, the [call_charge] and the [llm_charge] of the charging
    block and the [cost] of the metadata (each 0 when absent).  For
    100000, 50000 and 150000 credits these are 1.0, 0.5 and 1.5, and on
    the payload [charging_example] the function returns exactly these
    three values. *)
Theorem cost_conversion :
  (forall payload stats : pyval,
     extract_call_statistics payload = Ok stats ->
     exists data metadata charging call_charge llm_charge cost
            fields costs call_dollars llm_dollars total_dollars,
       py_get payload "data" empty_dict = Ok data
       /\ py_get data "metadata" empty_dict = Ok metadata
       /\ py_get metadata "charging" empty_dict = Ok charging
       /\ py_get charging "call_charge" (PInt 0) = Ok call_charge
       /\ py_get charging "llm_charge" (PInt 0) = Ok llm_charge
       /\ py_get metadata "cost" (PInt 0) = Ok cost
       /\ stats = PDict fields
       /\ assoc "costs" fields = Some (PDict costs)
       /\ dollars call_charge = Ok call_dollars
       /\ dollars llm_charge = Ok llm_dollars
       /\ dollars cost = Ok total_dollars
       /\ assoc "call_cost_dollars" costs = Some call_dollars
       /\ assoc "llm_cost_dollars" costs = Some llm_dollars
       /\ assoc "total_cost_dollars" costs = Some total_dollars)
  /\ dollars (PInt 100000) = Ok (PFloat 1)
  /\ dollars (PInt 50000) = Ok (PFloat 0.5)
  /\ dollars (PInt 150000) = Ok (PFloat 1.5)
  /\ exists fields costs,
       extract_call_statistics charging_example = Ok (PDict fields)
       /\ assoc "costs" fields = Some (PDict costs)
       /\ assoc "call_cost_dollars" costs = Some (PFloat 1)
       /\ assoc "llm_cost_dollars" costs = Some (PFloat 0.5)
       /\ assoc "total_cost_dollars" costs = Some (PFloat 1.5).
Proof.
  split; [exact costs_of_credits|].
  split; [vm_compute; reflexivity|].
  split; [vm_compute; reflexivity|].
  split; [vm_compute; reflexivity|].
  eexists _, _. split; [vm_compute; reflexivity|].
  repeat split; reflexivity.
Qed.

End CostConversion.

(** The quotient is a binary floating-point number and [round] rounds
    its exact value: 15 credits are 0.00015 in decimal, but the double
    nearest to it lies below, so they are reported as 0.0001, while 25
    credits are reported as 0.0003; a negative amount that rounds to
    nothing is reported as -0.0. *)
#[warnings="-inexact-float"]
Example dollars_of_small_amounts :
  dollars (PInt 15) = Ok (PFloat 0.0001)
  /\ dollars (PInt 25) = Ok (PFloat 0.0003)
  /\ dollars (PInt 123456789) = Ok (PFloat 1234.5679)
  /\ dollars (PInt (-4)) = Ok (PFloat (-0))
  /\ dollars (PBool true) = Ok (PFloat 0)
  /\ dollars (PFloat 250000.5) = Ok (PFloat 2.5)
  /\ dollars (PStr "100000") = Raise TypeError.
Proof. repeat split; vm_compute; reflexivity. Qed.

Lemma cost_conversion_witness :
  exists costs,
    (stats ← @extract_call_statistics sample_lib charging_example;
     py_get stats "costs" PNone) = Ok (PDict costs)
    /\ assoc "call_cost_dollars" costs = Some (PFloat 1)
    /\ assoc "llm_cost_dollars" costs = Some (PFloat 0.5)
    /\ assoc "total_cost_dollars" costs = Some (PFloat 1.5).
Proof.
  destruct (@cost_conversion sample_lib)
    as (Hgeneral & Hcall & Hllm & Htotal & (fields0 & costs0 & Hret & _)).
  destruct (Hgeneral charging_example (PDict fields0) Hret)
    as (data & metadata & charging & call_charge & llm_charge & cost
        & fields & costs & c & l & t
        & Hdata & Hmeta & Hcharging & Hcc & Hlc & Hco
        & Hstats & Hcosts & Hc & Hl & Ht & Hac & Hal & Hat).
  injection Hdata as <-. injection Hmeta as <-. injection Hcharging as <-.
  injection Hcc as <-. injection Hlc as <-. injection Hco as <-.
  simpl in Hc, Hl, Ht.
  rewrite Hcall in Hc. rewrite Hllm in Hl. rewrite Htotal in Ht.
  injection Hc as <-. injection Hl as <-. injection Ht as <-.
  injection Hstats as <-.
  exists costs. rewrite Hret. simpl. rewrite Hcosts.
  repeat split; assumption.
Defined.

(** ** Signature verification (C1) *)

Section Signature.
Context `{PyLib} (WEBHOOK_SECRET : string).

Lemma verify_missing_header (req : request) :
  signature_header req = None \/ signature_header req = Some "" ->
  verify_webhook_signature WEBHOOK_SECRET req = false.
Proof.
  unfold verify_webhook_signature. intros [-> | ->]; reflexivity.
Qed.

Lemma verify_matching_header (req : request) :
  signature_header req
  = Some (hmac_sha256_hexdigest WEBHOOK_SECRET (body req)) ->
  hmac_sha256_hexdigest WEBHOOK_SECRET (body req) <> "" ->
  is_ascii (hmac_sha256_hexdigest WEBHOOK_SECRET (body req)) = true ->
  verify_webhook_signature WEBHOOK_SECRET req = true.
Proof.
  intros Hhdr Hne Hexp. unfold verify_webhook_signature. rewrite Hhdr.
  destruct (String.eqb_spec (hmac_sha256_hexdigest WEBHOOK_SECRET (body req)) "")
    as [Heq|_]; [congruence|].
  unfold compare_digest. rewrite Hexp. simpl.
  rewrite String.eqb_refl. reflexivity.
Qed.

(** C1.  Verification must fail when the [elevenlabs-signature] header
    differs from the HMAC-SHA256 hex digest of the body.  The code does
    the opposite: for every non-empty ASCII header that differs from the
    digest, [verify_webhook_signature] returns [True], on the branch that
    logs "Invalid webhook signature". *)
Theorem verify_webhook_signature_accepts_mismatch (req : request)
    (signature : string) :
  signature_header req = Some signature ->
  signature <> "" ->
  is_ascii signature = true ->
  is_ascii (hmac_sha256_hexdigest WEBHOOK_SECRET (body req)) = true ->
  signature <> hmac_sha256_hexdigest WEBHOOK_SECRET (body req) ->
  verify_webhook_signature WEBHOOK_SECRET req = true.
Proof.
  intros Hhdr Hne Hsig Hexp _. unfold verify_webhook_signature.
  rewrite Hhdr.
  destruct (String.eqb_spec signature "") as [->|_]; [congruence|].
  unfold compare_digest. rewrite Hsig, Hexp. simpl.
  destruct (signature =? _)%string; reflexivity.
Qed.

End Signature.

Lemma verify_webhook_signature_accepts_mismatch_witness :
  @verify_webhook_signature sample_lib "secret"
    (signed_request "deadbeef" "{}" (Ok (PDict []))) = true.
Proof.
  apply (@verify_webhook_signature_accepts_mismatch sample_lib "secret"
           (signed_request "deadbeef" "{}" (Ok (PDict []))) "deadbeef").
  - reflexivity.
  - discriminate.
  - reflexivity.
  - reflexivity.
  - discriminate.
Defined.

(** ** Prefixes of strings *)

Lemma substring_split (n : nat) (s : string) :
  (n <= String.length s)%nat ->
  exists tail, s = (String.substring 0 n s ++ tail)%string
               /\ String.length (String.substring 0 n s) = n.
Proof.
  revert n. induction s as [|c s IH]; intros [|n] Hlen; simpl in *.
  - exists ""; auto.
  - lia.
  - exists (String c s). auto.
  - destruct (IH n ltac:(lia)) as (tail & Hs & Hn).
    exists tail. split; [congruence | lia].
Qed.

(** ** Joining a session (C10) *)

Lemma key_index_assoc (k : string) (sessions : store) (s : ConversationSession) :
  assoc k sessions = Some s -> exists i, key_index k sessions = Some i.
Proof.
  induction sessions as [|[k' s'] rest IH]; simpl; [discriminate|].
  destruct (String.eqb k k'); [eauto|].
  intros Ha. destruct (IH Ha) as [i ->]. simpl. eauto.
Qed.

Lemma assoc_update_session (k k' : string) (sessions : store) (i : nat)
    (f : ConversationSession -> ConversationSession) :
  key_index k sessions = Some i ->
  assoc k' (update_session i f sessions)
  = if String.eqb k' k then f <$> assoc k' sessions else assoc k' sessions.
Proof.
  revert i. induction sessions as [|[k0 s0] rest IH]; intros i; simpl.
  - discriminate.
  - destruct (String.eqb_spec k k0) as [->|Hne].
    + intros [= <-]. simpl.
      destruct (String.eqb_spec k' k0) as [->|Hne']; reflexivity.
    + destruct (key_index k rest) as [j|] eqn:Hj; simpl; [|discriminate].
      intros [= <-]. unfold update_session in *. simpl.
      rewrite (IH j eq_refl).
      destruct (String.eqb_spec k' k0) as [->|Hne'].
      * destruct (String.eqb_spec k0 k) as [->|_]; [congruence|reflexivity].
      * reflexivity.
Qed.

(** C10.  For every session of the store, whatever its status, a
    [join_session] event that names it leaves it with status [ACTIVE]
    (so a [COMPLETED] session becomes [ACTIVE] again); nothing else of
    the session changes and no other session is touched. *)
Theorem join_session_sets_active (data : dict) (sessions : store)
    (key : string) (s : ConversationSession) :
  assoc "session_id" data = Some (PStr key) ->
  assoc key sessions = Some s ->
  exists sessions' out,
    handle_join_session (PDict data) sessions = Ok (sessions', out)
    /\ assoc key sessions' = Some (set_status ACTIVE s)
    /\ status (set_status ACTIVE s) = ACTIVE
    /\ (forall key', key' <> key -> assoc key' sessions' = assoc key' sessions).
Proof.
  intros Hdata Hs.
  destruct (key_index_assoc _ _ _ Hs) as [i Hi].
  unfold handle_join_session. simpl. rewrite Hdata. simpl. rewrite Hi.
  eexists _, _. split; [reflexivity|]. split; [|split].
  - rewrite (assoc_update_session key key _ _ _ Hi), String.eqb_refl, Hs.
    reflexivity.
  - reflexivity.
  - intros key' Hne. rewrite (assoc_update_session key key' _ _ _ Hi).
    destruct (String.eqb_spec key' key); [contradiction | reflexivity].
Qed.

Lemma join_session_sets_active_witness :
  exists sessions' out,
    handle_join_session (PDict [("session_id", PStr "session-b")])
      [("session-a", session_a); ("session-b", set_status COMPLETED session_b)]
    = Ok (sessions', out)
    /\ assoc "session-b" sessions'
       = Some (set_status ACTIVE (set_status COMPLETED session_b))
    /\ status (set_status ACTIVE (set_status COMPLETED session_b)) = ACTIVE
    /\ (forall key', key' <> "session-b" ->
          assoc key' sessions'
          = assoc key' [("session-a", session_a);
                        ("session-b", set_status COMPLETED session_b)]).
Proof.
  apply (join_session_sets_active
           [("session_id", PStr "session-b")]
           [("session-a", session_a); ("session-b", set_status COMPLETED session_b)]
           "session-b" (set_status COMPLETED session_b));
    reflexivity.
Defined.

(** ** Correlation (C2, C3) *)

(** No session holds a call identity exactly when the lookup by it
    finds nothing. *)
Lemma find_by_call_id_None (v : pyval) (sessions : store) :
  find_by_call_id v sessions = None <->
  forall i key s, sessions !! i = Some (key, s) ->
                  py_eq (conversation_id s) v = false.
Proof.
  unfold find_by_call_id. rewrite list_find_None, Forall_forall. split.
  - intros Hall i key s Hi.
    destruct (py_eq (conversation_id s) v) eqn:Heq; [|reflexivity].
    destruct (Hall (key, s)); [|exact Heq].
    apply list_elem_of_lookup. eauto.
  - intros Hall [key s] Hin Heq. simpl in Heq.
    apply list_elem_of_lookup in Hin as [i Hi].
    rewrite (Hall i key s Hi) in Heq. discriminate.
Qed.

Lemma in_progress_iff (s : ConversationSession) :
  in_progress s = true <-> status s = INITIALIZING \/ status s = ACTIVE.
Proof.
  unfold in_progress. rewrite orb_true_iff, !bool_decide_eq_true. tauto.
Qed.

Lemma elem_of_enumerate (sessions : store) (i : nat) (s : ConversationSession) :
  (i, s) ∈ enumerate sessions <-> exists key, sessions !! i = Some (key, s).
Proof.
  unfold enumerate. rewrite elem_of_lookup_imap. split.
  - intros (j & [key s'] & [= -> ->] & Hj). eauto.
  - intros (key & Hi). exists i, (key, s). auto.
Qed.

Lemma elem_of_matching_sessions (agent : pyval) (sessions : store) i s :
  (i, s) ∈ matching_sessions agent sessions <->
  (exists key, sessions !! i = Some (key, s))
  /\ py_eq (PStr (agent_id s)) agent = true /\ in_progress s = true.
Proof.
  unfold matching_sessions.
  rewrite list_elem_of_In, filter_In, <- list_elem_of_In, elem_of_enumerate.
  simpl. rewrite andb_true_iff. tauto.
Qed.

Lemma elem_of_recent_sessions (now : Z) (sessions : store) i s :
  (i, s) ∈ recent_sessions now sessions <->
  (exists key, sessions !! i = Some (key, s))
  /\ in_progress s = true /\ now - created_at s < 300000000.
Proof.
  unfold recent_sessions.
  rewrite list_elem_of_In, filter_In, <- list_elem_of_In, elem_of_enumerate.
  simpl. rewrite andb_true_iff, Z.ltb_lt. tauto.
Qed.

(** The running maximum is a candidate and no candidate is later. *)
Lemma max_created_at_spec (candidates : list (nat * ConversationSession)) best :
  let c := max_created_at candidates best in
  c ∈ best :: candidates
  /\ forall c', c' ∈ best :: candidates -> created_at (snd c') <= created_at (snd c).
Proof.
  revert best. induction candidates as [|x rest IH]; intros best; simpl.
  - split; [left|]. intros c' Hc'. apply list_elem_of_singleton in Hc'. subst. lia.
  - destruct (IH (if created_at (snd best) <? created_at (snd x) then x else best))
      as [Hin Hmax].
    split.
    + apply elem_of_cons in Hin as [Heq|Hin].
      * rewrite Heq. destruct (_ <? _); [right; left | left].
      * right; right; exact Hin.
    + intros c' Hc'.
      destruct (Z.ltb_spec (created_at (snd best)) (created_at (snd x))) as [Hlt|Hge].
      * apply elem_of_cons in Hc' as [->|Hc']; [|auto].
        specialize (Hmax x (list_elem_of_here _ _)). lia.
      * apply elem_of_cons in Hc' as [->|Hc']; [apply Hmax; left|].
        apply elem_of_cons in Hc' as [->|Hc'].
        -- specialize (Hmax best (list_elem_of_here _ _)). lia.
        -- apply Hmax. right. exact Hc'.
Qed.

Lemma most_recent_spec (candidates : list (nat * ConversationSession)) c0 :
  c0 ∈ candidates ->
  exists c, most_recent candidates = Some c /\ c ∈ candidates
    /\ forall c', c' ∈ candidates -> created_at (snd c') <= created_at (snd c).
Proof.
  destruct candidates as [|b rest]; [intros Hc; inversion Hc|]. intros _.
  exists (max_created_at rest b). split; [reflexivity|].
  apply max_created_at_spec.
Qed.

Lemma most_recent_lookup (candidates : list (nat * ConversationSession)) c :
  most_recent candidates = Some c -> c ∈ candidates.
Proof.
  destruct candidates as [|b rest]; [discriminate|]. intros [= <-].
  apply max_created_at_spec.
Qed.

Lemma most_recent_nil_inv (candidates : list (nat * ConversationSession)) :
  (forall c, c ∉ candidates) -> most_recent candidates = None.
Proof.
  destruct candidates as [|b rest]; [reflexivity|].
  intros Hn. destruct (Hn b). left.
Qed.

Lemma ascending_imap (n : nat) (sessions : store) :
  ascending (imap (fun i kv => ((n + i)%nat, snd kv)) sessions)
  /\ Forall (fun c => (n <= fst c)%nat)
            (imap (fun i kv => ((n + i)%nat, snd kv)) sessions).
Proof.
  revert n. induction sessions as [|kv rest IH]; intros n; simpl.
  - split; constructor.
  - destruct (IH (S n)) as [Hsorted Hbound].
    assert (Heq : imap ((fun i kv0 => ((n + i)%nat, snd kv0)) ∘ S) rest
                  = imap (fun i kv0 => ((S n + i)%nat, snd kv0)) rest).
    { apply imap_ext. intros i x _. simpl. f_equal. lia. }
    rewrite Heq. split.
    + constructor; [exact Hsorted|].
      eapply Forall_impl; [exact Hbound|]. simpl. intros c Hc. lia.
    + constructor; [simpl; lia|].
      eapply Forall_impl; [exact Hbound|]. simpl. intros c Hc. lia.
Qed.

Lemma ascending_enumerate (sessions : store) : ascending (enumerate sessions).
Proof. apply (ascending_imap 0 sessions). Qed.

Lemma ascending_filter (P : nat * ConversationSession -> bool) l :
  ascending l -> ascending (List.filter P l).
Proof.
  induction 1 as [|c l Hsorted IH Hall]; simpl; [constructor|].
  destruct (P c); [|exact IH].
  constructor; [exact IH|].
  rewrite Forall_forall in Hall |- *. intros x Hx.
  apply Hall. apply list_elem_of_In in Hx. apply filter_In in Hx as [Hx _].
  apply list_elem_of_In. exact Hx.
Qed.

Lemma ascending_before (pre : list (nat * ConversationSession)) c post :
  ascending (pre ++ c :: post)%list ->
  (forall x, x ∈ pre -> (fst x < fst c)%nat)
  /\ (forall x, x ∈ post -> (fst c < fst x)%nat).
Proof.
  induction pre as [|p pre IH]; simpl; intros Hsorted.
  - apply StronglySorted_inv in Hsorted as [_ Hall].
    rewrite Forall_forall in Hall. split; [intros x Hx; inversion Hx|].
    intros x Hx. apply Hall. exact Hx.
  - apply StronglySorted_inv in Hsorted as [Hrest Hall].
    destruct (IH Hrest) as [Hpre Hpost]. split; [|exact Hpost].
    intros x Hx. apply elem_of_cons in Hx as [->|Hx]; [|auto].
    rewrite Forall_forall in Hall. apply Hall.
    apply elem_of_app. right. left.
Qed.

(** The running maximum is the first of the latest candidates. *)
Lemma max_created_at_first (candidates : list (nat * ConversationSession)) best :
  exists pre post : list (nat * ConversationSession),
    best :: candidates = (pre ++ max_created_at candidates best :: post)%list
    /\ (forall x, x ∈ pre ->
          created_at (snd x) < created_at (snd (max_created_at candidates best)))
    /\ (forall x, x ∈ post ->
          created_at (snd x) <= created_at (snd (max_created_at candidates best))).
Proof.
  revert best. induction candidates as [|x rest IH]; intros best; simpl.
  - exists [], []. split; [reflexivity|]. split; intros y Hy; inversion Hy.
  - destruct (Z.ltb_spec (created_at (snd best)) (created_at (snd x))) as [Hlt|Hge].
    + destruct (IH x) as (pre & post & Heq & Hpre & Hpost).
      exists (best :: pre), post. split; [simpl; congruence|]. split; [|exact Hpost].
      intros y Hy. apply elem_of_cons in Hy as [->|Hy]; [|auto].
      destruct (max_created_at_spec rest x) as [_ Hmax].
      specialize (Hmax x (list_elem_of_here _ _)). lia.
    + destruct (IH best) as (pre & post & Heq & Hpre & Hpost).
      destruct pre as [|p pre]; simpl in Heq.
      * injection Heq as Hb Hrest. exists [], (x :: post).
        split; [simpl; congruence|]. split; [intros y Hy; inversion Hy|].
        intros y Hy. apply elem_of_cons in Hy as [->|Hy]; [|auto].
        rewrite <- Hb. exact Hge.
      * injection Heq as Hb Hrest. subst p. exists (best :: x :: pre), post.
        split; [simpl; congruence|]. split; [|exact Hpost].
        intros y Hy.
        assert (Hbest : created_at (snd best)
                        < created_at (snd (max_created_at rest best)))
          by (apply Hpre; left).
        apply elem_of_cons in Hy as [->|Hy]; [exact Hbest|].
        apply elem_of_cons in Hy as [->|Hy]; [lia|].
        apply Hpre. right. exact Hy.
Qed.

(** Of the candidates of an enumeration, [most_recent] returns the one
    at the lowest position among the latest. *)
Lemma most_recent_first (P : nat * ConversationSession -> bool)
    (sessions : store) i s :
  most_recent (List.filter P (enumerate sessions)) = Some (i, s) ->
  forall j s', (j, s') ∈ List.filter P (enumerate sessions) -> (j < i)%nat ->
               created_at s' < created_at s.
Proof.
  intros Hmost j s' Hin Hlt.
  pose proof (ascending_filter P _ (ascending_enumerate sessions)) as Hsorted.
  destruct (List.filter P (enumerate sessions)) as [|b rest]; [discriminate|].
  injection Hmost as Hmost.
  destruct (max_created_at_first rest b) as (pre & post & Heq & Hpre & Hpost).
  rewrite Hmost in Heq, Hpre, Hpost. rewrite Heq in Hsorted, Hin.
  destruct (ascending_before _ _ _ Hsorted) as [Hbefore Hafter].
  apply elem_of_app in Hin as [Hin|Hin].
  - apply (Hpre _ Hin).
  - apply elem_of_cons in Hin as [[= -> ->]|Hin]; [lia|].
    specialize (Hafter _ Hin). simpl in Hafter. lia.
Qed.

Lemma lookup_update_session (sessions : store) i f key s :
  sessions !! i = Some (key, s) ->
  update_session i f sessions !! i = Some (key, f s).
Proof.
  intros Hi. unfold update_session. rewrite list_lookup_alter_eq, Hi. reflexivity.
Qed.

Lemma lookup_update_session_ne (sessions : store) i j f :
  i <> j -> update_session i f sessions !! j = sessions !! j.
Proof. intros Hne. unfold update_session. apply list_lookup_alter_ne. exact Hne. Qed.

(** C2, as the code has it.  For a callback of type
    ["post_call_transcription"] (the one type for which [webhook] runs
    its fallbacks) whose call identity
    no session holds and which declares the agent identity [agent]: if
    some session of that agent is initializing or active, correlation
    selects the session of that agent which is initializing or active and
    whose [created_at] is the latest among those (of several equally
    late ones, the one created first: every such session at an earlier
    position is strictly older), sets its [conversation_id] to the
    declared call identity and its status to [ACTIVE], and leaves the
    other sessions as they are. *)
Theorem agent_scoped_fallback (now : Z) (data conversation_id' : pyval)
    (agent : string) (sessions : store) :
  find_by_call_id conversation_id' sessions = None ->
  py_get data "agent_id" PNone = Ok (PStr agent) ->
  agent <> "" ->
  (exists j key s, sessions !! j = Some (key, s) /\ agent_id s = agent
                   /\ (status s = INITIALIZING \/ status s = ACTIVE)) ->
  exists i key s,
    sessions !! i = Some (key, s)
    /\ agent_id s = agent
    /\ (status s = INITIALIZING \/ status s = ACTIVE)
    /\ (forall j key' s',
          sessions !! j = Some (key', s') -> agent_id s' = agent ->
          status s' = INITIALIZING \/ status s' = ACTIVE ->
          created_at s' <= created_at s
          /\ ((j < i)%nat -> created_at s' < created_at s))
    /\ correlate now (PStr "post_call_transcription") data conversation_id' sessions
       = Ok (Some (i, link conversation_id' s),
             update_session i (link conversation_id') sessions)
    /\ update_session i (link conversation_id') sessions !! i
       = Some (key, link conversation_id' s)
    /\ (forall j, j <> i ->
          update_session i (link conversation_id') sessions !! j = sessions !! j)
    /\ conversation_id (link conversation_id' s) = conversation_id'
    /\ status (link conversation_id' s) = ACTIVE.
Proof.
  intros Hnone Hagent Hne (j & key0 & s0 & Hj & Ha0 & Hst0).
  assert (Hcand : (j, s0) ∈ matching_sessions (PStr agent) sessions).
  { apply elem_of_matching_sessions. split; [eauto|].
    split; [apply py_eq_str_l; congruence | apply in_progress_iff; exact Hst0]. }
  destruct (most_recent_spec _ _ Hcand) as ([i s] & Hmost & Hin & Hmax).
  apply elem_of_matching_sessions in Hin as ((key & Hi) & Ha & Hst).
  apply py_eq_str_l in Ha. apply in_progress_iff in Hst.
  exists i, key, s.
  split; [exact Hi|]. split; [congruence|]. split; [exact Hst|].
  split; [|split; [|split; [|split; [|split; reflexivity]]]].
  - intros j' key' s' Hj' Ha' Hst'.
    assert (Hin' : (j', s') ∈ matching_sessions (PStr agent) sessions).
    { apply elem_of_matching_sessions.
      split; [eauto|]. split; [apply py_eq_str_l; congruence|].
      apply in_progress_iff; exact Hst'. }
    split; [apply (Hmax (j', s') Hin')|].
    apply (most_recent_first _ _ _ _ Hmost j' s' Hin').
  - unfold correlate. rewrite Hnone, py_eq_str, String.eqb_refl, Hagent.
    simpl. destruct (String.eqb_spec agent "") as [->|_]; [congruence|].
    simpl. unfold matching_sessions in Hmost |- *. rewrite Hmost. reflexivity.
  - apply lookup_update_session. exact Hi.
  - intros j' Hne'. apply lookup_update_session_ne. congruence.
Qed.

Lemma agent_scoped_fallback_witness :
  exists i key s,
    two_sessions !! i = Some (key, s)
    /\ agent_id s = "agent-x"
    /\ (status s = INITIALIZING \/ status s = ACTIVE)
    /\ (forall j key' s',
          two_sessions !! j = Some (key', s') -> agent_id s' = "agent-x" ->
          status s' = INITIALIZING \/ status s' = ACTIVE ->
          created_at s' <= created_at s
          /\ ((j < i)%nat -> created_at s' < created_at s))
    /\ correlate 20000000 (PStr "post_call_transcription")
         (completion_data "conv-1" "agent-x") (PStr "conv-1") two_sessions
       = Ok (Some (i, link (PStr "conv-1") s),
             update_session i (link (PStr "conv-1")) two_sessions)
    /\ update_session i (link (PStr "conv-1")) two_sessions !! i
       = Some (key, link (PStr "conv-1") s)
    /\ (forall j, j <> i ->
          update_session i (link (PStr "conv-1")) two_sessions !! j
          = two_sessions !! j)
    /\ conversation_id (link (PStr "conv-1") s) = PStr "conv-1"
    /\ status (link (PStr "conv-1") s) = ACTIVE.
Proof.
  apply (agent_scoped_fallback 20000000 (completion_data "conv-1" "agent-x")
           (PStr "conv-1") "agent-x" two_sessions).
  - reflexivity.
  - reflexivity.
  - discriminate.
  - exists 0%nat, "session-a", session_a. split; [reflexivity|].
    split; [reflexivity|]. left. reflexivity.
Defined.

(** The scenario of the specification: with sessions A and B, a
    completion callback for agent X is attributed to A, and one for an
    unknown agent Z to B, the more recently created of the two. *)
Example completion_for_agent_x_binds_a :
  correlate 20000000 (PStr "post_call_transcription")
    (completion_data "conv-1" "agent-x") (PStr "conv-1") two_sessions
  = Ok (Some (0%nat, link (PStr "conv-1") session_a),
        [("session-a", link (PStr "conv-1") session_a);
         ("session-b", session_b)]).
Proof. reflexivity. Qed.

Example completion_for_agent_z_binds_b :
  correlate 20000000 (PStr "post_call_transcription")
    (completion_data "conv-1" "agent-z") (PStr "conv-1") two_sessions
  = Ok (Some (1%nat, link (PStr "conv-1") session_b),
        [("session-a", session_a);
         ("session-b", link (PStr "conv-1") session_b)]).
Proof. reflexivity. Qed.

(** A callback of any other type gets no fallback. *)
Lemma no_fallback_for_other_types (now : Z) (webhook_type data v : pyval)
    (sessions : store) :
  webhook_type <> PStr "post_call_transcription" ->
  find_by_call_id v sessions = None ->
  correlate now webhook_type data v sessions = Ok (None, sessions).
Proof.
  intros Htype Hnone. unfold correlate. rewrite Hnone.
  destruct (py_eq webhook_type (PStr "post_call_transcription")) eqn:Heq;
    [|reflexivity].
  apply py_eq_str_r in Heq. contradiction.
Qed.

(** C2 as stated fails for the other type that signals completion:
    [webhook] completes a session on ["conversation.completed"] as it
    does on ["post_call_transcription"] (line 414), but runs no fallback
    for it (line 326).  With sessions A (agent X, initializing) and B, a
    ["conversation.completed"] callback for agent X that no session
    matches by call identity selects no session: the store is left as
    it was and nothing is published. *)
Lemma agent_scoped_fallback_other_type_counterexample :
  find_by_call_id (PStr "conv-1") two_sessions = None
  /\ py_get (completion_data "conv-1" "agent-x") "agent_id" PNone
     = Ok (PStr "agent-x")
  /\ two_sessions !! 0%nat = Some ("session-a", session_a)
  /\ agent_id session_a = "agent-x"
  /\ status session_a = INITIALIZING
  /\ status
       (fst (@process_matched sample_lib 20000000 "2025-01-01T00:00:20"
               (PDict [("type", PStr "conversation.completed");
                       ("data", completion_data "conv-1" "agent-x")])
               (PStr "conversation.completed")
               (completion_data "conv-1" "agent-x") session_a))
     = COMPLETED
  /\ correlate 20000000 (PStr "conversation.completed")
       (completion_data "conv-1" "agent-x") (PStr "conv-1") two_sessions
     = Ok (None, two_sessions)
  /\ @webhook sample_lib "secret" 20000000 "2025-01-01T00:00:20"
       (signed_request sample_signature "{}"
          (Ok (PDict [("type", PStr "conversation.completed");
                      ("data", completion_data "conv-1" "agent-x")])))
       two_sessions
     = (processed, two_sessions, []).
Proof. repeat split; reflexivity. Qed.

(** C3, as the code has it.  For a completion callback whose call
    identity no session holds: if it declares no agent identity, no
    session is selected and the store is unchanged.  If it declares one
    and no initializing or active session has that agent, then, provided
    some initializing or active session was created less than 300 seconds
    before now, correlation selects the one of them whose [created_at] is
    the latest (of several equally late ones, the one created first),
    whatever its agent, sets its [conversation_id] to the declared call
    identity and its status to [ACTIVE], and leaves the other sessions as
    they are. *)
Theorem recency_fallback (now : Z) (data conversation_id' agent : pyval)
    (sessions : store) :
  find_by_call_id conversation_id' sessions = None ->
  py_get data "agent_id" PNone = Ok agent ->
  (py_truthy agent = false ->
     correlate now (PStr "post_call_transcription") data conversation_id' sessions
     = Ok (None, sessions))
  /\
  (py_truthy agent = true ->
   (forall j key s,
      sessions !! j = Some (key, s) ->
      status s = INITIALIZING \/ status s = ACTIVE ->
      py_eq (PStr (agent_id s)) agent = false) ->
   (exists j key s, sessions !! j = Some (key, s)
                    /\ (status s = INITIALIZING \/ status s = ACTIVE)
                    /\ now - created_at s < 300000000) ->
   exists i key s,
     sessions !! i = Some (key, s)
     /\ (status s = INITIALIZING \/ status s = ACTIVE)
     /\ now - created_at s < 300000000
     /\ (forall j key' s',
           sessions !! j = Some (key', s') ->
           status s' = INITIALIZING \/ status s' = ACTIVE ->
           now - created_at s' < 300000000 ->
           created_at s' <= created_at s
           /\ ((j < i)%nat -> created_at s' < created_at s))
     /\ correlate now (PStr "post_call_transcription") data conversation_id' sessions
        = Ok (Some (i, link conversation_id' s),
              update_session i (link conversation_id') sessions)
     /\ update_session i (link conversation_id') sessions !! i
        = Some (key, link conversation_id' s)
     /\ (forall j, j <> i ->
           update_session i (link conversation_id') sessions !! j = sessions !! j)
     /\ conversation_id (link conversation_id' s) = conversation_id'
     /\ status (link conversation_id' s) = ACTIVE).
Proof.
  intros Hnone Hagent. split.
  - intros Hfalsy. unfold correlate.
    rewrite Hnone, py_eq_str, String.eqb_refl, Hagent. simpl.
    rewrite Hfalsy. reflexivity.
  - intros Htruthy Hnomatch (j & key0 & s0 & Hj & Hst0 & Hrecent0).
    assert (Hempty : most_recent (matching_sessions agent sessions) = None).
    { apply most_recent_nil_inv. intros [k s] Hin.
      apply elem_of_matching_sessions in Hin as ((key & Hk) & Ha & Hst).
      apply in_progress_iff in Hst.
      rewrite (Hnomatch k key s Hk Hst) in Ha. discriminate. }
    assert (Hcand : (j, s0) ∈ recent_sessions now sessions).
    { apply elem_of_recent_sessions. split; [eauto|].
      split; [apply in_progress_iff; exact Hst0 | exact Hrecent0]. }
    destruct (most_recent_spec _ _ Hcand) as ([i s] & Hmost & Hin & Hmax).
    apply elem_of_recent_sessions in Hin as ((key & Hi) & Hst & Hrecent).
    apply in_progress_iff in Hst.
    exists i, key, s.
    split; [exact Hi|]. split; [exact Hst|]. split; [exact Hrecent|].
    split; [|split; [|split; [|split; [|split; reflexivity]]]].
    + intros j' key' s' Hj' Hst' Hrecent'.
      assert (Hin' : (j', s') ∈ recent_sessions now sessions).
      { apply elem_of_recent_sessions. split; [eauto|].
        split; [apply in_progress_iff; exact Hst' | exact Hrecent']. }
      split; [apply (Hmax (j', s') Hin')|].
      apply (most_recent_first _ _ _ _ Hmost j' s' Hin').
    + unfold correlate.
      rewrite Hnone, py_eq_str, String.eqb_refl, Hagent. simpl.
      rewrite Htruthy, Hempty, Hmost. reflexivity.
    + apply lookup_update_session. exact Hi.
    + intros j' Hne. apply lookup_update_session_ne. congruence.
Qed.

Lemma recency_fallback_witness :
  exists i key s,
    two_sessions !! i = Some (key, s)
    /\ (status s = INITIALIZING \/ status s = ACTIVE)
    /\ 20000000 - created_at s < 300000000
    /\ (forall j key' s',
          two_sessions !! j = Some (key', s') ->
          status s' = INITIALIZING \/ status s' = ACTIVE ->
          20000000 - created_at s' < 300000000 ->
          created_at s' <= created_at s
          /\ ((j < i)%nat -> created_at s' < created_at s))
    /\ correlate 20000000 (PStr "post_call_transcription")
         (completion_data "conv-1" "agent-z") (PStr "conv-1") two_sessions
       = Ok (Some (i, link (PStr "conv-1") s),
             update_session i (link (PStr "conv-1")) two_sessions)
    /\ update_session i (link (PStr "conv-1")) two_sessions !! i
       = Some (key, link (PStr "conv-1") s)
    /\ (forall j, j <> i ->
          update_session i (link (PStr "conv-1")) two_sessions !! j
          = two_sessions !! j)
    /\ conversation_id (link (PStr "conv-1") s) = PStr "conv-1"
    /\ status (link (PStr "conv-1") s) = ACTIVE.
Proof.
  destruct (recency_fallback 20000000 (completion_data "conv-1" "agent-z")
              (PStr "conv-1") (PStr "agent-z") two_sessions
              eq_refl eq_refl) as [_ Hrecent].
  apply Hrecent.
  - reflexivity.
  - intros [|[|j]] key s Hj _; simpl in Hj; [| |discriminate];
      injection Hj as <- <-; reflexivity.
  - exists 1%nat, "session-b", session_b. split; [reflexivity|].
    split; [right; reflexivity|]. simpl. lia.
Defined.

(** C3 as stated fails when the callback declares no agent identity:
    no session holds the call identity, both sessions are in progress and
    were created within the last 300 seconds, and yet no session is
    selected and the store is unchanged. *)
Lemma recency_fallback_without_agent_counterexample :
  find_by_call_id (PStr "conv-9") two_sessions = None
  /\ py_get (PDict [("conversation_id", PStr "conv-9")]) "agent_id" PNone
     = Ok PNone
  /\ recent_sessions 20000000 two_sessions = [(0%nat, session_a); (1%nat, session_b)]
  /\ correlate 20000000 (PStr "post_call_transcription")
       (PDict [("conversation_id", PStr "conv-9")]) (PStr "conv-9") two_sessions
     = Ok (None, two_sessions).
Proof. repeat split; reflexivity. Qed.

(** ** The endpoint's responses and the published summary (C4, C7) *)

Section Endpoint.
Context `{PyLib} (WEBHOOK_SECRET : string).

Lemma assoc_set_eq {V} (k : string) (v : V) (d : list (string * V)) :
  assoc k (assoc_set k v d) = Some v.
Proof.
  induction d as [|[k0 v0] d IH]; simpl.
  - rewrite String.eqb_refl. reflexivity.
  - destruct (String.eqb_spec k k0) as [->|Hne]; simpl.
    + rewrite String.eqb_refl. reflexivity.
    + destruct (String.eqb_spec k k0); [contradiction | exact IH].
Qed.

(** The conditional expression of line 432 on a summary that is a
    string. *)
Lemma call_summary_of_string (d a : dict) (s : string) :
  default empty_dict (assoc "analysis" d) = PDict a ->
  default (PStr "") (assoc "summary" a) = PStr s ->
  ((String.length s <= 200)%nat -> call_summary d = Ok (PStr s))
  /\
  ((200 < String.length s)%nat ->
   exists head tail,
     s = (head ++ tail)%string
     /\ String.length head = 200%nat
     /\ call_summary d = Ok (PStr (head ++ "...")%string)).
Proof.
  intros Ha Hs. unfold call_summary. simpl. rewrite Ha. simpl. rewrite Hs.
  simpl. split; intros Hlen.
  - destruct (Z.ltb_spec 200 (Z.of_nat (String.length s))) as [Hlt|_]; [lia|].
    reflexivity.
  - destruct (Z.ltb_spec 200 (Z.of_nat (String.length s))) as [_|Hge]; [|lia].
    destruct (substring_split 200 s ltac:(lia)) as (tail & Hsplit & Hhead).
    exists (String.substring 0 200 s), tail. auto.
Qed.

Lemma summary_string_call_summary (d : dict) :
  summary_string d -> exists summary, call_summary d = Ok summary.
Proof.
  intros (a & s & Ha & Hs).
  destruct (call_summary_of_string d a s Ha Hs) as [Hshort Hlong].
  destruct (Nat.le_gt_cases (String.length s) 200) as [Hle|Hgt].
  - eauto.
  - destruct (Hlong Hgt) as (head & tail & _ & _ & Hret). eauto.
Qed.

Lemma sections_ready_emit (d : dict) (summary : pyval) :
  sections_ready d -> call_summary d = Ok summary ->
  exists message_count call_duration total_cost,
    emit_summary d
    = Ok (PDict [("message_count", message_count);
                 ("call_duration", call_duration);
                 ("total_cost", total_cost);
                 ("call_summary", summary)]).
Proof.
  intros ((t & Ht) & (st & costs & Hst & Hcosts)) Hsummary.
  unfold emit_summary. simpl. rewrite Ht, Hst. simpl. rewrite Hcosts. simpl.
  rewrite Hsummary. simpl. eauto.
Qed.

Lemma sections_ready_set (k : string) (v : pyval) (d : dict) :
  k <> "transcript" -> k <> "statistics" ->
  sections_ready d -> sections_ready (assoc_set k v d).
Proof.
  intros H1 H2 Hd. unfold sections_ready.
  rewrite !assoc_set_ne by congruence. exact Hd.
Qed.

Lemma summary_string_set (k : string) (v : pyval) (d : dict) :
  k <> "analysis" -> summary_string d -> summary_string (assoc_set k v d).
Proof.
  intros H1 Hd. unfold summary_string.
  rewrite assoc_set_ne by congruence. exact Hd.
Qed.

Lemma sections_ready_error (message : string) (payload : pyval) :
  sections_ready (error_result message payload).
Proof.
  unfold sections_ready, error_result. simpl.
  split; [eauto | exists [], []; auto].
Qed.

Lemma summary_string_error (message : string) (payload : pyval) :
  summary_string (error_result message payload).
Proof. exists [], "". auto. Qed.

Lemma extract_analysis_data_summary (payload : pyval) (data : dict) (v : pyval) :
  py_get payload "data" empty_dict = Ok (PDict data) ->
  extract_analysis_data payload = Ok v ->
  exists analysis a,
    default empty_dict (assoc "analysis" data) = PDict analysis
    /\ v = PDict a
    /\ assoc "summary" a
       = Some (default (PStr "") (assoc "transcript_summary" analysis)).
Proof.
  intros Hdata. unfold extract_analysis_data. rewrite Hdata. simpl.
  intros Hv.
  apply bind_Ok in Hv as (dc & Hdc & Hv).
  apply bind_Ok in Hv as (items & _ & Hv).
  apply bind_Ok in Hv as (collected & _ & Hv).
  apply bind_Ok in Hv as (summary & Hsum & Hv).
  bind_inv Hv. injection Hv as <-.
  destruct (default empty_dict (assoc "analysis" data))
    as [| | | | | |analysis]; try discriminate.
  simpl in Hsum. injection Hsum as <-.
  exists analysis. eexists. split; [reflexivity|]. split; reflexivity.
Qed.

(** The record that [process_post_call_webhook] returns on a
    dictionary. *)
Lemma process_post_call_webhook_sections (now_iso : string) (payload r : dict) :
  process_post_call_webhook now_iso (PDict payload) = Ok r -> sections_ready r.
Proof.
  unfold process_post_call_webhook. simpl.
  destruct (py_eq _ _); simpl.
  2: { intros [= <-]. apply sections_ready_error. }
  destruct (extract_transcript_data (PDict payload)) as [t|e] eqn:Ht; simpl.
  2: { intros [= <-]. apply sections_ready_error. }
  destruct (extract_call_statistics (PDict payload)) as [st|e] eqn:Hst; simpl.
  2: { intros [= <-]. apply sections_ready_error. }
  destruct (extract_analysis_data (PDict payload)) as [a|e] eqn:Ha; simpl.
  2: { intros [= <-]. apply sections_ready_error. }
  apply extract_transcript_data_dict in Ht as [t' ->].
  apply extract_call_statistics_dict in Hst as (st' & costs & -> & Hcosts).
  simpl. intros [= <-]. unfold sections_ready. simpl.
  split; [eauto|]. exists st', costs. rewrite Hcosts. auto.
Qed.

Lemma process_post_call_webhook_summary (now_iso : string) (payload data r : dict) :
  py_get (PDict payload) "data" empty_dict = Ok (PDict data) ->
  (forall analysis x,
     assoc "analysis" data = Some (PDict analysis) ->
     assoc "transcript_summary" analysis = Some x -> exists s, x = PStr s) ->
  process_post_call_webhook now_iso (PDict payload) = Ok r ->
  summary_string r.
Proof.
  intros Hdata Hsummary. unfold process_post_call_webhook. simpl.
  destruct (py_eq _ _); simpl.
  2: { intros [= <-]. apply summary_string_error. }
  destruct (extract_transcript_data (PDict payload)) as [t|e] eqn:Ht; simpl.
  2: { intros [= <-]. apply summary_string_error. }
  destruct (extract_call_statistics (PDict payload)) as [st|e] eqn:Hst; simpl.
  2: { intros [= <-]. apply summary_string_error. }
  destruct (extract_analysis_data (PDict payload)) as [a|e] eqn:Ha; simpl.
  2: { intros [= <-]. apply summary_string_error. }
  apply extract_transcript_data_dict in Ht as [t' ->].
  apply (extract_analysis_data_summary _ _ _ Hdata) in Ha
    as (analysis & a' & Hanalysis & -> & Hs).
  simpl. intros [= <-]. unfold summary_string. simpl.
  destruct (assoc "transcript_summary" analysis) as [x|] eqn:Hx.
  - destruct (assoc "analysis" data) as [v|] eqn:Hv; simpl in Hanalysis.
    + subst v. destruct (Hsummary analysis x eq_refl Hx) as [s ->].
      exists a', s. rewrite Hs. auto.
    + injection Hanalysis as <-. discriminate.
  - exists a', "". rewrite Hs. auto.
Qed.

(** Classification and logging add entries to the record; they do not
    touch the ones the summary reads. *)
Lemma post_call_processing_keeps (P : dict -> Prop) (now_iso : string)
    (payload previous : dict) :
  (forall k v d, k = "classified_transcript" \/ k = "processing_error" ->
                 P d -> P (assoc_set k v d)) ->
  (forall r, process_post_call_webhook now_iso (PDict payload) = Ok r -> P r) ->
  P (post_call_processing now_iso (PDict payload) previous).
Proof.
  intros Hset Hresult. unfold post_call_processing.
  destruct (process_post_call_webhook_ok now_iso payload) as [r Hr].
  rewrite Hr. specialize (Hresult r Hr).
  set (classified :=
         match assoc "transcript" r with
         | Some transcript => _
         | None => r
         end).
  assert (Hc : P classified).
  { subst classified. destruct (assoc "transcript" r); [|exact Hresult].
    destruct (classify_conversation_stages _); simpl; [|exact Hresult].
    apply Hset; auto. }
  destruct (logged_fields classified); simpl.
  - destruct (logged_patient_info classified); simpl; [exact Hc|].
    apply Hset; auto.
  - apply Hset; auto.
Qed.

Lemma post_call_processing_sections (now_iso : string) (payload previous : dict) :
  sections_ready (post_call_processing now_iso (PDict payload) previous).
Proof.
  apply post_call_processing_keeps.
  - intros k v d [-> | ->]; apply sections_ready_set; discriminate.
  - apply process_post_call_webhook_sections.
Qed.

Lemma post_call_processing_summary (now_iso : string) (payload data previous : dict) :
  py_get (PDict payload) "data" empty_dict = Ok (PDict data) ->
  (forall analysis x,
     assoc "analysis" data = Some (PDict analysis) ->
     assoc "transcript_summary" analysis = Some x -> exists s, x = PStr s) ->
  summary_string (post_call_processing now_iso (PDict payload) previous).
Proof.
  intros Hdata Hsummary. apply post_call_processing_keeps.
  - intros k v d [-> | ->]; apply summary_string_set; discriminate.
  - intros r. apply (process_post_call_webhook_summary _ _ _ _ Hdata Hsummary).
Qed.

(** What [process_matched] does for a post-call transcription
    callback. *)
Lemma process_matched_post_call (now : Z) (now_iso : string) (payload : dict)
    (data : pyval) (session : ConversationSession) :
  let record := post_call_processing now_iso (PDict payload)
                  (processed_data session) in
  processed_data
    (fst (process_matched now now_iso (PDict payload)
            (PStr "post_call_transcription") data session)) = record
  /\ forall summary,
       record <> [] -> call_summary record = Ok summary ->
       exists ev fields,
         snd (process_matched now now_iso (PDict payload)
                (PStr "post_call_transcription") data session) = Ok ev
         /\ event ev = "webhook_update"
         /\ room ev = Some (PStr (session_id session))
         /\ assoc "summary" (event_data ev) = Some (PDict fields)
         /\ assoc "call_summary" fields = Some summary.
Proof.
  intros record. split; [reflexivity|].
  intros summary Hnonempty Hsummary.
  destruct (sections_ready_emit record summary
              (post_call_processing_sections now_iso payload
                 (processed_data session)) Hsummary)
    as (message_count & call_duration & total_cost & Hemit).
  unfold process_matched. cbn - [post_call_processing emit_summary].
  fold record. rewrite Hemit.
  destruct record as [|entry rest]; [contradiction|].
  cbn. eexists _, _. repeat split.
Qed.

Lemma process_matched_emits (now : Z) (now_iso : string) (payload data : dict)
    (webhook_type : pyval) (session : ConversationSession) :
  py_get (PDict payload) "data" empty_dict = Ok (PDict data) ->
  (forall analysis x,
     assoc "analysis" data = Some (PDict analysis) ->
     assoc "transcript_summary" analysis = Some x -> exists s, x = PStr s) ->
  exists ev,
    snd (process_matched now now_iso (PDict payload) webhook_type (PDict data)
           session) = Ok ev.
Proof.
  intros Hdata Hsummary. unfold process_matched. simpl.
  destruct (is_type webhook_type "post_call_transcription") eqn:Hpost; simpl.
  - rewrite orb_true_r. simpl.
    destruct (summary_string_call_summary _
                (post_call_processing_summary now_iso payload data
                   (processed_data session) Hdata Hsummary)) as [summary Hs].
    destruct (sections_ready_emit _ summary
                (post_call_processing_sections now_iso payload
                   (processed_data session)) Hs)
      as (message_count & call_duration & total_cost & Hemit).
    rewrite Hemit.
    match goal with |- context [if ?b then _ else _] => destruct b end;
      simpl; eauto.
  - eauto.
Qed.

Lemma correlate_total (now : Z) (webhook_type conversation_id' : pyval)
    (data : dict) (sessions : store) :
  exists found sessions',
    correlate now webhook_type (PDict data) conversation_id' sessions
    = Ok (found, sessions')
    /\ (found = None -> sessions' = sessions).
Proof.
  unfold correlate.
  destruct (find_by_call_id _ _) as [[i [key s]]|]; [eauto|].
  destruct (py_eq _ _); [|eauto]. simpl.
  destruct (py_truthy _); [|eauto].
  destruct (most_recent (matching_sessions _ _)) as [[i s]|].
  { eexists _, _. split; [reflexivity | discriminate]. }
  destruct (most_recent (recent_sessions _ _)) as [[i s]|].
  { eexists _, _. split; [reflexivity | discriminate]. }
  eauto.
Qed.

Lemma receive_dict (now : Z) (req : request) (payload data : dict)
    (sessions : store) :
  request_json req = Ok (PDict payload) ->
  default empty_dict (assoc "data" payload) = PDict data ->
  receive now req sessions
  = (c ← correlate now (default PNone (assoc "type" payload)) (PDict data)
          (default PNone (assoc "conversation_id" data)) sessions;
     Ok (PDict payload, default PNone (assoc "type" payload), PDict data,
         fst c, snd c)).
Proof.
  intros Hjson Hdata. unfold receive. rewrite Hjson. simpl. rewrite Hdata.
  simpl. destruct (correlate _ _ _ _ _) as [[found sessions']|]; reflexivity.
Qed.

Lemma receive_not_dict (now : Z) (req : request) (sessions : store) :
  (forall payload, request_json req <> Ok (PDict payload)) ->
  exists e, receive now req sessions = Raise e.
Proof.
  intros Hnot. unfold receive.
  destruct (request_json req) as [v|e]; simpl; [|eauto].
  destruct v; simpl; eauto. destruct (Hnot d). reflexivity.
Qed.

(** Where [webhook] goes on to process a callback, the parsed body is a
    dictionary: [process_post_call_webhook] is only called on one. *)
Lemma receive_json_is_dict (now : Z) (req : request) (sessions : store)
    webhook_json webhook_type data found sessions' :
  receive now req sessions
  = Ok (webhook_json, webhook_type, data, found, sessions') ->
  exists payload, webhook_json = PDict payload.
Proof.
  unfold receive. intros Hrecv.
  apply bind_Ok in Hrecv as (json & _ & Hrecv).
  apply bind_Ok in Hrecv as (type & Htype & Hrecv).
  apply bind_Ok in Hrecv as (d & _ & Hrecv).
  apply bind_Ok in Hrecv as (c & _ & Hrecv).
  apply bind_Ok in Hrecv as ([found0 sessions0] & _ & Hrecv).
  injection Hrecv as <- _ _ _ _.
  destruct json; try discriminate. eauto.
Qed.

(** C4, as the code has it.  A request that fails signature verification
    is answered 401 and changes nothing.  A verified request whose body
    does not parse to a JSON object is answered 500 "Processing failed"
    by the handler's own [except] clause and changes nothing.  A verified
    request whose body is a JSON object, whose [data] member is absent or
    an object and whose analysis [transcript_summary], when present, is a
    string, is answered 200 [{status: "processed"}] whatever correlation,
    normalisation, mutation and publishing do; when correlation finds no
    session, the store is unchanged and nothing is published. *)
Theorem webhook_responses (now : Z) (now_iso : string) (req : request)
    (sessions : store) :
  (verify_webhook_signature WEBHOOK_SECRET req = false ->
   webhook WEBHOOK_SECRET now now_iso req sessions = (unauthorized, sessions, []))
  /\
  (verify_webhook_signature WEBHOOK_SECRET req = true ->
   (forall payload, request_json req <> Ok (PDict payload)) ->
   webhook WEBHOOK_SECRET now now_iso req sessions
   = (processing_failed, sessions, []))
  /\
  (verify_webhook_signature WEBHOOK_SECRET req = true ->
   forall payload data : dict,
     request_json req = Ok (PDict payload) ->
     default empty_dict (assoc "data" payload) = PDict data ->
     (forall analysis x,
        assoc "analysis" data = Some (PDict analysis) ->
        assoc "transcript_summary" analysis = Some x -> exists s, x = PStr s) ->
     exists sessions' events,
       webhook WEBHOOK_SECRET now now_iso req sessions
       = (processed, sessions', events)
       /\ (forall unchanged,
             correlate now (default PNone (assoc "type" payload)) (PDict data)
               (default PNone (assoc "conversation_id" data)) sessions
             = Ok (None, unchanged) ->
             sessions' = sessions /\ events = [])).
Proof.
  split; [|split].
  - intros Hverify. unfold webhook. rewrite Hverify. reflexivity.
  - intros Hverify Hnot. unfold webhook. rewrite Hverify.
    destruct (receive_not_dict now req sessions Hnot) as [e ->]. reflexivity.
  - intros Hverify payload data Hjson Hdata Hsummary.
    unfold webhook. rewrite Hverify, (receive_dict _ _ _ _ _ Hjson Hdata).
    destruct (correlate_total now (default PNone (assoc "type" payload))
                (default PNone (assoc "conversation_id" data)) data sessions)
      as (found & sessions1 & Hcorr & Hmiss).
    rewrite Hcorr. cbn [negb mbind result_bind fst snd].
    destruct found as [[i session]|].
    + destruct (process_matched_emits now now_iso payload data
                  (default PNone (assoc "type" payload)) session)
        as [ev Hev]; [simpl; congruence | exact Hsummary |].
      destruct (process_matched _ _ _ _ _ _) as [session' outcome].
      cbn [snd] in Hev. subst outcome.
      eexists _, _. split; [reflexivity|]. intros unchanged [=].
    + rewrite (Hmiss eq_refl). eexists _, _. split; [reflexivity|]. auto.
Qed.

(** C7.  In the event published for a post-call transcription callback,
    the [call_summary] of the summary is computed from the analysis
    summary [s] of the session's processed data: a summary of at most 200
    characters is passed through unchanged, and a longer one is replaced
    by its first 200 characters followed by "...". *)
Theorem published_summary_truncation (now : Z) (now_iso : string)
    (payload : dict) (data : pyval) (session : ConversationSession)
    (analysis : dict) (s : string) :
  let outcome :=
    process_matched now now_iso (PDict payload)
      (PStr "post_call_transcription") data session in
  assoc "analysis" (processed_data (fst outcome)) = Some (PDict analysis) ->
  assoc "summary" analysis = Some (PStr s) ->
  exists ev fields,
    snd outcome = Ok ev
    /\ event ev = "webhook_update"
    /\ room ev = Some (PStr (session_id session))
    /\ assoc "summary" (event_data ev) = Some (PDict fields)
    /\ ((String.length s <= 200)%nat ->
        assoc "call_summary" fields = Some (PStr s))
    /\ ((200 < String.length s)%nat ->
        exists head tail,
          s = (head ++ tail)%string
          /\ String.length head = 200%nat
          /\ assoc "call_summary" fields = Some (PStr (head ++ "...")%string)).
Proof.
  intros outcome. subst outcome.
  destruct (process_matched_post_call now now_iso payload data session)
    as [Hrecord Hev].
  rewrite Hrecord. intros Ha Hs.
  set (record := post_call_processing now_iso (PDict payload)
                   (processed_data session)) in *.
  assert (Hnonempty : record <> []) by (intros Hnil; rewrite Hnil in Ha; discriminate).
  destruct (call_summary_of_string record analysis s) as [Hshort Hlong].
  { rewrite Ha. reflexivity. }
  { rewrite Hs. reflexivity. }
  destruct (Nat.le_gt_cases (String.length s) 200) as [Hle|Hgt].
  - destruct (Hev _ Hnonempty (Hshort Hle))
      as (ev & fields & Hret & Hevent & Hroom & Hsummary & Hcall).
    exists ev, fields.
    split; [exact Hret|]. split; [exact Hevent|]. split; [exact Hroom|].
    split; [exact Hsummary|]. split; [intros _; exact Hcall | intros Hgt; lia].
  - destruct (Hlong Hgt) as (head & tail & Hsplit & Hhead & Hcs).
    destruct (Hev _ Hnonempty Hcs)
      as (ev & fields & Hret & Hevent & Hroom & Hsummary & Hcall).
    exists ev, fields.
    split; [exact Hret|]. split; [exact Hevent|]. split; [exact Hroom|].
    split; [exact Hsummary|]. split; [intros Hle; lia|].
    intros _. exists head, tail. auto.
Qed.

End Endpoint.

Lemma webhook_responses_witness :
  @webhook sample_lib "secret" 400000000 "2025-01-01T00:06:40"
    (signed_request "" "{}" (Ok (PDict []))) two_sessions
  = (unauthorized, two_sessions, [])
  /\ @webhook sample_lib "secret" 400000000 "2025-01-01T00:06:40"
       (signed_request sample_signature "[]" (Ok (PList []))) two_sessions
     = (processing_failed, two_sessions, [])
  /\ exists sessions' events,
       @webhook sample_lib "secret" 400000000 "2025-01-01T00:06:40"
         (signed_request sample_signature ""
            (Ok (post_call_payload "conv-1" "agent-z" (PStr "Done."))))
         two_sessions
       = (processed, sessions', events)
       /\ sessions' = two_sessions /\ events = [].
Proof.
  split; [|split].
  - apply (@webhook_responses sample_lib "secret" 400000000
             "2025-01-01T00:06:40"
             (signed_request "" "{}" (Ok (PDict []))) two_sessions).
    reflexivity.
  - apply (@webhook_responses sample_lib "secret" 400000000
             "2025-01-01T00:06:40"
             (signed_request sample_signature "[]" (Ok (PList []))) two_sessions).
    + reflexivity.
    + intros payload. simpl. discriminate.
  - destruct (@webhook_responses sample_lib "secret" 400000000
                "2025-01-01T00:06:40"
                (signed_request sample_signature ""
                   (Ok (post_call_payload "conv-1" "agent-z" (PStr "Done."))))
                two_sessions) as (_ & _ & Hok).
    destruct (Hok eq_refl _ _ eq_refl eq_refl) as (sessions' & events & Hret & Hmiss).
    + intros analysis x Ha Hx. simpl in Ha. injection Ha as <-.
      simpl in Hx. injection Hx as <-. eauto.
    + exists sessions', events. split; [exact Hret|].
      apply (Hmiss two_sessions). reflexivity.
Defined.

Lemma published_summary_truncation_witness :
  (exists ev fields,
     snd (@process_matched sample_lib 20000000 "2025-01-01T00:00:20"
            (post_call_payload "conv-1" "agent-x" (PStr "Patient confirmed."))
            (PStr "post_call_transcription")
            (completion_data "conv-1" "agent-x") session_a) = Ok ev
     /\ assoc "summary" (event_data ev) = Some (PDict fields)
     /\ assoc "call_summary" fields = Some (PStr "Patient confirmed."))
  /\ (exists ev fields head tail,
        snd (@process_matched sample_lib 20000000 "2025-01-01T00:00:20"
               (post_call_payload "conv-1" "agent-x" (PStr long_summary))
               (PStr "post_call_transcription")
               (completion_data "conv-1" "agent-x") session_a) = Ok ev
        /\ assoc "summary" (event_data ev) = Some (PDict fields)
        /\ long_summary = (head ++ tail)%string
        /\ String.length head = 200%nat
        /\ assoc "call_summary" fields = Some (PStr (head ++ "...")%string)).
Proof.
  split.
  - destruct (@published_summary_truncation sample_lib 20000000
                "2025-01-01T00:00:20"
                (post_call_entries "conv-1" "agent-x" (PStr "Patient confirmed."))
                (completion_data "conv-1" "agent-x") session_a
                [("summary", PStr "Patient confirmed.");
                 ("call_successful", PStr "unknown");
                 ("collected_data", PDict []);
                 ("evaluation_results", PDict [])]
                "Patient confirmed." eq_refl eq_refl)
      as (ev & fields & Hret & _ & _ & Hsummary & Hshort & _).
    exists ev, fields. split; [exact Hret|]. split; [exact Hsummary|].
    apply Hshort. simpl. lia.
  - destruct (@published_summary_truncation sample_lib 20000000
                "2025-01-01T00:00:20"
                (post_call_entries "conv-1" "agent-x" (PStr long_summary))
                (completion_data "conv-1" "agent-x") session_a
                [("summary", PStr long_summary);
                 ("call_successful", PStr "unknown");
                 ("collected_data", PDict []);
                 ("evaluation_results", PDict [])]
                long_summary eq_refl eq_refl)
      as (ev & fields & Hret & _ & _ & Hsummary & _ & Hlong).
    destruct Hlong as (head & tail & Hsplit & Hhead & Hcall);
      [vm_compute; lia|].
    exists ev, fields, head, tail. auto.
Defined.

(** The same through the endpoint: the event published for a callback
    with a 201-character summary carries 200 characters and "...". *)
Example webhook_publishes_truncated_summary :
  let '(_, _, events) :=
    @webhook sample_lib "secret" 20000000 "2025-01-01T00:00:20"
      (signed_request sample_signature ""
         (Ok (post_call_payload "conv-1" "agent-x" (PStr long_summary))))
      two_sessions in
  (ev ← match events with
        | [ev] => Ok ev
        | _ => Raise ValueError
        end;
   summary ← py_get (PDict (event_data ev)) "summary" PNone;
   py_get summary "call_summary" PNone)
  = Ok (PStr (String.substring 0 200 long_summary ++ "...")%string).
Proof. vm_compute. reflexivity. Qed.

(** C4 as stated fails on verified requests that the handler cannot
    process: a body that is not JSON and a body that is a JSON array are
    both answered 500. *)
Lemma webhook_processing_failed_counterexample :
  @verify_webhook_signature sample_lib "secret"
    (signed_request sample_signature "not json" (Raise BadRequest)) = true
  /\ @webhook sample_lib "secret" 20000000 "2025-01-01T00:00:20"
       (signed_request sample_signature "not json" (Raise BadRequest))
       two_sessions
     = ({| status_code := 500;
           response_body := [("error", PStr "Processing failed")] |},
        two_sessions, [])
  /\ @verify_webhook_signature sample_lib "secret"
       (signed_request sample_signature "[]" (Ok (PList []))) = true
  /\ @webhook sample_lib "secret" 20000000 "2025-01-01T00:00:20"
       (signed_request sample_signature "[]" (Ok (PList []))) two_sessions
     = ({| status_code := 500;
           response_body := [("error", PStr "Processing failed")] |},
        two_sessions, []).
Proof. repeat split; reflexivity. Qed.

(** ** The lookup by call identity (C6) *)

Lemma find_by_call_id_first (c : string) (sessions : store) i key s :
  sessions !! i = Some (key, s) -> conversation_id s = PStr c ->
  exists j kj sj,
    find_by_call_id (PStr c) sessions = Some (j, (kj, sj))
    /\ conversation_id sj = PStr c
    /\ (j <= i)%nat
    /\ forall k kk sk, sessions !! k = Some (kk, sk) -> (k < j)%nat ->
                       conversation_id sk <> PStr c.
Proof.
  intros Hi Hc. unfold find_by_call_id.
  destruct (list_find _ sessions) as [[j [kj sj]]|] eqn:Hfind.
  - apply list_find_Some in Hfind as (Hj & Hp & Hbefore). simpl in Hp.
    apply py_eq_str_r in Hp.
    exists j, kj, sj. repeat split; try assumption.
    + destruct (Nat.le_gt_cases j i) as [Hle|Hgt]; [exact Hle|].
      exfalso. apply (Hbefore i (key, s) Hi Hgt). simpl.
      apply py_eq_str_r. exact Hc.
    + intros k kk sk Hk Hlt Hsk. apply (Hbefore k (kk, sk) Hk Hlt). simpl.
      apply py_eq_str_r. exact Hsk.
  - exfalso. apply list_find_None in Hfind.
    rewrite Forall_forall in Hfind.
    apply (Hfind (key, s)).
    + apply list_elem_of_lookup. eauto.
    + simpl. apply py_eq_str_r. exact Hc.
Qed.

Lemma find_by_call_id_lookup (v : pyval) (sessions : store) j kv :
  find_by_call_id v sessions = Some (j, kv) -> sessions !! j = Some kv.
Proof.
  unfold find_by_call_id. intros Hfind.
  apply list_find_Some in Hfind as (Hj & _). exact Hj.
Qed.

Lemma find_by_call_id_unique (c : string) (sessions : store) i key s :
  unique_call_ids sessions ->
  sessions !! i = Some (key, s) -> conversation_id s = PStr c ->
  find_by_call_id (PStr c) sessions = Some (i, (key, s)).
Proof.
  intros Huniq Hi Hc.
  destruct (find_by_call_id_first c sessions i key s Hi Hc)
    as (j & kj & sj & Hfind & Hcj & _ & _).
  pose proof (find_by_call_id_lookup _ _ _ _ Hfind) as Hj.
  assert (j = i) as -> by (eapply Huniq; eauto).
  rewrite Hfind. congruence.
Qed.

Lemma find_by_call_id_free (c : string) (sessions : store) j key s :
  find_by_call_id (PStr c) sessions = None ->
  sessions !! j = Some (key, s) -> conversation_id s <> PStr c.
Proof.
  intros Hfind Hj Hc.
  destruct (find_by_call_id_first c sessions j key s Hj Hc)
    as (? & ? & ? & Hsome & _). congruence.
Qed.

Lemma lookup_update_session_inv (sessions : store) p f j key s :
  update_session p f sessions !! j = Some (key, s) ->
  (j <> p /\ sessions !! j = Some (key, s))
  \/ (j = p /\ exists s0, sessions !! p = Some (key, s0) /\ s = f s0).
Proof.
  unfold update_session. destruct (decide (p = j)) as [->|Hne].
  - rewrite list_lookup_alter_eq.
    destruct (sessions !! j) as [[k0 s0]|]; simpl; [|discriminate].
    intros [= <- <-]. right. eauto.
  - rewrite list_lookup_alter_ne by exact Hne. intros Hj. left. auto.
Qed.

(** An update in place keeps call identities unique when the identity
    it leaves in the session is the one the session had, or one that no
    other session holds. *)
Lemma unique_update_session (sessions : store) p f :
  unique_call_ids sessions ->
  (forall key s c,
     sessions !! p = Some (key, s) -> conversation_id (f s) = PStr c ->
     conversation_id s = PStr c
     \/ forall j kj sj, sessions !! j = Some (kj, sj) -> j <> p ->
                        conversation_id sj <> PStr c) ->
  unique_call_ids (update_session p f sessions).
Proof.
  intros Huniq Hf i j ki si kj sj c Hi Hj Hci Hcj.
  apply lookup_update_session_inv in Hi as [[Hip Hi]|[-> (s0 & Hp & ->)]];
  apply lookup_update_session_inv in Hj as [[Hjp Hj]|[-> (s1 & Hp' & ->)]].
  - eapply Huniq; eauto.
  - destruct (Hf _ _ _ Hp' Hcj) as [Hold|Hfree].
    + eapply Huniq; eauto.
    + destruct (Hfree _ _ _ Hi Hip Hci).
  - destruct (Hf _ _ _ Hp Hci) as [Hold|Hfree].
    + eapply Huniq; eauto.
    + destruct (Hfree _ _ _ Hj Hjp Hcj).
  - reflexivity.
Qed.

Lemma unique_link (v : pyval) (sessions : store) p :
  unique_call_ids sessions ->
  find_by_call_id v sessions = None ->
  unique_call_ids (update_session p (link v) sessions).
Proof.
  intros Huniq Hfind. apply unique_update_session; [exact Huniq|].
  intros key s c Hp Hc. simpl in Hc. subst v. right.
  intros j kj sj Hj _. eapply find_by_call_id_free; eauto.
Qed.

(** What [correlate] returns is the session at the position it names,
    and call identities stay unique. *)
Lemma correlate_found (now : Z) (webhook_type data v : pyval) (sessions : store)
    found sessions' :
  unique_call_ids sessions ->
  correlate now webhook_type data v sessions = Ok (found, sessions') ->
  unique_call_ids sessions'
  /\ forall i session, found = Some (i, session) ->
       exists key, sessions' !! i = Some (key, session).
Proof.
  intros Huniq. unfold correlate.
  destruct (find_by_call_id v sessions) as [[i [key s]]|] eqn:Hfind.
  { intros [= <- <-]. split; [exact Huniq|].
    intros i' s' [= <- <-]. exists key.
    apply find_by_call_id_lookup in Hfind. exact Hfind. }
  destruct (py_eq webhook_type _).
  2: { intros [= <- <-]. split; [exact Huniq | discriminate]. }
  destruct (py_get data "agent_id" PNone) as [agent|]; simpl; [|discriminate].
  destruct (py_truthy agent).
  2: { intros [= <- <-]. split; [exact Huniq | discriminate]. }
  destruct (most_recent (matching_sessions agent sessions)) as [[i s]|] eqn:Hm.
  { intros [= <- <-]. split; [apply unique_link; assumption|].
    intros i' s' [= <- <-].
    apply most_recent_lookup, elem_of_matching_sessions in Hm as ((key & Hi) & _).
    exists key. apply lookup_update_session. exact Hi. }
  destruct (most_recent (recent_sessions now sessions)) as [[i s]|] eqn:Hr.
  { intros [= <- <-]. split; [apply unique_link; assumption|].
    intros i' s' [= <- <-].
    apply most_recent_lookup, elem_of_recent_sessions in Hr as ((key & Hi) & _).
    exists key. apply lookup_update_session. exact Hi. }
  intros [= <- <-]. split; [exact Huniq | discriminate].
Qed.

Section CallIdPreservation.
Context `{PyLib} (WEBHOOK_SECRET : string) (SERVER_PORT : Z).

Lemma process_matched_conversation_id (now : Z) (now_iso : string)
    (webhook_json webhook_type data : pyval) (session : ConversationSession) :
  conversation_id
    (fst (process_matched now now_iso webhook_json webhook_type data session))
  = conversation_id session.
Proof.
  unfold process_matched. cbn [fst].
  repeat match goal with |- context [if ?b then _ else _] => destruct b end;
    reflexivity.
Qed.

Lemma webhook_unique (now : Z) (now_iso : string) (req : request)
    (sessions : store) :
  unique_call_ids sessions ->
  unique_call_ids (snd (fst (webhook WEBHOOK_SECRET now now_iso req sessions))).
Proof.
  intros Huniq. unfold webhook.
  destruct (negb _); [exact Huniq|].
  destruct (receive now req sessions)
    as [[[[[webhook_json webhook_type] data] found] sessions']|] eqn:Hrecv;
    [|exact Huniq].
  assert (Hcorr : unique_call_ids sessions'
                  /\ forall i session, found = Some (i, session) ->
                       exists key, sessions' !! i = Some (key, session)).
  { unfold receive in Hrecv.
    apply bind_Ok in Hrecv as (? & _ & Hrecv).
    apply bind_Ok in Hrecv as (? & _ & Hrecv).
    apply bind_Ok in Hrecv as (? & _ & Hrecv).
    apply bind_Ok in Hrecv as (? & _ & Hrecv).
    apply bind_Ok in Hrecv as ([found0 sessions0] & Hc & Hrecv).
    injection Hrecv as <- <- <- <- <-.
    eapply correlate_found; eauto. }
  destruct Hcorr as [Huniq' Hfound].
  destruct found as [[i session]|]; [|exact Huniq'].
  destruct (Hfound i session eq_refl) as [key Hi].
  pose proof (process_matched_conversation_id now now_iso webhook_json
                webhook_type data session) as Hid.
  destruct (process_matched _ _ _ _ _ _) as [session' outcome].
  cbn [fst] in Hid.
  assert (unique_call_ids (update_session i (fun _ => session') sessions')).
  { apply unique_update_session; [exact Huniq'|].
    intros key0 s c Hp Hc. left. rewrite Hi in Hp. injection Hp as <- <-.
    congruence. }
  destruct outcome; assumption.
Qed.

Lemma join_unique (data : pyval) (sessions sessions' : store) out :
  unique_call_ids sessions ->
  handle_join_session data sessions = Ok (sessions', out) ->
  unique_call_ids sessions'.
Proof.
  intros Huniq. unfold handle_join_session. intros Hret.
  apply bind_Ok in Hret as (sid & _ & Hret).
  apply bind_Ok in Hret as (found & _ & Hret).
  destruct found as [i|]; injection Hret as <- <-; [|exact Huniq].
  apply unique_update_session; [exact Huniq|]. intros key s c _ Hc. left.
  exact Hc.
Qed.

Lemma started_unique (now : Z) (data : pyval) (sessions sessions' : store) out :
  unique_call_ids sessions ->
  (forall c, py_get data "conversation_id" PNone = Ok (PStr c) ->
             find_by_call_id (PStr c) sessions = None) ->
  handle_conversation_started now data sessions = Ok (sessions', out) ->
  unique_call_ids sessions'.
Proof.
  intros Huniq Hfree. unfold handle_conversation_started. intros Hret.
  apply bind_Ok in Hret as (sid & _ & Hret).
  apply bind_Ok in Hret as (v & Hv & Hret).
  apply bind_Ok in Hret as (found & _ & Hret).
  destruct found as [i|]; injection Hret as <- <-; [|exact Huniq].
  apply unique_update_session; [exact Huniq|]. intros key s c _ Hc.
  simpl in Hc. subst v. right. intros j kj sj Hj _.
  eapply find_by_call_id_free; eauto.
Qed.

Lemma create_unique (now : Z) (fresh_id : string) (remote_addr : pyval)
    (req : request) (sessions sessions' : store) resp :
  unique_call_ids sessions ->
  create_session SERVER_PORT now fresh_id remote_addr req sessions
  = Ok (resp, sessions') ->
  unique_call_ids sessions'.
Proof.
  intros Huniq. unfold create_session. intros Hret.
  apply bind_Ok in Hret as (data & _ & Hret).
  apply bind_Ok in Hret as (agent_key & _ & Hret).
  apply bind_Ok in Hret as (known & _ & Hret).
  destruct known as [[[agent name] role]|]; injection Hret as <- <-;
    [|exact Huniq].
  intros i j ki si kj sj c Hi Hj Hci Hcj.
  apply lookup_assoc_set_inv in Hi as [[= -> ->]|Hi]; [discriminate|].
  apply lookup_assoc_set_inv in Hj as [[= -> ->]|Hj]; [discriminate|].
  eapply Huniq; eauto.
Qed.

(** C6, as the code has it.  The lookup by a call identity returns the
    first session, in creation order, that holds it.  Where no two
    sessions hold the same call identity, the lookup by the call identity
    of a session [S] returns [S].  The empty store has this property;
    webhook deliveries, session creation and join events keep it; a
    [conversation_started] event keeps it when the call identity it
    asserts is held by no session. *)
Theorem call_id_lookup_consistent :
  unique_call_ids []
  /\ (forall (sessions : store) i key s c,
        sessions !! i = Some (key, s) -> conversation_id s = PStr c ->
        exists j kj sj,
          find_by_call_id (PStr c) sessions = Some (j, (kj, sj))
          /\ conversation_id sj = PStr c
          /\ (j <= i)%nat
          /\ forall k kk sk, sessions !! k = Some (kk, sk) -> (k < j)%nat ->
                             conversation_id sk <> PStr c)
  /\ forall sessions : store,
       unique_call_ids sessions ->
       (forall i key s c,
          sessions !! i = Some (key, s) -> conversation_id s = PStr c ->
          find_by_call_id (PStr c) sessions = Some (i, (key, s)))
       /\ (forall now now_iso req,
             unique_call_ids
               (snd (fst (webhook WEBHOOK_SECRET now now_iso req sessions))))
       /\ (forall now fresh_id remote_addr req resp sessions',
             create_session SERVER_PORT now fresh_id remote_addr req sessions
             = Ok (resp, sessions') ->
             unique_call_ids sessions')
       /\ (forall data sessions' out,
             handle_join_session data sessions = Ok (sessions', out) ->
             unique_call_ids sessions')
       /\ (forall now data sessions' out,
             (forall c, py_get data "conversation_id" PNone = Ok (PStr c) ->
                        find_by_call_id (PStr c) sessions = None) ->
             handle_conversation_started now data sessions = Ok (sessions', out) ->
             unique_call_ids sessions').
Proof.
  split; [|split].
  - intros i j ki si kj sj c Hi. rewrite lookup_nil in Hi. discriminate.
  - intros sessions i key s c. apply find_by_call_id_first.
  - intros sessions Huniq. repeat split.
    + intros i key s c. apply find_by_call_id_unique. exact Huniq.
    + intros now now_iso req. apply webhook_unique. exact Huniq.
    + intros now fresh_id remote_addr req resp sessions'.
      apply create_unique. exact Huniq.
    + intros data sessions' out. apply join_unique. exact Huniq.
    + intros now data sessions' out Hfree. eapply started_unique; eauto.
Qed.

End CallIdPreservation.

Lemma two_sessions_unique : unique_call_ids two_sessions.
Proof.
  intros i j ki si kj sj c Hi Hj Hci Hcj.
  destruct i as [|[|i]]; simpl in Hi; try discriminate;
    injection Hi as <- <-; discriminate.
Qed.

Lemma call_id_lookup_consistent_witness :
  exists out,
    handle_conversation_started 30000000 (started_event "session-a" "conv-1")
      two_sessions
    = Ok ([("session-a", started 30000000 "conv-1" session_a);
           ("session-b", session_b)], out)
    /\ unique_call_ids [("session-a", started 30000000 "conv-1" session_a);
                        ("session-b", session_b)]
    /\ find_by_call_id (PStr "conv-1")
         [("session-a", started 30000000 "conv-1" session_a);
          ("session-b", session_b)]
       = Some (0%nat, ("session-a", started 30000000 "conv-1" session_a)).
Proof.
  destruct (@call_id_lookup_consistent sample_lib "secret" 5000)
    as (_ & _ & Hkeep).
  destruct (Hkeep two_sessions two_sessions_unique) as (_ & _ & _ & _ & Hstarted).
  eexists. split; [reflexivity|].
  assert (Huniq : unique_call_ids
                    [("session-a", started 30000000 "conv-1" session_a);
                     ("session-b", session_b)]).
  { eapply (Hstarted 30000000 (started_event "session-a" "conv-1"));
      [|reflexivity].
    intros c [= <-]. reflexivity. }
  split; [exact Huniq|].
  destruct (Hkeep _ Huniq) as (Hlookup & _).
  apply (Hlookup 0%nat "session-a" (started 30000000 "conv-1" session_a) "conv-1");
    reflexivity.
Defined.

(** C6 as stated fails: two [conversation_started] events can give two
    sessions the same call identity, and the lookup by the call identity
    of session B then returns session A. *)
Lemma duplicate_call_id_counterexample :
  exists out_a out_b,
    handle_conversation_started 30000000 (started_event "session-a" "conv-1")
      two_sessions
    = Ok ([("session-a", started 30000000 "conv-1" session_a);
           ("session-b", session_b)], out_a)
    /\ handle_conversation_started 31000000 (started_event "session-b" "conv-1")
         [("session-a", started 30000000 "conv-1" session_a);
          ("session-b", session_b)]
       = Ok ([("session-a", started 30000000 "conv-1" session_a);
              ("session-b", started 31000000 "conv-1" session_b)], out_b)
    /\ conversation_id (started 30000000 "conv-1" session_a) = PStr "conv-1"
    /\ conversation_id (started 31000000 "conv-1" session_b) = PStr "conv-1"
    /\ find_by_call_id (conversation_id (started 31000000 "conv-1" session_b))
         [("session-a", started 30000000 "conv-1" session_a);
          ("session-b", started 31000000 "conv-1" session_b)]
       = Some (0%nat, ("session-a", started 30000000 "conv-1" session_a)).
Proof. eexists _, _. repeat split; reflexivity. Qed.

(** * Further properties of the normaliser *)

(** One step through a sequence of lookups. *)
Ltac look_up := cbn [mbind result_bind py_get from_option id].

Lemma format_transcript_dicts (entries : list dict) (formatted : list pyval) :
  format_transcript (map PDict entries) formatted
  = Ok (formatted ++ map formatted_entry (List.filter has_message entries))%list.
Proof.
  revert formatted.
  induction entries as [|entry entries IH]; intros formatted.
  - simpl. rewrite app_nil_r. reflexivity.
  - cbn [map format_transcript List.filter].
    change (format_entry (PDict entry))
      with (Ok (formatted_entry entry, has_message entry)).
    cbn [mbind result_bind]. rewrite IH.
    destruct (has_message entry); [|reflexivity].
    cbn [map]. rewrite <- app_assoc. reflexivity.
Qed.

(** X1. On a payload whose transcript is a list of dictionaries,
    [extract_transcript_data] returns: its transcript holds, in their
    order, exactly the entries with a non-empty message, each reduced to
    the five fields with their defaults; [message_count] is their number
    and [raw_transcript] is the transcript as received. *)
Theorem transcript_keeps_spoken_entries (payload data : dict)
    (entries : list dict) :
  assoc "data" payload = Some (PDict data) ->
  assoc "transcript" data = Some (PList (map PDict entries)) ->
  extract_transcript_data (PDict payload)
  = Ok (PDict
          [("conversation_id", default PNone (assoc "conversation_id" data));
           ("agent_id", default PNone (assoc "agent_id" data));
           ("transcript",
            PList (map formatted_entry (List.filter has_message entries)));
           ("message_count",
            PInt (Z.of_nat (length (List.filter has_message entries))));
           ("raw_transcript", PList (map PDict entries))])
  /\ (length (List.filter has_message entries) <= length entries)%nat.
Proof.
  intros Hdata Htranscript. split.
  - unfold extract_transcript_data. simpl. rewrite Hdata. simpl.
    rewrite Htranscript. simpl. rewrite format_transcript_dicts. simpl.
    rewrite length_map. reflexivity.
  - apply List.filter_length_le.
Qed.

Lemma transcript_keeps_spoken_entries_witness :
  extract_transcript_data
    (PDict (transcript_payload (PList (map PDict three_entries))))
  = Ok (PDict
          [("conversation_id", PStr "conv-1");
           ("agent_id", PNone);
           ("transcript",
            PList [PDict [("role", PStr "agent"); ("message", PStr "Hello");
                          ("time_in_call_secs", PInt 0);
                          ("interrupted", PBool false);
                          ("source_medium", PStr "unknown")];
                   PDict [("role", PStr "user"); ("message", PStr "Hi");
                          ("time_in_call_secs", PInt 3);
                          ("interrupted", PBool false);
                          ("source_medium", PStr "unknown")]]);
           ("message_count", PInt 2);
           ("raw_transcript", PList (map PDict three_entries))]).
Proof.
  exact (proj1 (transcript_keeps_spoken_entries
                  (transcript_payload (PList (map PDict three_entries)))
                  (transcript_fields (PList (map PDict three_entries)))
                  three_entries eq_refl eq_refl)).
Defined.

Lemma features_loop_flagged `{PyLib} (features : dict) (used_features : list pyval) :
  features_loop features used_features
  = Ok (used_features
        ++ map (fun kv => PStr (str_title (replace_underscores (fst kv))))
               (List.filter (fun kv => feature_used (snd kv)) features))%list.
Proof.
  revert used_features.
  induction features as [|[feature details] features IH]; intros used_features.
  - simpl. rewrite app_nil_r. reflexivity.
  - cbn [features_loop List.filter fst snd].
    destruct details as [|b| | | | |d]; cbn [is_dict is_bool feature_used andb];
      try (rewrite IH; reflexivity).
    + destruct b; cbn [py_truthy]; rewrite IH; [|reflexivity].
      cbn [map fst]. rewrite <- app_assoc. reflexivity.
    + cbn [py_get mbind result_bind].
      destruct (py_truthy (default PNone (assoc "used" d))); rewrite IH;
        [|reflexivity].
      cbn [map fst]. rewrite <- app_assoc. reflexivity.
Qed.

(** X2. [extract_features_used] never raises on a dictionary: it lists,
    in the order of the dictionary, the titled names of exactly the
    features whose details are [True] or a dictionary with a true
    [used]; a feature flagged by any other value (1, "yes", a list) is
    left out. *)
Theorem extract_features_used_lists_flagged `{PyLib} (features : dict) :
  extract_features_used (PDict features)
  = Ok (PList (map (fun kv => PStr (str_title (replace_underscores (fst kv))))
                   (List.filter (fun kv => feature_used (snd kv)) features))).
Proof.
  unfold extract_features_used. cbn [py_items mbind result_bind].
  rewrite features_loop_flagged. reflexivity.
Qed.

Lemma format_entry_not_dict (entry : pyval) :
  is_dict entry = false -> format_entry entry = Raise AttributeError.
Proof. destruct entry; try reflexivity. discriminate. Qed.

Lemma format_transcript_malformed (entries formatted : list pyval) :
  Exists (fun entry => is_dict entry = false) entries ->
  format_transcript entries formatted = Raise AttributeError.
Proof.
  revert formatted.
  induction entries as [|entry entries IH]; intros formatted Hbad.
  - inversion Hbad.
  - cbn [format_transcript]. destruct (is_dict entry) eqn:Hentry.
    + destruct entry as [| | | | | |d]; try discriminate.
      change (format_entry (PDict d))
        with (Ok (formatted_entry d, has_message d)).
      cbn [mbind result_bind]. apply IH.
      inversion Hbad as [? ? Hhead|? ? Htail]; subst; [discriminate | exact Htail].
    + rewrite (format_entry_not_dict _ Hentry). reflexivity.
Qed.

Section NormaliserFailures.
Context `{PyLib}.

(** X3. One transcript entry that is not a dictionary (a string, a
    number, [null]) makes [process_post_call_webhook] return the
    error-tagged record: the statistics and the analysis of the payload
    are not extracted either. *)
Theorem malformed_entry_discards_record (now_iso : string)
    (payload data : dict) (entries : list pyval) :
  assoc "type" payload = Some (PStr "post_call_transcription") ->
  assoc "data" payload = Some (PDict data) ->
  assoc "transcript" data = Some (PList entries) ->
  Exists (fun entry => is_dict entry = false) entries ->
  process_post_call_webhook now_iso (PDict payload)
  = Ok (error_result
          ("Error processing webhook: " ++ exn_str AttributeError)%string
          (PDict payload)).
Proof.
  intros Htype Hdata Htranscript Hbad.
  unfold process_post_call_webhook. simpl. rewrite Htype. simpl.
  unfold extract_transcript_data. simpl. rewrite Hdata. simpl.
  rewrite Htranscript. simpl.
  rewrite (format_transcript_malformed _ _ Hbad). reflexivity.
Qed.

Lemma charge_not_a_number (payload data metadata : dict) (amount : pyval) :
  assoc "data" payload = Some (PDict data) ->
  assoc "metadata" data = Some (PDict metadata) ->
  as_number amount = None ->
  assoc "cost" metadata = Some amount
  \/ (exists charging,
        assoc "charging" metadata = Some (PDict charging)
        /\ (assoc "call_charge" charging = Some amount
            \/ assoc "llm_charge" charging = Some amount)) ->
  exists e, extract_call_statistics (PDict payload) = Raise e.
Proof.
  intros Hdata Hmetadata Hamount Hwhere.
  assert (Hdiv : py_truediv_int amount 100000 = Raise TypeError).
  { unfold py_truediv_int. rewrite Hamount. reflexivity. }
  unfold extract_call_statistics. look_up. rewrite Hdata. look_up.
  rewrite Hmetadata. look_up.
  destruct Hwhere as [Hcost | (charging & Hcharging & [Hcall | Hllm])].
  - destruct (default empty_dict (assoc "charging" metadata)) as [| | | | | |charging];
      try (eexists; reflexivity).
    look_up.
    destruct (py_truediv_int (default (PInt 0) (assoc "call_charge" charging)) _);
      [|eauto].
    look_up.
    destruct (py_truediv_int (default (PInt 0) (assoc "llm_charge" charging)) _);
      [|eauto].
    look_up. rewrite Hcost. look_up. rewrite Hdiv. eauto.
  - rewrite Hcharging. look_up. rewrite Hcall. look_up. rewrite Hdiv. eauto.
  - rewrite Hcharging. look_up.
    destruct (py_truediv_int (default (PInt 0) (assoc "call_charge" charging)) _);
      [|eauto].
    look_up. rewrite Hllm. look_up. rewrite Hdiv. eauto.
Qed.

(** X4. A charge that is present but is not a number (JSON [null], a
    string, a list or a dictionary), be it [cost], [call_charge] or
    [llm_charge], makes [process_post_call_webhook] return the
    error-tagged record: where an absent charge counts as 0, a [null]
    one costs the transcript and the analysis as well. *)
Theorem null_charge_discards_record (now_iso : string)
    (payload data metadata : dict) (amount : pyval) :
  assoc "type" payload = Some (PStr "post_call_transcription") ->
  assoc "data" payload = Some (PDict data) ->
  assoc "metadata" data = Some (PDict metadata) ->
  as_number amount = None ->
  assoc "cost" metadata = Some amount
  \/ (exists charging,
        assoc "charging" metadata = Some (PDict charging)
        /\ (assoc "call_charge" charging = Some amount
            \/ assoc "llm_charge" charging = Some amount)) ->
  exists e,
    process_post_call_webhook now_iso (PDict payload)
    = Ok (error_result ("Error processing webhook: " ++ exn_str e)%string
            (PDict payload)).
Proof.
  intros Htype Hdata Hmetadata Hamount Hwhere.
  destruct (charge_not_a_number _ _ _ _ Hdata Hmetadata Hamount Hwhere)
    as [e He].
  unfold process_post_call_webhook. simpl. rewrite Htype. simpl.
  destruct (extract_transcript_data (PDict payload)) as [transcript|e'];
    simpl; [|eauto].
  rewrite He. simpl. eauto.
Qed.

(** X5. Without a [metadata] entry the statistics are the defaults: a
    duration of 0 rendered as "0 seconds", no start time, "Unknown"
    termination reason and language, all charges 0 credits and 0.0
    dollars, no model usage and no feature. *)
Theorem statistics_without_metadata (payload data : dict) :
  py_get (PDict payload) "data" empty_dict = Ok (PDict data) ->
  assoc "metadata" data = None ->
  extract_call_statistics (PDict payload)
  = Ok (PDict
          [("call_duration_secs", PInt 0);
           ("call_duration_formatted", PStr "0 seconds");
           ("start_time", PNone);
           ("termination_reason", PStr "Unknown");
           ("main_language", PStr "Unknown");
           ("costs", PDict [("total_cost_dollars", PFloat 0);
                            ("call_cost_dollars", PFloat 0);
                            ("llm_cost_dollars", PFloat 0);
                            ("total_cost_credits", PInt 0);
                            ("call_cost_credits", PInt 0);
                            ("llm_cost_credits", PInt 0)]);
           ("llm_usage", PDict []);
           ("features_used", PList [])]).
Proof.
  intros Hdata Hmetadata. unfold extract_call_statistics.
  rewrite Hdata. cbn [mbind result_bind py_get]. rewrite Hmetadata.
  reflexivity.
Qed.

Lemma format_duration_of_number (seconds : pyval) :
  as_number seconds <> None -> exists text, format_duration seconds = Ok text.
Proof.
  intros Hsome. unfold format_duration, py_lt_int, py_floordiv_int, py_mod_int.
  destruct (as_number seconds) as [[n|x]|]; [| |contradiction];
    cbn [mbind result_bind as_number];
    repeat match goal with
           | |- context [if ?b then _ else _] => destruct b
           end; eauto.
Qed.

(** X6. [format_duration] returns a text for every number (an [int], a
    [bool], a [float]) and raises [TypeError] for everything else; an
    [int] below 60, a negative one included, is rendered as
    "<n> seconds". *)
Theorem format_duration_domain (seconds : pyval) :
  (as_number seconds = None -> format_duration seconds = Raise TypeError)
  /\ (as_number seconds <> None -> exists text, format_duration seconds = Ok text)
  /\ (forall n, seconds = PInt n -> n < 60 ->
      format_duration seconds = Ok (int_str n ++ " seconds")%string).
Proof.
  split; [|split].
  - intros Hnone. unfold format_duration, py_lt_int. rewrite Hnone. reflexivity.
  - apply format_duration_of_number.
  - intros n -> Hn. unfold format_duration. cbn [py_lt_int as_number].
    cbn [mbind result_bind].
    destruct (Z.ltb_spec n 60); [reflexivity | lia].
Qed.

End NormaliserFailures.

Lemma malformed_entry_discards_record_witness :
  @process_post_call_webhook sample_lib "2025-01-01T00:00:00"
    (PDict (transcript_payload (PList [PStr "Hello"])))
  = Ok [("error", PStr "Error processing webhook: ");
        ("raw_data", PDict (transcript_payload (PList [PStr "Hello"])))].
Proof.
  apply (@malformed_entry_discards_record sample_lib "2025-01-01T00:00:00"
           (transcript_payload (PList [PStr "Hello"]))
           (transcript_fields (PList [PStr "Hello"]))
           [PStr "Hello"] eq_refl eq_refl eq_refl).
  apply Exists_cons_hd. reflexivity.
Defined.

Lemma null_charge_discards_record_witness :
  exists e,
    @process_post_call_webhook sample_lib "2025-01-01T00:00:00"
      (PDict (metadata_payload [("cost", PNone)]))
    = Ok [("error", PStr ("Error processing webhook: " ++ @exn_str sample_lib e));
          ("raw_data", PDict (metadata_payload [("cost", PNone)]))].
Proof.
  apply (@null_charge_discards_record sample_lib "2025-01-01T00:00:00"
           (metadata_payload [("cost", PNone)])
           [("metadata", PDict [("cost", PNone)])]
           [("cost", PNone)] PNone eq_refl eq_refl eq_refl eq_refl).
  left. reflexivity.
Defined.

Lemma statistics_without_metadata_witness :
  exists statistics,
    @extract_call_statistics sample_lib
      (PDict [("type", PStr "post_call_transcription")])
    = Ok (PDict statistics)
    /\ assoc "call_duration_formatted" statistics = Some (PStr "0 seconds")
    /\ assoc "start_time" statistics = Some PNone.
Proof.
  eexists. split.
  - apply (@statistics_without_metadata sample_lib
             [("type", PStr "post_call_transcription")] []);
      reflexivity.
  - split; reflexivity.
Defined.

Lemma format_duration_domain_witness :
  @format_duration sample_lib PNone = Raise TypeError
  /\ (exists text, @format_duration sample_lib (PBool true) = Ok text)
  /\ @format_duration sample_lib (PInt (-5)) = Ok "-5 seconds".
Proof.
  split; [|split].
  - apply (proj1 (@format_duration_domain sample_lib PNone)). reflexivity.
  - apply (proj1 (proj2 (@format_duration_domain sample_lib (PBool true)))).
    discriminate.
  - apply (proj2 (proj2 (@format_duration_domain sample_lib (PInt (-5))))
             (-5) eq_refl).
    lia.
Defined.

(** ** The collected data *)

Lemma assoc_set_absent {V} (k : string) (v : V) (d : list (string * V)) :
  assoc k d = None -> assoc_set k v d = (d ++ [(k, v)])%list.
Proof.
  induction d as [|[k' v'] d IH]; simpl; [reflexivity|].
  destruct (String.eqb k k'); [discriminate|].
  intros Habsent. rewrite (IH Habsent). reflexivity.
Qed.

Lemma assoc_app_absent {V} (k : string) (d e : list (string * V)) :
  assoc k d = None -> assoc k (d ++ e)%list = assoc k e.
Proof.
  induction d as [|[k' v'] d IH]; simpl; [reflexivity|].
  destruct (String.eqb k k'); [discriminate | exact IH].
Qed.

Lemma collected_entry_of_item (item : dict) (key : string)
    (items : list (string * pyval)) (collected : dict) :
  is_Some (schema_of item) ->
  collection_loop ((key, PDict item) :: items) collected
  = collection_loop items (assoc_set key (collected_entry item) collected).
Proof.
  intros [schema Hschema]. cbn [collection_loop]. look_up.
  unfold collected_entry. rewrite Hschema. unfold schema_of in Hschema.
  destruct (assoc "json_schema" item) as [[| | | | | |schema']|];
    try discriminate; injection Hschema as <-; reflexivity.
Qed.

Lemma collection_loop_distinct (items : list (string * dict)) (collected : dict) :
  NoDup (map fst items) ->
  Forall (fun kv => is_Some (schema_of (snd kv))) items ->
  (forall k, In k (map fst items) -> assoc k collected = None) ->
  collection_loop (map (fun kv => (fst kv, PDict (snd kv))) items) collected
  = Ok (collected ++ map (fun kv => (fst kv, collected_entry (snd kv))) items)%list.
Proof.
  revert collected.
  induction items as [|[key item] items IH]; intros collected Hkeys Hschemas Hfresh.
  - simpl. rewrite app_nil_r. reflexivity.
  - inversion Hkeys as [|? ? Hkey Hrest]; subst.
    inversion Hschemas as [|? ? Hschema Hschemas']; subst.
    cbn [map fst snd]. rewrite (collected_entry_of_item _ _ _ _ Hschema).
    rewrite assoc_set_absent by (apply Hfresh; left; reflexivity).
    rewrite IH; [|exact Hrest|exact Hschemas'|].
    + rewrite <- app_assoc. reflexivity.
    + intros k Hk. rewrite assoc_app_absent by (apply Hfresh; right; exact Hk).
      simpl. destruct (String.eqb_spec k key) as [->|]; [|reflexivity].
      exfalso. apply Hkey, list_elem_of_In. exact Hk.
Qed.

(** X7. On an analysis whose collected items are dictionaries under
    pairwise distinct keys, each with a dictionary (or no) schema,
    [extract_analysis_data] returns: [collected_data] has the same keys
    in the same order, each item reduced to its value, the type and the
    description of its schema and its rationale, with their defaults;
    the summary, the success flag and the evaluation results are the
    payload's, or their defaults. *)
Theorem extract_analysis_data_collects (payload data analysis : dict)
    (items : list (string * dict)) :
  assoc "data" payload = Some (PDict data) ->
  assoc "analysis" data = Some (PDict analysis) ->
  assoc "data_collection_results" analysis = Some (dict_of_dicts items) ->
  NoDup (map fst items) ->
  Forall (fun kv => is_Some (schema_of (snd kv))) items ->
  extract_analysis_data (PDict payload)
  = Ok (PDict
          [("summary", default (PStr "") (assoc "transcript_summary" analysis));
           ("call_successful",
            default (PStr "unknown") (assoc "call_successful" analysis));
           ("collected_data",
            PDict (map (fun kv => (fst kv, collected_entry (snd kv))) items));
           ("evaluation_results",
            default empty_dict (assoc "evaluation_criteria_results" analysis))]).
Proof.
  intros Hdata Hanalysis Hitems Hkeys Hschemas.
  unfold extract_analysis_data. look_up. rewrite Hdata. look_up.
  rewrite Hanalysis. look_up. rewrite Hitems.
  cbn [from_option id dict_of_dicts py_items mbind result_bind].
  rewrite collection_loop_distinct by (assumption || reflexivity).
  reflexivity.
Qed.

Lemma extract_analysis_data_collects_witness :
  extract_analysis_data
    (PDict (analysis_payload
              [("data_collection_results", dict_of_dicts two_items)]))
  = Ok (PDict
          [("summary", PStr "");
           ("call_successful", PStr "unknown");
           ("collected_data",
            PDict [("patient_name",
                    PDict [("value", PStr "Ada"); ("type", PStr "string");
                           ("description", PStr ""); ("rationale", PStr "")]);
                   ("patient_dob",
                    PDict [("value", PNone); ("type", PStr "unknown");
                           ("description", PStr "");
                           ("rationale", PStr "not mentioned")])]);
           ("evaluation_results", PDict [])]).
Proof.
  apply (extract_analysis_data_collects
           (analysis_payload
              [("data_collection_results", dict_of_dicts two_items)])
           [("analysis",
             PDict [("data_collection_results", dict_of_dicts two_items)])]
           [("data_collection_results", dict_of_dicts two_items)]
           two_items eq_refl eq_refl eq_refl).
  - repeat (apply NoDup_cons_2 || apply NoDup_nil_2);
      intros Hin; apply list_elem_of_In in Hin; simpl in Hin;
      intuition discriminate.
  - repeat constructor; eexists; reflexivity.
Defined.

Lemma collection_loop_items_with_value (items : list (string * pyval))
    (collected collected' : dict) :
  items_with_value collected ->
  collection_loop items collected = Ok collected' ->
  items_with_value collected'.
Proof.
  revert collected.
  induction items as [|[key item] items IH]; intros collected Hvalues Hloop.
  - injection Hloop as <-. exact Hvalues.
  - cbn [collection_loop] in Hloop.
    apply bind_Ok in Hloop as (value & _ & Hloop).
    apply bind_Ok in Hloop as (schema & _ & Hloop).
    apply bind_Ok in Hloop as (type & _ & Hloop).
    apply bind_Ok in Hloop as (schema' & _ & Hloop).
    apply bind_Ok in Hloop as (description & _ & Hloop).
    apply bind_Ok in Hloop as (rationale & _ & Hloop).
    refine (IH _ _ Hloop).
    intros key' item'. destruct (String.eqb_spec key' key) as [->|Hne].
    + rewrite assoc_set_eq. intros [= <-]. eexists. split; [reflexivity|].
      eexists. reflexivity.
    + rewrite assoc_set_ne by exact Hne. apply Hvalues.
Qed.

Lemma extract_key_patient_info_fields (collected : dict) :
  items_with_value collected ->
  extract_key_patient_info (PDict collected)
  = Ok (PDict
          [("patient_name", key_field collected "patient_name" (PStr "Unknown"));
           ("patient_dob", key_field collected "patient_dob" (PStr "Unknown"));
           ("primary_diagnosis",
            key_field collected "primary_diagnosis" (PStr "Unknown"));
           ("comorbidities", key_field collected "comorbidities" (PStr "None"));
           ("transportation_needed",
            key_field collected "transportation_assistance" (PBool false))]).
Proof.
  intros Hvalues.
  assert (Hfield : forall key dflt,
             (item ← py_get (PDict collected) key empty_dict;
              py_get item "value" dflt)
             = Ok (key_field collected key dflt)).
  { intros key dflt. look_up. unfold key_field.
    destruct (assoc key collected) as [item|] eqn:Hitem; [|reflexivity].
    destruct (Hvalues _ _ Hitem) as (fields & -> & _). reflexivity. }
  unfold extract_key_patient_info. rewrite !Hfield. reflexivity.
Qed.

Lemma extract_analysis_data_items (payload analysis : pyval) :
  extract_analysis_data payload = Ok analysis ->
  exists fields collected,
    analysis = PDict fields
    /\ assoc "collected_data" fields = Some (PDict collected)
    /\ items_with_value collected.
Proof.
  intros Hanalysis. unfold extract_analysis_data in Hanalysis.
  apply bind_Ok in Hanalysis as (data & _ & Hanalysis).
  apply bind_Ok in Hanalysis as (analysis' & _ & Hanalysis).
  apply bind_Ok in Hanalysis as (data_collection & _ & Hanalysis).
  apply bind_Ok in Hanalysis as (items & _ & Hanalysis).
  apply bind_Ok in Hanalysis as (collected & Hloop & Hanalysis).
  apply bind_Ok in Hanalysis as (summary & _ & Hanalysis).
  apply bind_Ok in Hanalysis as (call_successful & _ & Hanalysis).
  apply bind_Ok in Hanalysis as (evaluation_results & _ & Hanalysis).
  injection Hanalysis as <-. eexists _, collected.
  split; [reflexivity|]. split; [reflexivity|].
  apply (collection_loop_items_with_value items []); [|exact Hloop].
  intros key item [=].
Qed.

(** X8. Whenever [extract_analysis_data] returns, every item of its
    [collected_data] is a dictionary with a [value] entry, so
    [extract_key_patient_info] does not raise on it and reports, for
    each of its five fields, the value of the collected item; the
    default ("Unknown", "None", [False]) is reported only when the
    payload has no such item, and an item without value is reported as
    [None]. *)
Theorem patient_info_of_analysis (payload analysis : pyval) :
  extract_analysis_data payload = Ok analysis ->
  exists collected,
    py_getitem analysis "collected_data" = Ok (PDict collected)
    /\ items_with_value collected
    /\ extract_key_patient_info (PDict collected)
       = Ok (PDict
               [("patient_name",
                 key_field collected "patient_name" (PStr "Unknown"));
                ("patient_dob",
                 key_field collected "patient_dob" (PStr "Unknown"));
                ("primary_diagnosis",
                 key_field collected "primary_diagnosis" (PStr "Unknown"));
                ("comorbidities",
                 key_field collected "comorbidities" (PStr "None"));
                ("transportation_needed",
                 key_field collected "transportation_assistance" (PBool false))]).
Proof.
  intros Hanalysis.
  apply extract_analysis_data_items in Hanalysis
    as (fields & collected & -> & Hcollected & Hvalues).
  exists collected. cbn [py_getitem]. rewrite Hcollected.
  split; [reflexivity|]. split; [exact Hvalues|].
  apply extract_key_patient_info_fields. exact Hvalues.
Qed.

Lemma patient_info_of_analysis_witness :
  exists collected,
    extract_key_patient_info (PDict collected)
    = Ok (PDict [("patient_name", PStr "Ada");
                 ("patient_dob", PNone);
                 ("primary_diagnosis", PStr "Unknown");
                 ("comorbidities", PStr "None");
                 ("transportation_needed", PBool false)]).
Proof.
  destruct (patient_info_of_analysis
              (PDict (analysis_payload
                        [("data_collection_results", dict_of_dicts two_items)]))
              _ eq_refl)
    as (collected & Hcollected & _ & Hinfo).
  exists collected. injection Hcollected as <-. exact Hinfo.
Defined.

(** ** The usage of the language models *)

Lemma assoc_set_twice {V} (k : string) (v w : V) (d : list (string * V)) :
  assoc_set k v (assoc_set k w d) = assoc_set k v d.
Proof.
  induction d as [|[k' v'] d IH]; simpl.
  - rewrite String.eqb_refl. reflexivity.
  - destruct (String.eqb k k') eqn:Hk; simpl.
    + rewrite String.eqb_refl. reflexivity.
    + rewrite Hk, IH. reflexivity.
Qed.

Lemma details_iadd_entry (llm_details totals : dict) (model field : string)
    (current v updated : pyval) :
  assoc model llm_details = Some (PDict totals) ->
  assoc field totals = Some current ->
  py_add current v = Ok updated ->
  details_iadd llm_details model field v
  = Ok (assoc_set model (PDict (assoc_set field updated totals)) llm_details).
Proof.
  intros Hentry Hcurrent Hadd. unfold details_iadd. cbn [py_getitem].
  rewrite Hentry. cbn [mbind result_bind py_getitem]. rewrite Hcurrent.
  cbn [mbind result_bind]. rewrite Hadd. reflexivity.
Qed.

Lemma price_add (a b : pyval) :
  is_price a = true -> is_price b = true ->
  exists c, py_add a b = Ok c /\ is_price c = true.
Proof.
  destruct a as [| |[| |]| | | |]; try discriminate;
    destruct b as [| |[| |]| | | |]; try discriminate; intros _ _;
    eexists; (split; [reflexivity|reflexivity]).
Qed.

Lemma section_metered_inv (section : string) (usage : dict) :
  section_metered section usage = true ->
  exists fields,
    py_get (PDict usage) section empty_dict = Ok (PDict fields)
    /\ py_get (PDict fields) "tokens" (PInt 0)
       = Ok (PInt (usage_tokens section usage))
    /\ exists price,
         py_get (PDict fields) "price" (PInt 0) = Ok price
         /\ is_price price = true.
Proof.
  unfold section_metered, usage_tokens. cbn [py_get].
  destruct (default empty_dict (assoc section usage)) as [| | | | | |fields];
    try discriminate.
  destruct (default (PInt 0) (assoc "tokens" fields)) as [| |n| | | |] eqn:Htokens;
    try discriminate.
  cbn [andb]. intros Hprice. exists fields. split; [reflexivity|].
  split; [rewrite Htokens; reflexivity|].
  eexists. split; [reflexivity | exact Hprice].
Qed.

(** One round of the inner loop, on a model whose running totals are
    [a], [b] and [c]. *)
Lemma models_loop_round (model : string) (usage : dict)
    (models : list (string * pyval)) (llm_details : dict) (a b : Z) (c : pyval) :
  metered usage = true ->
  default fresh_model_details (assoc model llm_details)
  = PDict [("total_input_tokens", PInt a);
           ("total_output_tokens", PInt b);
           ("total_cost", c)] ->
  is_price c = true ->
  exists c',
    is_price c' = true
    /\ models_loop ((model, PDict usage) :: models) llm_details
       = models_loop models
           (assoc_set model
              (PDict [("total_input_tokens", PInt (a + usage_tokens "input" usage));
                      ("total_output_tokens",
                       PInt (b + usage_tokens "output_total" usage));
                      ("total_cost", c')])
              llm_details).
Proof.
  intros Hmetered Hentry Hc.
  apply andb_prop in Hmetered as [Hinput Houtput].
  apply section_metered_inv in Hinput
    as (input & Hinput & Hin_tokens & in_price & Hin_price & Hin_ok).
  apply section_metered_inv in Houtput
    as (output & Houtput & Hout_tokens & out_price & Hout_price & Hout_ok).
  destruct (price_add _ _ Hin_ok Hout_ok) as (price & Hprice & Hprice_ok).
  destruct (price_add _ _ Hc Hprice_ok) as (c' & Hc' & Hc'_ok).
  exists c'. split; [exact Hc'_ok|].
  cbn [models_loop].
  set (started := match assoc model llm_details with
                  | Some _ => llm_details
                  | None => assoc_set model fresh_model_details llm_details
                  end).
  assert (Hstarted : assoc model started
                     = Some (PDict [("total_input_tokens", PInt a);
                                    ("total_output_tokens", PInt b);
                                    ("total_cost", c)])).
  { subst started. destruct (assoc model llm_details) as [entry|] eqn:Hmodel.
    - rewrite Hmodel. simpl in Hentry. congruence.
    - rewrite assoc_set_eq. simpl in Hentry. congruence. }
  assert (Hcollapse : forall entry,
             assoc_set model entry started = assoc_set model entry llm_details).
  { intros entry. subst started.
    destruct (assoc model llm_details); [reflexivity | apply assoc_set_twice]. }
  rewrite Hinput, Houtput. cbn [mbind result_bind].
  rewrite Hin_tokens. cbn [mbind result_bind].
  erewrite details_iadd_entry; [|exact Hstarted|reflexivity|reflexivity].
  cbn [mbind result_bind assoc_set String.eqb Ascii.eqb Bool.eqb].
  rewrite Hout_tokens. cbn [mbind result_bind].
  erewrite details_iadd_entry; [|apply assoc_set_eq|reflexivity|reflexivity].
  cbn [mbind result_bind assoc_set String.eqb Ascii.eqb Bool.eqb].
  rewrite Hin_price. cbn [mbind result_bind].
  rewrite Hout_price. cbn [mbind result_bind].
  rewrite Hprice. cbn [mbind result_bind].
  erewrite details_iadd_entry; [|apply assoc_set_eq|reflexivity|exact Hc'].
  cbn [mbind result_bind assoc_set String.eqb Ascii.eqb Bool.eqb].
  rewrite !assoc_set_twice, Hcollapse. reflexivity.
Qed.

Lemma model_total_set (field model model' : string) (totals llm_details : dict) :
  model_total field model (assoc_set model' (PDict totals) llm_details)
  = if String.eqb model model' then assoc field totals
    else model_total field model llm_details.
Proof.
  unfold model_total. destruct (String.eqb_spec model model') as [->|Hne].
  - rewrite assoc_set_eq. reflexivity.
  - rewrite assoc_set_ne by exact Hne. reflexivity.
Qed.

Lemma total_tokens_set (field model model' : string) (totals llm_details : dict) :
  total_tokens field model (assoc_set model' (PDict totals) llm_details)
  = if String.eqb model model'
    then match assoc field totals with Some (PInt n) => n | _ => 0 end
    else total_tokens field model llm_details.
Proof.
  unfold total_tokens. rewrite model_total_set.
  destruct (String.eqb model model'); reflexivity.
Qed.

Lemma running_totals_entry (llm_details : dict) (model : string) :
  running_totals llm_details ->
  exists a b c,
    default fresh_model_details (assoc model llm_details)
    = PDict [("total_input_tokens", PInt a);
             ("total_output_tokens", PInt b);
             ("total_cost", c)]
    /\ is_price c = true
    /\ total_tokens "total_input_tokens" model llm_details = a
    /\ total_tokens "total_output_tokens" model llm_details = b.
Proof.
  intros Htotals. unfold total_tokens, model_total.
  destruct (assoc model llm_details) as [entry|] eqn:Hentry.
  - destruct (Htotals _ _ Hentry) as (a & b & c & -> & Hc).
    exists a, b, c. repeat split; [exact Hc].
  - exists 0, 0, (PInt 0). repeat split.
Qed.

Lemma models_loop_totals (models : list (string * dict)) (llm_details : dict) :
  forallb (fun kv => metered (snd kv)) models = true ->
  running_totals llm_details ->
  exists llm_details',
    models_loop (map (fun kv => (fst kv, PDict (snd kv))) models) llm_details
    = Ok llm_details'
    /\ running_totals llm_details'
    /\ forall model,
         (assoc model llm_details' = None
          <-> assoc model llm_details = None /\ ~ In model (map fst models))
         /\ total_tokens "total_input_tokens" model llm_details'
            = total_tokens "total_input_tokens" model llm_details
              + tokens_of "input" model models
         /\ total_tokens "total_output_tokens" model llm_details'
            = total_tokens "total_output_tokens" model llm_details
              + tokens_of "output_total" model models.
Proof.
  revert llm_details.
  induction models as [|[name usage] models IH]; intros llm_details Hmetered Htotals.
  - exists llm_details. split; [reflexivity|]. split; [exact Htotals|].
    intros model. simpl. split; [tauto|]. split; lia.
  - cbn [forallb snd] in Hmetered. apply andb_prop in Hmetered as [Husage Hrest].
    destruct (running_totals_entry llm_details name Htotals)
      as (a & b & c & Hentry & Hc & Ha & Hb).
    cbn [map fst snd].
    destruct (models_loop_round name usage
                (map (fun kv => (fst kv, PDict (snd kv))) models)
                llm_details a b c Husage Hentry Hc)
      as (c' & Hc' & ->).
    set (totals := [("total_input_tokens", PInt (a + usage_tokens "input" usage));
                    ("total_output_tokens",
                     PInt (b + usage_tokens "output_total" usage));
                    ("total_cost", c')]).
    destruct (IH (assoc_set name (PDict totals) llm_details) Hrest)
      as (llm_details' & Hloop & Htotals' & Hmodels).
    { intros model entry. destruct (String.eqb_spec model name) as [->|Hne].
      - rewrite assoc_set_eq. intros [= <-]. eexists _, _, _.
        split; [reflexivity | exact Hc'].
      - rewrite assoc_set_ne by exact Hne. apply Htotals. }
    exists llm_details'. split; [exact Hloop|]. split; [exact Htotals'|].
    intros model. destruct (Hmodels model) as (Habsent & Hin & Hout).
    rewrite !total_tokens_set in Hin, Hout.
    cbn [tokens_of]. rewrite (String.eqb_sym name model).
    destruct (String.eqb_spec model name) as [->|Hne].
    + rewrite assoc_set_eq in Habsent. simpl in Hin, Hout.
      split; [|split; [rewrite Hin, Ha; lia | rewrite Hout, Hb; lia]].
      split.
      * intros Hnone. apply Habsent in Hnone as [[=] _].
      * intros [_ Hnot]. exfalso. apply Hnot. left. reflexivity.
    + rewrite assoc_set_ne in Habsent by exact Hne.
      split; [|split; [exact Hin | exact Hout]].
      rewrite Habsent. simpl. intuition congruence.
Qed.

Lemma tokens_of_app (section model : string) (models models' : list (string * dict)) :
  tokens_of section model (models ++ models')
  = tokens_of section model models + tokens_of section model models'.
Proof.
  induction models as [|[name usage] models IH]; simpl; [reflexivity|].
  rewrite IH. lia.
Qed.

(** X9. When both kinds of generation report their usage per model,
    with integer token counts and float prices, the loop of
    [extract_call_statistics] returns one entry per model named in
    either, and the entry's [total_input_tokens] and
    [total_output_tokens] are the sums of the model's input and output
    tokens over both kinds; a model that is named in neither has no
    entry. *)
Theorem token_totals_add_up (llm_usage first second : dict)
    (models models' : list (string * dict)) :
  assoc "irreversible_generation" llm_usage = Some (PDict first) ->
  assoc "model_usage" first = Some (dict_of_dicts models) ->
  assoc "initiated_generation" llm_usage = Some (PDict second) ->
  assoc "model_usage" second = Some (dict_of_dicts models') ->
  forallb (fun kv => metered (snd kv)) (models ++ models') = true ->
  exists llm_details,
    generations_loop ["irreversible_generation"; "initiated_generation"]
      (PDict llm_usage) []
    = Ok llm_details
    /\ forall model,
         (In model (map fst (models ++ models')) ->
          model_total "total_input_tokens" model llm_details
          = Some (PInt (tokens_of "input" model (models ++ models')))
          /\ model_total "total_output_tokens" model llm_details
             = Some (PInt (tokens_of "output_total" model (models ++ models'))))
         /\ (~ In model (map fst (models ++ models')) ->
             assoc model llm_details = None).
Proof.
  intros Hfirst Hmodels Hsecond Hmodels' Hmetered.
  rewrite forallb_app in Hmetered. apply andb_prop in Hmetered as [Hm Hm'].
  destruct (models_loop_totals models [] Hm) as (d1 & Hloop1 & Htotals1 & H1).
  { intros model entry [=]. }
  destruct (models_loop_totals models' d1 Hm' Htotals1)
    as (d2 & Hloop2 & Htotals2 & H2).
  exists d2. split.
  - cbn [generations_loop py_contains py_getitem].
    rewrite Hfirst, Hsecond.
    rewrite !bool_decide_eq_true_2 by eauto.
    cbn [mbind result_bind]. look_up. rewrite Hmodels.
    cbn [from_option id dict_of_dicts py_items mbind result_bind].
    rewrite Hloop1. cbn [mbind result_bind]. look_up. rewrite Hmodels'.
    cbn [from_option id dict_of_dicts py_items mbind result_bind].
    rewrite Hloop2. reflexivity.
  - intros model. destruct (H1 model) as (Habsent1 & Hin1 & Hout1).
    destruct (H2 model) as (Habsent2 & Hin2 & Hout2).
    rewrite map_app, !tokens_of_app. split.
    + intros Hnamed.
      assert (Hpresent : assoc model d2 <> None).
      { intros Hnone. apply Habsent2 in Hnone as [Hnone Hnot'].
        apply Habsent1 in Hnone as [_ Hnot].
        apply in_app_or in Hnamed as [Hin | Hin]; contradiction. }
      destruct (assoc model d2) as [entry|] eqn:Hentry; [|contradiction].
      destruct (Htotals2 _ _ Hentry) as (a & b & c & -> & _).
      unfold total_tokens, model_total in Hin1, Hout1, Hin2, Hout2.
      rewrite Hentry in Hin2, Hout2. simpl in Hin1, Hout1, Hin2, Hout2.
      unfold model_total. rewrite Hentry. simpl.
      split; do 2 f_equal; lia.
    + intros Hnot. apply Habsent2. split.
      * apply Habsent1. split; [reflexivity|].
        intros Hin. apply Hnot, in_or_app. left. exact Hin.
      * intros Hin. apply Hnot, in_or_app. right. exact Hin.
Qed.

Lemma token_totals_add_up_witness :
  exists llm_details,
    generations_loop ["irreversible_generation"; "initiated_generation"]
      (PDict llm_usage_example) []
    = Ok llm_details
    /\ model_total "total_input_tokens" "gpt" llm_details = Some (PInt 130)
    /\ model_total "total_output_tokens" "gpt" llm_details = Some (PInt 25)
    /\ model_total "total_input_tokens" "claude" llm_details = Some (PInt 7)
    /\ assoc "gemini" llm_details = None.
Proof.
  destruct (token_totals_add_up llm_usage_example
              [("model_usage", dict_of_dicts first_models)]
              [("model_usage", dict_of_dicts second_models)]
              first_models second_models
              eq_refl eq_refl eq_refl eq_refl eq_refl)
    as (llm_details & Hloop & Htotals).
  exists llm_details. split; [exact Hloop|].
  destruct (Htotals "gpt") as [Hgpt _].
  destruct (Htotals "claude") as [Hclaude _].
  destruct (Htotals "gemini") as [_ Hgemini].
  split; [apply Hgpt; simpl; tauto|].
  split; [apply Hgpt; simpl; tauto|].
  split; [apply Hclaude; simpl; tauto|].
  apply Hgemini. simpl. intuition discriminate.
Defined.

(** * The transcript as text *)

Section TranscriptTextProperties.
Context `{PyLib} (str_upper : string -> string).

Lemma transcript_lines_app (before after : list pyval) (lines : list string) :
  transcript_lines str_upper (before ++ after) lines
  = (lines' ← transcript_lines str_upper before lines;
     transcript_lines str_upper after lines').
Proof.
  revert lines. induction before as [|entry before IH]; intros lines.
  - reflexivity.
  - cbn [app transcript_lines].
    destruct (py_get entry "time_in_call_secs" (PInt 0)) as [secs|]; [|reflexivity].
    cbn [mbind result_bind].
    destruct (format_duration secs) as [time|]; [|reflexivity].
    cbn [mbind result_bind].
    destruct (py_get entry "role" (PStr "unknown")) as [role|]; [|reflexivity].
    cbn [mbind result_bind].
    destruct (py_upper str_upper role) as [role'|]; [|reflexivity].
    cbn [mbind result_bind].
    destruct (py_get entry "message" (PStr "")) as [message|]; [|reflexivity].
    cbn [mbind result_bind]. apply IH.
Qed.

(** X10. In [get_formatted_transcript_text] an entry without message
    adds nothing to the text, wherever it stands, provided its time is a
    number and its role a string: both are formatted before the message
    is looked at.  An entry whose role is present and is not a string
    (JSON [null], say) makes the conversion raise, even when the entry
    has no message and no line would be written for it. *)
Theorem silent_entries_are_formatted (before after : list pyval) (entry : dict) :
  (as_number (default (PInt 0) (assoc "time_in_call_secs" entry)) <> None ->
   (exists role, default (PStr "unknown") (assoc "role" entry) = PStr role) ->
   has_message entry = false ->
   get_formatted_transcript_text str_upper (PList (before ++ PDict entry :: after))
   = get_formatted_transcript_text str_upper (PList (before ++ after)))
  /\ ((forall role, default (PStr "unknown") (assoc "role" entry) <> PStr role) ->
      exists e,
        get_formatted_transcript_text str_upper
          (PList (before ++ PDict entry :: after))
        = Raise e).
Proof.
  split.
  - intros Htime [role Hrole] Hsilent.
    destruct (format_duration_of_number _ Htime) as [time Hformat].
    unfold get_formatted_transcript_text. cbn [py_iter mbind result_bind].
    rewrite !transcript_lines_app.
    destruct (transcript_lines str_upper before []) as [lines|]; [|reflexivity].
    cbn [mbind result_bind transcript_lines]. look_up.
    rewrite Hformat. cbn [mbind result_bind]. rewrite Hrole.
    cbn [py_upper mbind result_bind].
    unfold has_message in Hsilent. rewrite Hsilent. reflexivity.
  - intros Hrole.
    unfold get_formatted_transcript_text. cbn [py_iter mbind result_bind].
    rewrite transcript_lines_app.
    destruct (transcript_lines str_upper before []) as [lines|]; [|eauto].
    cbn [mbind result_bind transcript_lines]. look_up.
    destruct (format_duration _) as [time|]; [|eauto].
    cbn [mbind result_bind].
    destruct (default (PStr "unknown") (assoc "role" entry)) as [| | | |role| |];
      try (eexists; reflexivity).
    destruct (Hrole role eq_refl).
Qed.

End TranscriptTextProperties.

Lemma silent_entries_are_formatted_witness :
  @get_formatted_transcript_text sample_lib ascii_upper
    (PList (map PDict three_entries ++ PDict silent_entry :: []))
  = @get_formatted_transcript_text sample_lib ascii_upper
      (PList (map PDict three_entries ++ []))
  /\ @get_formatted_transcript_text sample_lib ascii_upper
       (PList (map PDict three_entries))
     = Ok ("[0 seconds] AGENT: Hello" ++ newline ++ newline
           ++ "[3 seconds] USER: Hi")%string
  /\ exists e,
       @get_formatted_transcript_text sample_lib ascii_upper
         (PList (map PDict three_entries ++ PDict anonymous_entry :: []))
       = Raise e.
Proof.
  split; [|split].
  - apply (proj1 (@silent_entries_are_formatted sample_lib ascii_upper
                    (map PDict three_entries) [] silent_entry)).
    + discriminate.
    + eexists. reflexivity.
    + reflexivity.
  - reflexivity.
  - apply (proj2 (@silent_entries_are_formatted sample_lib ascii_upper
                    (map PDict three_entries) [] anonymous_entry)).
    intros role. discriminate.
Defined.

(** * Further properties of the webhook endpoint *)

Section SignatureDomain.
Context `{PyLib} (WEBHOOK_SECRET : string).

Lemma verify_rejects (req : request) :
  signature_header req = None
  \/ signature_header req = Some ""
  \/ (exists signature,
        signature_header req = Some signature /\ is_ascii signature = false) ->
  verify_webhook_signature WEBHOOK_SECRET req = false.
Proof.
  unfold verify_webhook_signature, compare_digest.
  intros [-> | [-> | (signature & -> & Hascii)]]; [reflexivity..|].
  destruct (String.eqb signature ""); [reflexivity|].
  rewrite Hascii. reflexivity.
Qed.

(** X11. Which requests pass [verify_webhook_signature]: given that the
    expected digest is ASCII (a hexadecimal digest is), exactly those
    whose [elevenlabs-signature] header is present, non-empty and ASCII.
    A request without the header, with an empty one or with one that
    holds a character outside ASCII is answered 401 by [webhook], which
    then leaves every session as it was and publishes nothing. *)
Theorem verify_webhook_signature_domain (req : request) :
  (is_ascii (hmac_sha256_hexdigest WEBHOOK_SECRET (body req)) = true ->
   (verify_webhook_signature WEBHOOK_SECRET req = true
    <-> exists signature,
          signature_header req = Some signature
          /\ signature <> "" /\ is_ascii signature = true))
  /\ (signature_header req = None
      \/ signature_header req = Some ""
      \/ (exists signature,
            signature_header req = Some signature /\ is_ascii signature = false) ->
      forall now now_iso sessions,
        webhook WEBHOOK_SECRET now now_iso req sessions
        = (unauthorized, sessions, [])).
Proof.
  split.
  - intros Hdigest. split.
    + intros Hverify.
      destruct (signature_header req) as [signature|] eqn:Hheader.
      2: { rewrite verify_rejects in Hverify by (left; exact Hheader).
           discriminate. }
      exists signature. split; [reflexivity|].
      destruct (String.eqb_spec signature "") as [->|Hne].
      { rewrite verify_rejects in Hverify by (right; left; exact Hheader).
        discriminate. }
      split; [exact Hne|].
      destruct (is_ascii signature) eqn:Hascii; [reflexivity|].
      rewrite verify_rejects in Hverify by (right; right; eauto).
      discriminate.
    + intros (signature & Hheader & Hne & Hascii).
      unfold verify_webhook_signature, compare_digest. rewrite Hheader.
      destruct (String.eqb_spec signature ""); [contradiction|].
      rewrite Hascii, Hdigest. cbn [andb mbind result_bind try_except].
      destruct (negb _); reflexivity.
  - intros Hrejected now now_iso sessions. unfold webhook.
    rewrite verify_rejects by exact Hrejected. reflexivity.
Qed.

End SignatureDomain.

Lemma verify_webhook_signature_domain_witness :
  @verify_webhook_signature sample_lib "secret"
    (signed_request "anything" "{}" (Ok (PDict []))) = true
  /\ @webhook sample_lib "secret" 20000000 "2025-01-01T00:00:20"
       (signed_request latin_header "{}" (Ok (PDict []))) two_sessions
     = (unauthorized, two_sessions, []).
Proof.
  split.
  - apply (proj1 (@verify_webhook_signature_domain sample_lib "secret"
                    (signed_request "anything" "{}" (Ok (PDict []))))
             eq_refl).
    exists "anything". split; [reflexivity|]. split; [discriminate | reflexivity].
  - apply (proj2 (@verify_webhook_signature_domain sample_lib "secret"
                    (signed_request latin_header "{}" (Ok (PDict []))))).
    right. right. exists latin_header. split; reflexivity.
Defined.

(** ** What correlation does to the store *)

Lemma correlate_outcomes (now : Z) (webhook_type data v : pyval)
    (sessions : store) found sessions' :
  correlate now webhook_type data v sessions = Ok (found, sessions') ->
  (found = None /\ sessions' = sessions)
  \/ (exists i key s,
        found = Some (i, s) /\ sessions !! i = Some (key, s)
        /\ sessions' = sessions
        /\ find_by_call_id v sessions = Some (i, (key, s)))
  \/ (exists i key s,
        found = Some (i, link v s) /\ sessions !! i = Some (key, s)
        /\ sessions' = update_session i (link v) sessions
        /\ in_progress s = true
        /\ py_eq webhook_type (PStr "post_call_transcription") = true
        /\ find_by_call_id v sessions = None).
Proof.
  unfold correlate.
  destruct (find_by_call_id v sessions) as [[i [key s]]|] eqn:Hfind.
  { intros [= <- <-]. right. left. exists i, key, s.
    split; [reflexivity|]. split; [|split; reflexivity].
    apply find_by_call_id_lookup in Hfind. exact Hfind. }
  destruct (py_eq webhook_type _) eqn:Htype.
  2: { intros [= <- <-]. left. split; reflexivity. }
  destruct (py_get data "agent_id" PNone) as [agent|]; simpl; [|discriminate].
  destruct (py_truthy agent).
  2: { intros [= <- <-]. left. split; reflexivity. }
  destruct (most_recent (matching_sessions agent sessions)) as [[i s]|] eqn:Hm.
  { intros [= <- <-]. right. right.
    apply most_recent_lookup, elem_of_matching_sessions in Hm
      as ((key & Hi) & _ & Hprogress).
    exists i, key, s. repeat (split; [reflexivity || assumption|]). reflexivity. }
  destruct (most_recent (recent_sessions now sessions)) as [[i s]|] eqn:Hr.
  { intros [= <- <-]. right. right.
    apply most_recent_lookup, elem_of_recent_sessions in Hr
      as ((key & Hi) & Hprogress & _).
    exists i, key, s. repeat (split; [reflexivity || assumption|]). reflexivity. }
  intros [= <- <-]. left. split; reflexivity.
Qed.

(** X12. Correlation writes to the store in one case only: the callback
    is a post-call transcription for which no session holds the call
    identity.  It then binds exactly one session, which was initializing
    or active, by setting its call identity and making it active; every
    other session stays as it was.  A completed or failed session is
    never bound by a fallback, and a callback of another type never
    changes the store. *)
Theorem fallback_binds_one_session_in_progress (now : Z)
    (webhook_type data v : pyval) (sessions : store) found sessions' :
  correlate now webhook_type data v sessions = Ok (found, sessions') ->
  sessions' <> sessions ->
  webhook_type = PStr "post_call_transcription"
  /\ find_by_call_id v sessions = None
  /\ exists i key s,
       sessions !! i = Some (key, s)
       /\ (status s = INITIALIZING \/ status s = ACTIVE)
       /\ found = Some (i, link v s)
       /\ sessions' !! i = Some (key, link v s)
       /\ conversation_id (link v s) = v
       /\ status (link v s) = ACTIVE
       /\ forall j, j <> i -> sessions' !! j = sessions !! j.
Proof.
  intros Hcorrelate Hchanged.
  apply correlate_outcomes in Hcorrelate
    as [[_ ->] | [(i & key & s & _ & _ & -> & _)
                 | (i & key & s & -> & Hi & -> & Hprogress & Htype & Hfind)]];
    [contradiction..|].
  split; [apply py_eq_str_r; exact Htype|]. split; [exact Hfind|].
  exists i, key, s. split; [exact Hi|].
  split; [apply in_progress_iff; exact Hprogress|].
  split; [reflexivity|].
  split; [apply lookup_update_session; exact Hi|].
  split; [reflexivity|]. split; [reflexivity|].
  intros j Hne. apply lookup_update_session_ne. congruence.
Qed.

Lemma fallback_binds_one_session_in_progress_witness :
  exists i key s,
    two_sessions !! i = Some (key, s)
    /\ (status s = INITIALIZING \/ status s = ACTIVE)
    /\ update_session 0 (link (PStr "conv-1")) two_sessions !! i
       = Some (key, link (PStr "conv-1") s)
    /\ forall j, j <> i ->
         update_session 0 (link (PStr "conv-1")) two_sessions !! j
         = two_sessions !! j.
Proof.
  destruct (fallback_binds_one_session_in_progress 20000000
              (PStr "post_call_transcription")
              (completion_data "conv-1" "agent-x") (PStr "conv-1") two_sessions
              (Some (0%nat, link (PStr "conv-1") session_a))
              (update_session 0 (link (PStr "conv-1")) two_sessions)
              eq_refl)
    as (_ & _ & i & key & s & Hi & Hstatus & _ & Hbound & _ & _ & Hothers).
  - discriminate.
  - exists i, key, s. repeat split; assumption.
Defined.

Lemma py_eq_none_r (v : pyval) : py_eq v PNone = true <-> v = PNone.
Proof.
  split; [|intros ->; reflexivity].
  destruct v as [|b|n|x|s|l|d]; simpl; try discriminate. reflexivity.
Qed.

Section Attribution.
Context `{PyLib} (WEBHOOK_SECRET : string).

(** X13. A post-call transcription is dropped when no session holds its
    call identity and every session that is initializing or active
    belongs to another agent and was created 300 seconds ago or
    earlier (at 300 seconds exactly the session is already too old):
    [webhook] answers 200, changes no session, stores the callback
    nowhere and publishes nothing.  Completed and failed sessions do not
    count, however recent. *)
Theorem stale_sessions_are_no_candidates (now : Z) (now_iso : string)
    (req : request) (payload data : dict) (agent : pyval) (sessions : store) :
  verify_webhook_signature WEBHOOK_SECRET req = true ->
  request_json req = Ok (PDict payload) ->
  assoc "type" payload = Some (PStr "post_call_transcription") ->
  default empty_dict (assoc "data" payload) = PDict data ->
  find_by_call_id (default PNone (assoc "conversation_id" data)) sessions = None ->
  default PNone (assoc "agent_id" data) = agent ->
  (forall j key s,
     sessions !! j = Some (key, s) ->
     status s = INITIALIZING \/ status s = ACTIVE ->
     py_eq (PStr (agent_id s)) agent = false
     /\ 300000000 <= now - created_at s) ->
  webhook WEBHOOK_SECRET now now_iso req sessions = (processed, sessions, []).
Proof.
  intros Hverify Hjson Htype Hdata Hfind Hagent Hstale.
  unfold webhook. rewrite Hverify. cbn [negb].
  rewrite (receive_dict now req payload data sessions Hjson Hdata).
  rewrite Htype. cbn [from_option id].
  unfold correlate. rewrite Hfind. cbn [py_eq String.eqb Ascii.eqb Bool.eqb].
  look_up. rewrite Hagent.
  assert (Hnone : most_recent (matching_sessions agent sessions) = None
                  /\ most_recent (recent_sessions now sessions) = None).
  { split; apply most_recent_nil_inv; intros [j s] Hin.
    - apply elem_of_matching_sessions in Hin as ((key & Hj) & Hsame & Hprogress).
      apply in_progress_iff in Hprogress.
      destruct (Hstale j key s Hj Hprogress) as [Hother _]. congruence.
    - apply elem_of_recent_sessions in Hin as ((key & Hj) & Hprogress & Hrecent).
      apply in_progress_iff in Hprogress.
      destruct (Hstale j key s Hj Hprogress) as [_ Hold]. lia. }
  destruct Hnone as [-> ->].
  destruct (py_truthy agent); reflexivity.
Qed.

(** X14. A callback whose data name no call ([conversation_id] absent or
    [null]) is attributed to the first session that has no call
    identity yet, whatever the type of the callback, its agent and the
    status or the age of that session; correlation does not change the
    store. *)
Theorem callback_without_call_id (now : Z) (req : request)
    (payload data : dict) (sessions : store) i key s :
  request_json req = Ok (PDict payload) ->
  default empty_dict (assoc "data" payload) = PDict data ->
  default PNone (assoc "conversation_id" data) = PNone ->
  sessions !! i = Some (key, s) ->
  conversation_id s = PNone ->
  (forall j kj sj, sessions !! j = Some (kj, sj) -> (j < i)%nat ->
                   conversation_id sj <> PNone) ->
  receive now req sessions
  = Ok (PDict payload, default PNone (assoc "type" payload), PDict data,
        Some (i, s), sessions).
Proof.
  intros Hjson Hdata Hnone Hi Hunbound Hfirst.
  rewrite (receive_dict now req payload data sessions Hjson Hdata).
  rewrite Hnone. unfold correlate.
  assert (Hfind : find_by_call_id PNone sessions = Some (i, (key, s))).
  { unfold find_by_call_id. apply list_find_Some. split; [exact Hi|].
    split; [cbn [snd]; rewrite Hunbound; reflexivity|].
    intros j [kj sj] Hj Hlt Heq. cbn [snd] in Heq.
    apply py_eq_none_r in Heq. exact (Hfirst j kj sj Hj Hlt Heq). }
  rewrite Hfind. reflexivity.
Qed.

End Attribution.

Lemma stale_sessions_are_no_candidates_witness :
  @webhook sample_lib "secret" 400000000 "2025-01-01T00:06:40"
    (signed_request sample_signature "{}"
       (Ok (post_call_payload "conv-1" "agent-x" (PStr "Done."))))
    quiet_sessions
  = (processed, quiet_sessions, []).
Proof.
  apply (@stale_sessions_are_no_candidates sample_lib "secret" 400000000
           "2025-01-01T00:06:40" _
           (post_call_entries "conv-1" "agent-x" (PStr "Done."))
           [("conversation_id", PStr "conv-1"); ("agent_id", PStr "agent-x");
            ("analysis", PDict [("transcript_summary", PStr "Done.")])]
           (PStr "agent-x") quiet_sessions);
    try reflexivity.
  intros j key s Hj Hstatus.
  destruct j as [|[|j]]; simpl in Hj; try discriminate; injection Hj as <- <-.
  - destruct Hstatus; discriminate.
  - split; [reflexivity | vm_compute; discriminate].
Defined.

Lemma callback_without_call_id_witness :
  receive 20000000
    (signed_request sample_signature "{}" (Ok (PDict anonymous_update)))
    quiet_sessions
  = Ok (PDict anonymous_update, PStr "conversation.update",
        PDict [("agent_id", PStr "agent-q")],
        Some (1%nat, session_b), quiet_sessions).
Proof.
  apply (callback_without_call_id 20000000 _ anonymous_update
           [("agent_id", PStr "agent-q")] quiet_sessions 1 "session-b" session_b);
    try reflexivity.
  intros j kj sj Hj Hlt.
  destruct j as [|j]; [|lia]. injection Hj as <- <-. discriminate.
Defined.

(** ** What a callback does to the store *)

Lemma update_session_twice (i : nat) (f g : ConversationSession -> ConversationSession)
    (sessions : store) :
  update_session i g (update_session i f sessions)
  = update_session i (fun s => g (f s)) sessions.
Proof. unfold update_session. rewrite list_alter_alter_eq. reflexivity. Qed.

Lemma keys_update_session (i : nat) (f : ConversationSession -> ConversationSession)
    (sessions : store) :
  map fst (update_session i f sessions) = map fst sessions.
Proof.
  unfold update_session. revert i.
  induction sessions as [|[key s] sessions IH]; intros [|i]; simpl;
    try reflexivity.
  f_equal. apply IH.
Qed.

Section StoreAfterCallback.
Context `{PyLib} (WEBHOOK_SECRET : string).

Lemma process_matched_fields (now : Z) (now_iso : string)
    (webhook_json webhook_type data : pyval) (session : ConversationSession) :
  let session' :=
    fst (process_matched now now_iso webhook_json webhook_type data session) in
  session_id session' = session_id session
  /\ agent_id session' = agent_id session
  /\ created_at session' = created_at session
  /\ metadata session' = metadata session
  /\ conversation_id session' = conversation_id session
  /\ updated_at session' = now
  /\ webhook_data session'
     = (webhook_data session
        ++ [PDict [("type", webhook_type);
                   ("timestamp", PStr (isoformat now));
                   ("data", data)]])%list.
Proof.
  unfold process_matched. cbn [fst].
  repeat match goal with |- context [if ?b then _ else _] => destruct b end;
    repeat split.
Qed.

Lemma receive_correlate (now : Z) (req : request) (sessions : store)
    webhook_json webhook_type data found sessions' :
  receive now req sessions
  = Ok (webhook_json, webhook_type, data, found, sessions') ->
  exists payload v,
    request_json req = Ok (PDict payload)
    /\ webhook_json = PDict payload
    /\ webhook_type = default PNone (assoc "type" payload)
    /\ py_get (PDict payload) "data" empty_dict = Ok data
    /\ py_get data "conversation_id" PNone = Ok v
    /\ correlate now webhook_type data v sessions = Ok (found, sessions').
Proof.
  unfold receive. intros Hreceive.
  apply bind_Ok in Hreceive as (json & Hjson & Hreceive).
  apply bind_Ok in Hreceive as (type & Htype & Hreceive).
  apply bind_Ok in Hreceive as (data' & Hdata & Hreceive).
  apply bind_Ok in Hreceive as (v & Hv & Hreceive).
  apply bind_Ok in Hreceive as ([found' sessions''] & Hcorrelate & Hreceive).
  injection Hreceive as <- <- <- <- <-.
  destruct json as [| | | | | |payload]; try discriminate.
  injection Htype as <-. exists payload, v. repeat split; assumption.
Qed.

Lemma webhook_store (now : Z) (now_iso : string) (req : request)
    (sessions : store) :
  (snd (fst (webhook WEBHOOK_SECRET now now_iso req sessions)) = sessions
   /\ snd (webhook WEBHOOK_SECRET now now_iso req sessions) = [])
  \/ exists i key s bound (payload : dict) webhook_type (data : dict),
       sessions !! i = Some (key, s)
       /\ request_json req = Ok (PDict payload)
       /\ webhook_type = default PNone (assoc "type" payload)
       /\ (bound = s
           \/ exists v,
                bound = link v s
                /\ in_progress s = true
                /\ py_eq webhook_type (PStr "post_call_transcription") = true)
       /\ snd (fst (webhook WEBHOOK_SECRET now now_iso req sessions))
          = update_session i
              (fun _ => fst (process_matched now now_iso (PDict payload)
                               webhook_type (PDict data) bound))
              sessions
       /\ snd (webhook WEBHOOK_SECRET now now_iso req sessions)
          = match snd (process_matched now now_iso (PDict payload)
                         webhook_type (PDict data) bound) with
            | Ok ev => [ev]
            | Raise _ => []
            end.
Proof.
  unfold webhook. destruct (negb _); [left; split; reflexivity|].
  destruct (receive now req sessions)
    as [[[[[webhook_json webhook_type] data] found] sessions']|] eqn:Hreceive;
    [|left; split; reflexivity].
  apply receive_correlate in Hreceive
    as (payload & v & Hjson & -> & Htype & Hdata & Hv & Hc).
  assert (Hdict : exists d, data = PDict d).
  { destruct data; try discriminate. eauto. }
  destruct Hdict as [d ->].
  apply correlate_outcomes in Hc
    as [[-> ->] | [(i & key & s & -> & Hi & -> & _)
                  | (i & key & s & -> & Hi & -> & Hprogress & Hpost & _)]].
  - left. split; reflexivity.
  - right. exists i, key, s, s, payload, webhook_type, d.
    split; [exact Hi|]. split; [exact Hjson|]. split; [exact Htype|].
    split; [left; reflexivity|].
    destruct (process_matched _ _ _ _ _ _) as [session' [ev|e]];
      split; reflexivity.
  - right. exists i, key, s, (link v s), payload, webhook_type, d.
    split; [exact Hi|]. split; [exact Hjson|]. split; [exact Htype|].
    split; [right; eauto|].
    destruct (process_matched _ _ _ _ _ _) as [session' [ev|e]];
      cbn [fst snd]; (split; [apply update_session_twice | reflexivity]).
Qed.

(** X15. Whatever the request, [webhook] removes no session, adds none
    and keeps the order of the store; it changes at most one session,
    and of that session it keeps the identifier, the agent, the creation
    time and the metadata, and only ever appends to its raw events: one
    event per callback, stamped with the time of the request. *)
Theorem webhook_keeps_sessions (now : Z) (now_iso : string) (req : request)
    (sessions : store) :
  let sessions' := snd (fst (webhook WEBHOOK_SECRET now now_iso req sessions)) in
  map fst sessions' = map fst sessions
  /\ (exists i, forall j, j <> i -> sessions' !! j = sessions !! j)
  /\ forall i key s',
       sessions' !! i = Some (key, s') ->
       exists s,
         sessions !! i = Some (key, s)
         /\ session_id s' = session_id s
         /\ agent_id s' = agent_id s
         /\ created_at s' = created_at s
         /\ metadata s' = metadata s
         /\ (s' = s
             \/ exists ev,
                  webhook_data s' = (webhook_data s ++ [ev])%list
                  /\ updated_at s' = now).
Proof.
  cbn zeta.
  destruct (webhook_store now now_iso req sessions)
    as [[-> _] | (p & key & s & bound & payload & webhook_type & data
                  & Hp & _ & _ & Hbound & -> & _)].
  - split; [reflexivity|]. split; [exists 0%nat; reflexivity|].
    intros i key s' Hi. exists s'. repeat split; auto.
  - split; [apply keys_update_session|].
    split; [exists p; intros j Hne; apply lookup_update_session_ne; congruence|].
    intros i key' s' Hi.
    apply lookup_update_session_inv in Hi
      as [[_ Hi] | (-> & s0 & Hp' & ->)].
    + exists s'. repeat split; auto.
    + rewrite Hp in Hp'. injection Hp' as <- <-. exists s.
      split; [exact Hp|].
      destruct (process_matched_fields now now_iso (PDict payload) webhook_type
                  (PDict data) bound)
        as (Hid & Hagent & Hcreated & Hmeta & _ & Hupdated & Hevents).
      rewrite Hid, Hagent, Hcreated, Hmeta.
      assert (Hsame : session_id bound = session_id s
                      /\ agent_id bound = agent_id s
                      /\ created_at bound = created_at s
                      /\ metadata bound = metadata s
                      /\ webhook_data bound = webhook_data s).
      { destruct Hbound as [-> | (v & -> & _)]; repeat split. }
      destruct Hsame as (-> & -> & -> & -> & Hraw).
      repeat (split; [reflexivity|]).
      right. eexists. rewrite Hevents, Hraw. split; [reflexivity | exact Hupdated].
Qed.

End StoreAfterCallback.

Lemma webhook_keeps_sessions_witness :
  exists s',
    snd (fst (@webhook sample_lib "secret" 20000000 "2025-01-01T00:00:20"
                post_call_request two_sessions)) !! 0%nat
    = Some ("session-a", s')
    /\ agent_id s' = "agent-x"
    /\ created_at s' = 0
    /\ exists ev, webhook_data s' = [ev] /\ updated_at s' = 20000000.
Proof.
  destruct (@webhook_keeps_sessions sample_lib "secret" 20000000
              "2025-01-01T00:00:20" post_call_request two_sessions)
    as (_ & _ & Hkept).
  destruct (Hkept 0%nat "session-a" _ eq_refl)
    as (s & Hs & _ & Hagent & Hcreated & _ & Hevents).
  injection Hs as <-. eexists. split; [reflexivity|].
  split; [exact Hagent|]. split; [exact Hcreated|].
  destruct Hevents as [Hsame | Hev]; [discriminate | exact Hev].
Defined.

(** ** The processed record *)

Section ProcessedRecord.
Context `{PyLib}.

Lemma assoc_classified (r : dict) (k : string) :
  k <> "classified_transcript" ->
  assoc k match assoc "transcript" r with
          | Some transcript =>
              try_except
                (classified ← classify_conversation_stages transcript;
                 Ok (assoc_set "classified_transcript" classified r))
                (fun _ => r)
          | None => r
          end
  = assoc k r.
Proof.
  intros Hne. destruct (assoc "transcript" r) as [transcript|]; [|reflexivity].
  destruct (classify_conversation_stages transcript); simpl; [|reflexivity].
  apply assoc_set_ne. exact Hne.
Qed.

(** X16. A post-call transcription replaces the processed record of the
    session wholesale: nothing of the record the session held before
    survives, a classified transcript included.  In the new record,
    every entry the normaliser produced is kept as it is; the
    classification and a failure of the steps after it can only add the
    entries [classified_transcript] and [processing_error]. *)
Theorem post_call_processing_replaces_record (now_iso : string)
    (payload previous : dict) :
  exists r,
    process_post_call_webhook now_iso (PDict payload) = Ok r
    /\ post_call_processing now_iso (PDict payload) previous
       = post_call_processing now_iso (PDict payload) []
    /\ forall k,
         k <> "classified_transcript" -> k <> "processing_error" ->
         assoc k (post_call_processing now_iso (PDict payload) previous)
         = assoc k r.
Proof.
  destruct (process_post_call_webhook_ok now_iso payload) as [r Hr].
  exists r. split; [exact Hr|].
  unfold post_call_processing. rewrite Hr. split; [reflexivity|].
  intros k Hclassified Herror.
  match goal with
  | |- assoc k (try_except ?m ?h) = _ => destruct m as [d|e] eqn:Hm
  end; cbn [try_except].
  - apply bind_Ok in Hm as (? & _ & Hm).
    apply bind_Ok in Hm as (? & _ & Hm).
    injection Hm as <-. apply assoc_classified. exact Hclassified.
  - rewrite assoc_set_ne by exact Herror.
    apply assoc_classified. exact Hclassified.
Qed.

End ProcessedRecord.

Lemma post_call_processing_replaces_record_witness :
  assoc "conversation_id"
    (@post_call_processing sample_lib "2025-01-01T00:00:20"
       (post_call_payload "conv-1" "agent-x" (PStr "Patient confirmed."))
       [("classified_transcript", PDict [])])
  = Some (PStr "conv-1")
  /\ assoc "classified_transcript"
       (@post_call_processing sample_lib "2025-01-01T00:00:20"
          (post_call_payload "conv-1" "agent-x" (PStr "Patient confirmed."))
          [("classified_transcript", PDict [])])
     = None.
Proof.
  destruct (@post_call_processing_replaces_record sample_lib
              "2025-01-01T00:00:20"
              (post_call_entries "conv-1" "agent-x" (PStr "Patient confirmed."))
              [("classified_transcript", PDict [])])
    as (r & Hr & Hreplaced & Hkept).
  split.
  - unfold post_call_payload. rewrite Hkept by discriminate.
    injection Hr as <-. reflexivity.
  - unfold post_call_payload. rewrite Hreplaced. reflexivity.
Defined.

(** * Sessions: creation and the read endpoints *)

Lemma key_index_absent (key : string) (sessions : store) :
  assoc key sessions = None -> key_index key sessions = None.
Proof.
  induction sessions as [|[key' s] sessions IH]; simpl; [reflexivity|].
  destruct (String.eqb key key'); [discriminate|].
  intros Habsent. rewrite (IH Habsent). reflexivity.
Qed.

Section Sessions.
Context `{PyLib} (SERVER_PORT : Z).

(** X17. [create_session] answers 400 and stores nothing when the
    [agent_key] of the request is absent, is not a string or names no
    configured agent.  For a configured agent it stores, under the new
    identifier, a session that is initializing, has no call identity, no
    raw event and no processed data; every other session stays as it
    was.  Read back at once, [get_session] reports that session with
    status "initializing" and a webhook count of 0, [get_call_summary]
    answers 404 and [get_transcript] an empty transcript. *)
Theorem create_session_registers (now : Z) (fresh_id : string)
    (remote_addr : pyval) (req : request) (data : dict) (sessions : store) :
  request_json req = Ok (PDict data) ->
  (forall key,
     default PNone (assoc "agent_key" data) = PStr key ->
     assoc key agent_configs = None ->
     create_session SERVER_PORT now fresh_id remote_addr req sessions
     = Ok ({| status_code := 400;
              response_body := [("error", PStr "Invalid agent key")] |},
           sessions))
  /\ (is_dict (default PNone (assoc "agent_key" data)) = false ->
      (forall l, default PNone (assoc "agent_key" data) <> PList l) ->
      (forall key, default PNone (assoc "agent_key" data) <> PStr key) ->
      create_session SERVER_PORT now fresh_id remote_addr req sessions
      = Ok ({| status_code := 400;
               response_body := [("error", PStr "Invalid agent key")] |},
            sessions))
  /\ (forall key agent name role,
        default PNone (assoc "agent_key" data) = PStr key ->
        assoc key agent_configs = Some (agent, name, role) ->
        exists resp sessions',
          create_session SERVER_PORT now fresh_id remote_addr req sessions
          = Ok (resp, sessions')
          /\ status_code resp = 200
          /\ assoc "session_id" (response_body resp) = Some (PStr fresh_id)
          /\ (forall key', key' <> fresh_id ->
                assoc key' sessions' = assoc key' sessions)
          /\ get_session fresh_id sessions'
             = {| status_code := 200;
                  response_body :=
                    [("session_id", PStr fresh_id);
                     ("status", PStr "initializing");
                     ("agent_id", PStr agent);
                     ("conversation_id", PNone);
                     ("created_at", PStr (isoformat now));
                     ("updated_at", PStr (isoformat now));
                     ("metadata", PDict [("agent_name", PStr name);
                                         ("agent_role", PStr role);
                                         ("client_ip", remote_addr)]);
                     ("webhook_count", PInt 0);
                     ("processed_data", PDict [])] |}
          /\ get_call_summary fresh_id sessions' = Ok no_processed_data
          /\ get_transcript fresh_id sessions'
             = Ok (transcript_response fresh_id (PList []) (PInt 0))).
Proof.
  intros Hjson. unfold create_session. rewrite Hjson.
  cbn [mbind result_bind py_get]. split; [|split].
  - intros key -> Hunknown. cbn [mbind result_bind]. rewrite Hunknown.
    reflexivity.
  - intros Hdict Hlist Hstr.
    destruct (default PNone (assoc "agent_key" data)) as [| | | |key|l|d];
      try reflexivity.
    + destruct (Hstr key eq_refl).
    + destruct (Hlist l eq_refl).
    + discriminate.
  - intros key agent name role -> Hknown. cbn [mbind result_bind].
    rewrite Hknown. eexists _, _. split; [reflexivity|].
    split; [reflexivity|]. split; [reflexivity|].
    split; [intros key' Hne; apply assoc_set_ne; exact Hne|].
    unfold get_session, get_call_summary, get_transcript.
    rewrite !assoc_set_eq. repeat split.
Qed.

(** X18. An identifier under which no session is stored: the four read
    endpoints answer 404 "Session not found"; [join_session] answers
    with an [error] event and [conversation_started] with nothing, and
    neither writes to the store. *)
Theorem unknown_session_ids (key : string) (sessions : store) :
  assoc key sessions = None ->
  get_session key sessions = session_not_found
  /\ get_transcript key sessions = Ok session_not_found
  /\ get_staged_transcript key sessions = Ok session_not_found
  /\ get_call_summary key sessions = Ok session_not_found
  /\ forall data,
       assoc "session_id" data = Some (PStr key) ->
       handle_join_session (PDict data) sessions
       = Ok (sessions,
             [{| event := "error";
                 event_data := [("message", PStr "Invalid session")];
                 room := None |}])
       /\ forall now,
            handle_conversation_started now (PDict data) sessions
            = Ok (sessions, []).
Proof.
  intros Habsent.
  unfold get_session, get_transcript, get_staged_transcript, get_call_summary.
  rewrite Habsent. repeat (split; [reflexivity|]).
  intros data Hdata. apply key_index_absent in Habsent.
  unfold handle_join_session, handle_conversation_started.
  look_up. rewrite Hdata. cbn [from_option id sessions_get mbind result_bind].
  rewrite Habsent. split; reflexivity.
Qed.

End Sessions.

Lemma create_session_registers_witness :
  (exists resp sessions',
     create_session 5000 30000000 "session-c" (PStr "127.0.0.1")
       (create_request (PStr "clara")) two_sessions
     = Ok (resp, sessions')
     /\ status_code resp = 200
     /\ get_call_summary "session-c" sessions' = Ok no_processed_data)
  /\ create_session 5000 30000000 "session-c" (PStr "127.0.0.1")
       (create_request (PStr "nobody")) two_sessions
     = Ok ({| status_code := 400;
              response_body := [("error", PStr "Invalid agent key")] |},
           two_sessions).
Proof.
  destruct (@create_session_registers sample_lib 5000 30000000 "session-c"
              (PStr "127.0.0.1") (create_request (PStr "clara"))
              [("agent_key", PStr "clara")] two_sessions eq_refl)
    as (_ & _ & Hknown).
  destruct (@create_session_registers sample_lib 5000 30000000 "session-c"
              (PStr "127.0.0.1") (create_request (PStr "nobody"))
              [("agent_key", PStr "nobody")] two_sessions eq_refl)
    as (Hunknown & _ & _).
  split.
  - destruct (Hknown "clara" _ _ _ eq_refl eq_refl)
      as (resp & sessions' & Hcreate & Hcode & _ & _ & _ & Hsummary & _).
    exists resp, sessions'. repeat split; assumption.
  - apply (Hunknown "nobody"); reflexivity.
Defined.

Lemma unknown_session_ids_witness :
  @get_session sample_lib "session-z" two_sessions = session_not_found
  /\ handle_join_session (PDict [("session_id", PStr "session-z")]) two_sessions
     = Ok (two_sessions,
           [{| event := "error";
               event_data := [("message", PStr "Invalid session")];
               room := None |}]).
Proof.
  destruct (@unknown_session_ids sample_lib "session-z" two_sessions eq_refl)
    as (Hget & _ & _ & _ & Hhandlers).
  split; [exact Hget|].
  apply (Hhandlers [("session_id", PStr "session-z")] eq_refl).
Defined.

Lemma raw_transcript_loop_updates (events : list (pyval * string * dict))
    (transcript : list pyval) :
  Forall update_with_list events ->
  raw_transcript_loop (map raw_event events) transcript
  = Ok (transcript ++ concat (map update_messages events))%list.
Proof.
  revert transcript.
  induction events as [|[[type timestamp] data] events IH];
    intros transcript Hlists.
  - simpl. rewrite app_nil_r. reflexivity.
  - inversion Hlists as [|? ? Hlist Hlists']; subst.
    cbn [map raw_event raw_transcript_loop update_messages concat].
    cbn [py_get assoc String.eqb Ascii.eqb Bool.eqb from_option id
         mbind result_bind].
    destruct (py_eq type (PStr "conversation.update")) eqn:Htype.
    + cbn [py_get assoc String.eqb Ascii.eqb Bool.eqb from_option id
           mbind result_bind py_contains py_getitem].
      destruct (Hlist Htype) as [Habsent | [messages Hmessages]].
      * rewrite Habsent. cbn [mbind result_bind].
        rewrite bool_decide_eq_false_2 by (intros [? [=]]).
        rewrite (IH _ Hlists'). reflexivity.
      * rewrite Hmessages. cbn [mbind result_bind py_iter].
        rewrite bool_decide_eq_true_2 by eauto.
        rewrite (IH _ Hlists'), app_assoc. reflexivity.
    + rewrite (IH _ Hlists'). reflexivity.
Qed.

(** X19. Until a post-call transcription has been processed for it, the
    transcript [get_transcript] returns for a session is put together
    from its raw events: the messages of the [conversation.update]
    events, in the order in which the events arrived; events of any
    other type add nothing, even when they carry a transcript, and
    [message_count] is the number of messages returned. *)
Theorem get_transcript_from_updates (key : string) (sessions : store)
    (session : ConversationSession) (events : list (pyval * string * dict)) :
  assoc key sessions = Some session ->
  assoc "transcript" (processed_data session) = None ->
  webhook_data session = map raw_event events ->
  Forall update_with_list events ->
  get_transcript key sessions
  = Ok (transcript_response key
          (PList (concat (map update_messages events)))
          (PInt (Z.of_nat (length (concat (map update_messages events)))))).
Proof.
  intros Hsession Hprocessed Hevents Hlists. unfold get_transcript.
  rewrite Hsession, Hprocessed, Hevents.
  rewrite bool_decide_eq_false_2 by (intros [? [=]]).
  rewrite andb_false_r, (raw_transcript_loop_updates _ _ Hlists).
  reflexivity.
Qed.

Lemma get_transcript_from_updates_witness :
  get_transcript "session-e" [("session-e", session_with_events)]
  = Ok (transcript_response "session-e"
          (PList [PStr "Hello"; PStr "Hi"; PStr "Bye"]) (PInt 3)).
Proof.
  apply (get_transcript_from_updates "session-e"
           [("session-e", session_with_events)] session_with_events
           three_events eq_refl eq_refl eq_refl).
  constructor; [intros _; right; eexists; reflexivity|].
  constructor; [intros Htype; discriminate|].
  constructor; [intros _; right; eexists; reflexivity|].
  constructor.
Defined.

Section StagedTranscript.
Context `{PyLib}.

Lemma normalised_record_keys (now_iso : string) (payload : pyval) (r : dict) :
  process_post_call_webhook now_iso payload = Ok r ->
  assoc "classified_transcript" r = None /\ r <> [].
Proof.
  unfold process_post_call_webhook. intros Hr.
  apply bind_Ok in Hr as (webhook_type & _ & Hr).
  destruct (negb _); [injection Hr as <-; split; [reflexivity | discriminate]|].
  injection Hr as <-.
  match goal with
  | |- context [try_except ?m ?h] => destruct m as [d|e] eqn:Hm
  end; cbn [try_except]; [|split; [reflexivity | discriminate]].
  do 5 (apply bind_Ok in Hm as (? & _ & Hm)).
  injection Hm as <-. split; [reflexivity | discriminate].
Qed.

Lemma truthy_assoc_set (k : string) (v : pyval) (d : dict) :
  py_truthy (PDict (assoc_set k v d)) = true.
Proof. destruct d as [|[k' v'] d]; simpl; [|destruct (String.eqb k k')]; reflexivity. Qed.

Lemma truthy_not_nil (d : dict) : d <> [] -> py_truthy (PDict d) = true.
Proof. destruct d; [contradiction | reflexivity]. Qed.

(** X20. After a post-call transcription has been processed for a
    session, normalisation having succeeded, [get_staged_transcript]
    follows the outcome of the classification: when the classifier
    raised, the staged transcript is empty with a count of 0; when it
    returned a dictionary, the transcript and the count are the
    dictionary's (an empty list and 0 where it has none); when it
    returned anything else the endpoint raises. *)
Theorem staged_transcript_follows_classification (now_iso : string)
    (payload previous r : dict) (transcript : pyval) (key : string)
    (sessions : store) (session : ConversationSession) :
  assoc key sessions = Some session ->
  processed_data session = post_call_processing now_iso (PDict payload) previous ->
  process_post_call_webhook now_iso (PDict payload) = Ok r ->
  assoc "transcript" r = Some transcript ->
  (forall e,
     classify_conversation_stages transcript = Raise e ->
     get_staged_transcript key sessions
     = Ok (transcript_response key (PList []) (PInt 0)))
  /\ (forall classified,
        classify_conversation_stages transcript = Ok (PDict classified) ->
        get_staged_transcript key sessions
        = Ok (transcript_response key
                (default (PList []) (assoc "transcript" classified))
                (default (PInt 0) (assoc "message_count" classified))))
  /\ (forall classified,
        classify_conversation_stages transcript = Ok classified ->
        is_dict classified = false ->
        get_staged_transcript key sessions = Raise AttributeError).
Proof.
  intros Hsession Hrecord Hr Htranscript.
  destruct (normalised_record_keys _ _ _ Hr) as [Hfresh Hfilled].
  unfold get_staged_transcript. rewrite Hsession, Hrecord.
  unfold post_call_processing. rewrite Hr, Htranscript.
  split; [|split].
  - intros e ->. cbn [mbind result_bind try_except].
    match goal with
    | |- context [try_except ?m ?h] => destruct m as [d|e'] eqn:Hm
    end; cbn [try_except].
    + do 2 (apply bind_Ok in Hm as (? & _ & Hm)). injection Hm as <-.
      rewrite Hfresh, bool_decide_eq_false_2 by (intros [? [=]]).
      rewrite andb_false_r. reflexivity.
    + rewrite assoc_set_ne, Hfresh by discriminate.
      rewrite bool_decide_eq_false_2 by (intros [? [=]]).
      rewrite andb_false_r. reflexivity.
  - intros classified ->. cbn [mbind result_bind try_except].
    match goal with
    | |- context [try_except ?m ?h] => destruct m as [d|e'] eqn:Hm
    end; cbn [try_except].
    + do 2 (apply bind_Ok in Hm as (? & _ & Hm)). injection Hm as <-.
      rewrite truthy_assoc_set, assoc_set_eq.
      rewrite bool_decide_eq_true_2 by eauto.
      cbn [andb py_getitem]. rewrite assoc_set_eq. reflexivity.
    + rewrite truthy_assoc_set.
      rewrite assoc_set_ne, assoc_set_eq by discriminate.
      rewrite bool_decide_eq_true_2 by eauto.
      cbn [andb py_getitem].
      rewrite assoc_set_ne, assoc_set_eq by discriminate. reflexivity.
  - intros classified -> Hother. cbn [mbind result_bind try_except].
    match goal with
    | |- context [try_except ?m ?h] => destruct m as [d|e'] eqn:Hm
    end; cbn [try_except].
    + do 2 (apply bind_Ok in Hm as (? & _ & Hm)). injection Hm as <-.
      rewrite truthy_assoc_set, assoc_set_eq.
      rewrite bool_decide_eq_true_2 by eauto.
      cbn [andb py_getitem]. rewrite assoc_set_eq.
      destruct classified; try reflexivity. discriminate.
    + rewrite truthy_assoc_set.
      rewrite assoc_set_ne, assoc_set_eq by discriminate.
      rewrite bool_decide_eq_true_2 by eauto.
      cbn [andb py_getitem].
      rewrite assoc_set_ne, assoc_set_eq by discriminate.
      destruct classified; try reflexivity. discriminate.
Qed.

End StagedTranscript.

Lemma staged_transcript_follows_classification_witness :
  get_staged_transcript "session-a" [("session-a", processed_session sample_lib)]
  = Ok (transcript_response "session-a" (PList []) (PInt 0))
  /\ get_staged_transcript "session-a"
       [("session-a", processed_session staging_lib)]
     = Ok (transcript_response "session-a" (PList [PStr "greeting"]) (PInt 1)).
Proof.
  split.
  - eapply (proj1 (@staged_transcript_follows_classification sample_lib
                     "2025-01-01T00:00:20"
                     (post_call_entries "conv-1" "agent-x"
                        (PStr "Patient confirmed."))
                     [] _ _ "session-a"
                     [("session-a", processed_session sample_lib)]
                     (processed_session sample_lib)
                     eq_refl eq_refl eq_refl eq_refl)).
    reflexivity.
  - eapply (proj1 (proj2 (@staged_transcript_follows_classification staging_lib
                            "2025-01-01T00:00:20"
                            (post_call_entries "conv-1" "agent-x"
                               (PStr "Patient confirmed."))
                            [] _ _ "session-a"
                            [("session-a", processed_session staging_lib)]
                            (processed_session staging_lib)
                            eq_refl eq_refl eq_refl eq_refl))
                  [("transcript", PList [PStr "greeting"]);
                   ("message_count", PInt 1)]).
    reflexivity.
Defined.

(** * The states of the server *)

Lemma keys_assoc_set {V} (k : string) (v : V) (d : list (string * V)) :
  NoDup (map fst d) -> NoDup (map fst (assoc_set k v d)).
Proof.
  induction d as [|[k' v'] d IH]; simpl.
  - intros _. apply NoDup_singleton.
  - intros Hkeys. apply NoDup_cons in Hkeys as [Hfresh Hkeys].
    destruct (String.eqb_spec k k') as [->|Hne]; simpl.
    + apply NoDup_cons. split; assumption.
    + apply NoDup_cons. split; [|apply IH; exact Hkeys].
      intros Hin. apply Hfresh. clear IH Hkeys Hfresh.
      induction d as [|[k0 v0] d IH]; simpl in *.
      * apply list_elem_of_singleton in Hin. congruence.
      * destruct (String.eqb_spec k k0) as [->|]; simpl in Hin; [exact Hin|].
        apply elem_of_cons in Hin as [-> | Hin]; [left|right; apply IH; exact Hin].
Qed.

Lemma record_ready_nil : record_ready [].
Proof.
  split.
  - split; [exists []; reflexivity | exists [], []; split; reflexivity].
  - exists [], []. split; [reflexivity|]. split; [reflexivity|].
    intros key item [=].
Qed.

Lemma record_ready_set (k : string) (v : pyval) (d : dict) :
  k <> "transcript" -> k <> "statistics" -> k <> "analysis" ->
  record_ready d -> record_ready (assoc_set k v d).
Proof.
  intros Htranscript Hstatistics Hanalysis [Hsections Hrecord].
  split; [apply sections_ready_set; assumption|].
  rewrite assoc_set_ne by congruence. exact Hrecord.
Qed.

Section ServerStates.
Context `{PyLib} (WEBHOOK_SECRET : string) (SERVER_PORT : Z).

Lemma record_ready_normalised (now_iso : string) (payload r : dict) :
  process_post_call_webhook now_iso (PDict payload) = Ok r -> record_ready r.
Proof.
  intros Hr. split; [exact (process_post_call_webhook_sections _ _ _ Hr)|].
  unfold process_post_call_webhook in Hr.
  apply bind_Ok in Hr as (webhook_type & _ & Hr).
  assert (Herror : forall message,
             exists analysis collected,
               default empty_dict
                 (assoc "analysis" (error_result message (PDict payload)))
               = PDict analysis
               /\ default empty_dict (assoc "collected_data" analysis)
                  = PDict collected
               /\ items_with_value collected).
  { intros message. exists [], []. split; [reflexivity|].
    split; [reflexivity|]. intros key item [=]. }
  destruct (negb _); [injection Hr as <-; apply Herror|].
  injection Hr as <-.
  match goal with
  | |- context [try_except ?m ?h] => destruct m as [d|e] eqn:Hm
  end; cbn [try_except]; [|apply Herror].
  apply bind_Ok in Hm as (transcript & _ & Hm).
  apply bind_Ok in Hm as (statistics & _ & Hm).
  apply bind_Ok in Hm as (analysis & Hanalysis & Hm).
  do 2 (apply bind_Ok in Hm as (? & _ & Hm)).
  injection Hm as <-.
  apply extract_analysis_data_items in Hanalysis
    as (fields & collected & -> & Hcollected & Hvalues).
  exists fields, collected. split; [reflexivity|].
  rewrite Hcollected. split; [reflexivity | exact Hvalues].
Qed.

Lemma record_ready_processing (now_iso : string) (payload previous : dict) :
  record_ready (post_call_processing now_iso (PDict payload) previous).
Proof.
  apply post_call_processing_keeps.
  - intros k v d [-> | ->]; apply record_ready_set; discriminate.
  - apply record_ready_normalised.
Qed.

Lemma process_matched_state (now : Z) (now_iso : string) (payload : dict)
    (webhook_type data : pyval) (session : ConversationSession) :
  let session' :=
    fst (process_matched now now_iso (PDict payload) webhook_type data session) in
  (record_ready (processed_data session) ->
   record_ready (processed_data session'))
  /\ (status session' = INITIALIZING ->
      status session = INITIALIZING
      /\ processed_data session' = processed_data session).
Proof.
  unfold process_matched. cbn [fst]. split.
  - intros Hready.
    destruct (is_type webhook_type "post_call_transcription");
      repeat match goal with |- context [if ?b then _ else _] => destruct b end;
      cbn [processed_data set_status set_processed_data set_updated_at
           append_webhook_data];
      solve [exact Hready | apply record_ready_processing].
  - destruct (is_type webhook_type "post_call_transcription");
      rewrite ?orb_true_r;
      repeat match goal with |- context [if ?b then _ else _] => destruct b end;
      cbn [status processed_data set_status set_processed_data set_updated_at
           append_webhook_data];
      intros Hstatus; try discriminate; split; [exact Hstatus | reflexivity].
Qed.

Lemma well_formed_update (sessions : store) (p : nat)
    (f : ConversationSession -> ConversationSession) :
  (forall i key s, sessions !! i = Some (key, s) -> well_formed_session key s) ->
  (forall key s, sessions !! p = Some (key, s) -> well_formed_session key s ->
                 well_formed_session key (f s)) ->
  forall i key s,
    update_session p f sessions !! i = Some (key, s) -> well_formed_session key s.
Proof.
  intros Hall Hf i key s Hi.
  apply lookup_update_session_inv in Hi as [[_ Hi] | (-> & s0 & Hp & ->)].
  - exact (Hall _ _ _ Hi).
  - apply (Hf _ _ Hp). exact (Hall _ _ _ Hp).
Qed.

Lemma step_well_formed (sessions sessions' : store) :
  step WEBHOOK_SECRET SERVER_PORT sessions sessions' ->
  NoDup (map fst sessions) ->
  (forall i key s, sessions !! i = Some (key, s) -> well_formed_session key s) ->
  NoDup (map fst sessions')
  /\ forall i key s, sessions' !! i = Some (key, s) -> well_formed_session key s.
Proof.
  intros Hstep Hkeys Hall.
  destruct Hstep
    as [now fresh_id remote_addr req sessions resp sessions' Hcreate
       |now now_iso req sessions
       |data sessions sessions' out Hjoin
       |now data sessions sessions' out Hstarted].
  - unfold create_session in Hcreate.
    apply bind_Ok in Hcreate as (data & _ & Hcreate).
    apply bind_Ok in Hcreate as (agent_key & _ & Hcreate).
    apply bind_Ok in Hcreate as (known & Hknown & Hcreate).
    destruct known as [[[agent name] role]|];
      injection Hcreate as <- <-; [|split; assumption].
    split; [apply keys_assoc_set; exact Hkeys|].
    intros i key s Hi.
    apply lookup_assoc_set_inv in Hi as [[= -> ->] | Hi]; [|exact (Hall _ _ _ Hi)].
    split; [reflexivity|].
    split.
    { destruct agent_key as [| | | |k| |]; try discriminate.
      injection Hknown as Hknown. exists k, name, role. exact Hknown. }
    split; [intros _; split; reflexivity|].
    split; [constructor | exact record_ready_nil].
  - destruct (webhook_store WEBHOOK_SECRET now now_iso req sessions)
      as [[-> _] | (p & key & s & bound & payload & webhook_type & data
                    & Hp & _ & _ & Hbound & -> & _)];
      [split; assumption|].
    split; [rewrite keys_update_session; exact Hkeys|].
    apply well_formed_update; [exact Hall|].
    intros key' s' Hp' (Hid & Hagent & Hinit & Hevents & Hready).
    rewrite Hp in Hp'. injection Hp' as <- <-.
    destruct (process_matched_fields now now_iso (PDict payload) webhook_type
                (PDict data) bound)
      as (Hid' & Hagent' & _ & _ & Hcall & _ & Hraw).
    destruct (process_matched_state now now_iso payload webhook_type
                (PDict data) bound) as [Hready' Hstatus'].
    assert (Hbound' : session_id bound = session_id s
                      /\ agent_id bound = agent_id s
                      /\ webhook_data bound = webhook_data s
                      /\ processed_data bound = processed_data s
                      /\ (status bound = INITIALIZING ->
                          status s = INITIALIZING /\ bound = s)).
    { destruct Hbound as [-> | (v & -> & _)]; repeat split; auto; discriminate. }
    destruct Hbound' as (Hbid & Hbagent & Hbraw & Hbrecord & Hbstatus).
    split; [congruence|].
    split; [rewrite Hagent', Hbagent; exact Hagent|].
    split.
    { intros Hstatus. apply Hstatus' in Hstatus as [Hstatus ->].
      rewrite Hcall. destruct (Hbstatus Hstatus) as [Hs ->].
      exact (Hinit Hs). }
    split.
    { rewrite Hraw, Hbraw. apply Forall_app. split; [exact Hevents|].
      constructor; [|constructor].
      exists (webhook_type, isoformat now, data). reflexivity. }
    apply Hready'. rewrite Hbrecord. exact Hready.
  - unfold handle_join_session in Hjoin.
    apply bind_Ok in Hjoin as (key & _ & Hjoin).
    apply bind_Ok in Hjoin as (found & _ & Hjoin).
    destruct found as [p|]; injection Hjoin as <- <-; [|split; assumption].
    split; [rewrite keys_update_session; exact Hkeys|].
    apply well_formed_update; [exact Hall|].
    intros key' s' _ (Hid & Hagent & Hinit & Hevents & Hready).
    split; [exact Hid|]. split; [exact Hagent|].
    split; [intros Hstatus; discriminate Hstatus|].
    split; [exact Hevents | exact Hready].
  - unfold handle_conversation_started in Hstarted.
    apply bind_Ok in Hstarted as (key & _ & Hstarted).
    apply bind_Ok in Hstarted as (call & _ & Hstarted).
    apply bind_Ok in Hstarted as (found & _ & Hstarted).
    destruct found as [p|]; injection Hstarted as <- <-; [|split; assumption].
    split; [rewrite keys_update_session; exact Hkeys|].
    apply well_formed_update; [exact Hall|].
    intros key' s' _ (Hid & Hagent & Hinit & Hevents & Hready).
    split; [exact Hid|]. split; [exact Hagent|].
    split; [intros Hstatus; discriminate Hstatus|].
    split; [exact Hevents | exact Hready].
Qed.

Lemma reachable_invariant (sessions : store) :
  reachable WEBHOOK_SECRET SERVER_PORT sessions ->
  NoDup (map fst sessions)
  /\ forall i key s, sessions !! i = Some (key, s) -> well_formed_session key s.
Proof.
  induction 1 as [|sessions sessions' _ IH Hstep].
  - split; [constructor|]. intros i key s Hi. rewrite lookup_nil in Hi.
    discriminate.
  - destruct IH as [Hkeys Hall]. exact (step_well_formed _ _ Hstep Hkeys Hall).
Qed.

(** X21. In every store the server can be in (it starts empty, and only
    [create_session], [webhook], [join_session] and
    [conversation_started] write to it): no two sessions share a key;
    each session is stored under its own identifier and belongs to a
    configured agent; a session that is still initializing has neither a
    call identity nor processed data; every raw event is a dictionary of
    a type, a timestamp and the data dictionary of the callback; and the
    processed data are empty or made of dictionaries the read endpoints
    can take apart. *)
Theorem reachable_sessions_well_formed (sessions : store) :
  reachable WEBHOOK_SECRET SERVER_PORT sessions ->
  NoDup (map fst sessions)
  /\ forall i key s,
       sessions !! i = Some (key, s) ->
       session_id s = key
       /\ (exists agent_key name role,
             assoc agent_key agent_configs = Some (agent_id s, name, role))
       /\ (status s = INITIALIZING ->
           conversation_id s = PNone /\ processed_data s = [])
       /\ Forall (fun ev => exists e, ev = raw_event e) (webhook_data s)
       /\ record_ready (processed_data s).
Proof.
  induction 1 as [|sessions sessions' _ IH Hstep].
  - split; [constructor|]. intros i key s Hi. rewrite lookup_nil in Hi.
    discriminate.
  - destruct IH as [Hkeys Hall].
    destruct (step_well_formed _ _ Hstep Hkeys Hall) as [Hkeys' Hall'].
    split; [exact Hkeys'|]. intros i key s Hi. exact (Hall' i key s Hi).
Qed.

End ServerStates.

Lemma reachable_sessions_well_formed_witness :
  exists resp sessions',
    create_session 5000 0 "session-c" (PStr "127.0.0.1")
      (create_request (PStr "clara")) []
    = Ok (resp, sessions')
    /\ NoDup (map fst
                (snd (fst (@webhook sample_lib "secret" 20000000
                             "2025-01-01T00:00:20" post_call_request sessions'))))
    /\ forall i key s,
         snd (fst (@webhook sample_lib "secret" 20000000 "2025-01-01T00:00:20"
                     post_call_request sessions')) !! i
         = Some (key, s) ->
         well_formed_session key s.
Proof.
  eexists _, _. split; [reflexivity|].
  apply (@reachable_sessions_well_formed sample_lib "secret" 5000).
  eapply reachable_step; [|apply step_webhook].
  eapply reachable_step; [apply reachable_start|].
  eapply (step_create_session "secret" 5000 0 "session-c" (PStr "127.0.0.1")
            (create_request (PStr "clara"))).
  reflexivity.
Defined.

Lemma assoc_lookup {V} (k : string) (d : list (string * V)) (v : V) :
  assoc k d = Some v -> exists i, d !! i = Some (k, v).
Proof.
  induction d as [|[k' v'] d IH]; simpl; [discriminate|].
  destruct (String.eqb_spec k k') as [->|_].
  - intros [= ->]. exists 0%nat. reflexivity.
  - intros Hv. destruct (IH Hv) as [i Hi]. exists (S i). exact Hi.
Qed.

Lemma get_call_summary_ready (key : string) (sessions : store)
    (s : ConversationSession) :
  assoc key sessions = Some s ->
  record_ready (processed_data s) ->
  exists resp,
    get_call_summary key sessions = Ok resp
    /\ status_code resp = (if py_truthy (PDict (processed_data s))
                           then 200 else 404).
Proof.
  intros Hs ([[t Ht] (st & costs & Hst & _)]
             & analysis & collected & Hanalysis & Hcollected & Hvalues).
  unfold get_call_summary. rewrite Hs.
  destruct (py_truthy (PDict (processed_data s))); cbn [negb];
    [|eexists; split; reflexivity].
  look_up. rewrite Ht. look_up. rewrite Hst. look_up.
  rewrite Hanalysis. look_up. rewrite Hcollected.
  cbn [py_len mbind result_bind].
  destruct (assoc "analysis" (processed_data s)) as [analysis'|];
    [|eexists; split; reflexivity].
  cbn [from_option id] in Hanalysis. subst analysis'.
  cbn [py_contains py_getitem mbind result_bind].
  destruct (assoc "collected_data" analysis) as [collected'|].
  - cbn [from_option id] in Hcollected. subst collected'.
    rewrite bool_decide_eq_true_2 by eauto. cbn [mbind result_bind].
    rewrite (extract_key_patient_info_fields _ Hvalues).
    eexists; split; reflexivity.
  - rewrite bool_decide_eq_false_2 by (intros [? [=]]).
    eexists; split; reflexivity.
Qed.

Section ReadingReachableStores.
Context `{PyLib} (WEBHOOK_SECRET : string) (SERVER_PORT : Z).

(** X22. On every store the server can be in, [get_call_summary] does
    not raise, whatever the callbacks that were received: it answers
    404 when no session is stored under the identifier or when the
    session has no processed data yet, and 200 otherwise. *)
Theorem call_summary_never_fails (sessions : store) (key : string) :
  reachable WEBHOOK_SECRET SERVER_PORT sessions ->
  exists resp,
    get_call_summary key sessions = Ok resp
    /\ (status_code resp = 200
        <-> exists s, assoc key sessions = Some s /\ processed_data s <> [])
    /\ (status_code resp = 404
        <-> assoc key sessions = None
            \/ exists s, assoc key sessions = Some s /\ processed_data s = []).
Proof.
  intros Hreachable.
  destruct (reachable_invariant WEBHOOK_SECRET SERVER_PORT _ Hreachable)
    as [_ Hall].
  destruct (assoc key sessions) as [s|] eqn:Hs.
  - destruct (assoc_lookup _ _ _ Hs) as [i Hi].
    destruct (Hall _ _ _ Hi) as (_ & _ & _ & _ & Hready).
    destruct (get_call_summary_ready key sessions s Hs Hready)
      as (resp & -> & Hcode).
    exists resp. split; [reflexivity|]. rewrite Hcode.
    destruct (processed_data s) as [|entry entries] eqn:Hdata;
      cbn [py_truthy length Nat.eqb negb].
    + split; split.
      * discriminate.
      * intros (s' & [= <-] & Hne). congruence.
      * intros _. right. eauto.
      * reflexivity.
    + split; split.
      * intros _. exists s. split; [reflexivity | congruence].
      * reflexivity.
      * discriminate.
      * intros [[=] | (s' & [= <-] & Hnil)]. congruence.
  - exists session_not_found. unfold get_call_summary. rewrite Hs.
    split; [reflexivity|]. split; split.
    + discriminate.
    + intros (s & [=] & _).
    + intros _. left. reflexivity.
    + reflexivity.
Qed.

End ReadingReachableStores.

Lemma call_summary_never_fails_witness :
  exists resp sessions' answer,
    create_session 5000 0 "session-c" (PStr "127.0.0.1")
      (create_request (PStr "clara")) []
    = Ok (resp, sessions')
    /\ get_call_summary "session-c" sessions' = Ok answer
    /\ status_code answer = 404.
Proof.
  eexists _, _.
  destruct (@call_summary_never_fails sample_lib "secret" 5000
              [("session-c",
                {| session_id := "session-c";
                   agent_id := "agent_01jz0h1rqperc8z03gsvkprmsw";
                   conversation_id := PNone; status := INITIALIZING;
                   created_at := 0; updated_at := 0;
                   metadata := [("agent_name", PStr "Clara");
                                ("agent_role", PStr "Patient Intake Coordinator");
                                ("client_ip", PStr "127.0.0.1")];
                   webhook_data := []; processed_data := [] |})]
              "session-c")
    as (answer & Hanswer & _ & Hmissing).
  - eapply reachable_step; [apply reachable_start|].
    eapply (step_create_session "secret" 5000 0 "session-c" (PStr "127.0.0.1")
              (create_request (PStr "clara"))).
    reflexivity.
  - exists answer. split; [reflexivity|]. split; [exact Hanswer|].
    apply Hmissing. right. eexists. split; reflexivity.
Defined.

(** ** Events, statuses and the binding of calls *)

Section CallbackEffects.
Context `{PyLib} (WEBHOOK_SECRET : string) (SERVER_PORT : Z).

Lemma process_matched_event (now : Z) (now_iso : string)
    (webhook_json webhook_type data : pyval) (session : ConversationSession)
    (ev : emitted) :
  snd (process_matched now now_iso webhook_json webhook_type data session)
  = Ok ev ->
  event ev = "webhook_update"
  /\ room ev = Some (PStr (session_id session))
  /\ assoc "session_id" (event_data ev) = Some (PStr (session_id session))
  /\ assoc "type" (event_data ev) = Some webhook_type
  /\ assoc "data" (event_data ev) = Some data.
Proof.
  unfold process_matched, is_type. cbn [snd].
  destruct (py_eq webhook_type (PStr "conversation.completed")),
    (py_eq webhook_type (PStr "post_call_transcription")),
    (py_eq webhook_type (PStr "conversation.error"));
    cbn [orb andb]; intros Hev;
    apply bind_Ok in Hev as (emit_data & Hdata & Hev); injection Hev as <-;
    cbn [event room event_data session_id set_status set_processed_data
         set_updated_at append_webhook_data];
    (split; [reflexivity|]); (split; [reflexivity|]);
    try match type of Hdata with
        | context [if ?b then _ else _] => destruct b
        end;
    try (apply bind_Ok in Hdata as (summary & _ & Hdata));
    injection Hdata as <-; rewrite ?assoc_set_ne by discriminate;
    repeat split.
Qed.

(** X23. On every store the server can be in, an event that [webhook]
    publishes is a [webhook_update] sent to the room named by the key
    under which the session is stored, the name [join_session] uses for
    the room; the event carries that key as [session_id], and the
    session is the one to whose raw events the callback was appended.
    A request publishes at most one event. *)
Theorem events_go_to_the_session_room (now : Z) (now_iso : string)
    (req : request) (sessions : store) (ev : emitted) :
  reachable WEBHOOK_SECRET SERVER_PORT sessions ->
  ev ∈ snd (webhook WEBHOOK_SECRET now now_iso req sessions) ->
  snd (webhook WEBHOOK_SECRET now now_iso req sessions) = [ev]
  /\ event ev = "webhook_update"
  /\ exists i key s s',
       sessions !! i = Some (key, s)
       /\ snd (fst (webhook WEBHOOK_SECRET now now_iso req sessions)) !! i
          = Some (key, s')
       /\ room ev = Some (PStr key)
       /\ assoc "session_id" (event_data ev) = Some (PStr key)
       /\ exists raw, webhook_data s' = (webhook_data s ++ [raw])%list.
Proof.
  intros Hreachable Hev.
  destruct (reachable_invariant WEBHOOK_SECRET SERVER_PORT _ Hreachable)
    as [_ Hall].
  destruct (webhook_store WEBHOOK_SECRET now now_iso req sessions)
    as [[_ Hnone] | (i & key & s & bound & payload & webhook_type & data
                     & Hi & _ & _ & Hbound & Hstore & Hevents)].
  { rewrite Hnone in Hev. apply elem_of_nil in Hev. destruct Hev. }
  rewrite Hevents in Hev |- *. rewrite Hstore.
  destruct (snd (process_matched now now_iso (PDict payload) webhook_type
                   (PDict data) bound)) as [ev'|e] eqn:Houtcome;
    [|apply elem_of_nil in Hev; destruct Hev].
  apply list_elem_of_singleton in Hev as ->.
  apply process_matched_event in Houtcome
    as (Hevent & Hroom & Hsession & _ & _).
  destruct (Hall _ _ _ Hi) as (Hid & _).
  assert (Hsame : session_id bound = key /\ webhook_data bound = webhook_data s).
  { destruct Hbound as [-> | (v & -> & _)]; split; (exact Hid || reflexivity). }
  destruct Hsame as [Hkey Hraw].
  split; [reflexivity|]. split; [exact Hevent|].
  exists i, key, s. eexists. split; [exact Hi|].
  split; [apply lookup_update_session; exact Hi|].
  rewrite Hroom, Hsession, Hkey. split; [reflexivity|]. split; [reflexivity|].
  destruct (process_matched_fields now now_iso (PDict payload) webhook_type
              (PDict data) bound) as (_ & _ & _ & _ & _ & _ & Happended).
  eexists. rewrite Happended, Hraw. reflexivity.
Qed.

Lemma process_matched_status (now : Z) (now_iso : string)
    (webhook_json webhook_type data : pyval) (session : ConversationSession) :
  let session' :=
    fst (process_matched now now_iso webhook_json webhook_type data session) in
  (status session' = status session
   \/ status session' = COMPLETED \/ status session' = ERROR)
  /\ (py_eq webhook_type (PStr "post_call_transcription") = true ->
      status session' = COMPLETED).
Proof.
  unfold process_matched, is_type. cbn [fst].
  destruct (py_eq webhook_type (PStr "post_call_transcription"));
    rewrite ?orb_true_r, ?orb_false_r;
    repeat match goal with |- context [if ?b then _ else _] => destruct b end;
    cbn [status set_status set_processed_data set_updated_at
         append_webhook_data];
    split; auto; discriminate.
Qed.

(** X24. A callback never makes a session active or initializing: the
    status of a session after [webhook] is its status before, or
    "completed", or "error" (the "active" that a fallback sets while it
    binds a session is overwritten before the request ends).  The call
    identity of a session changes only when a fallback binds it, and
    the session, initializing or active before, is then completed. *)
Theorem callbacks_only_complete_or_fail (now : Z) (now_iso : string)
    (req : request) (sessions : store) i key key' s s' :
  sessions !! i = Some (key, s) ->
  snd (fst (webhook WEBHOOK_SECRET now now_iso req sessions)) !! i
  = Some (key', s') ->
  (status s' = status s \/ status s' = COMPLETED \/ status s' = ERROR)
  /\ (conversation_id s' = conversation_id s
      \/ ((status s = INITIALIZING \/ status s = ACTIVE)
          /\ status s' = COMPLETED)).
Proof.
  intros Hi Hi'.
  destruct (webhook_store WEBHOOK_SECRET now now_iso req sessions)
    as [[Hsame _] | (p & kp & sp & bound & payload & webhook_type & data
                     & Hp & _ & _ & Hbound & Hstore & _)].
  { rewrite Hsame, Hi in Hi'. injection Hi' as <- <-. auto. }
  rewrite Hstore in Hi'.
  apply lookup_update_session_inv in Hi'
    as [[_ Hi'] | (-> & s0 & Hp' & ->)].
  { rewrite Hi in Hi'. injection Hi' as <- <-. auto. }
  rewrite Hi in Hp. injection Hp as <- <-.
  destruct (process_matched_status now now_iso (PDict payload) webhook_type
              (PDict data) bound) as [Hstatus Hpost].
  destruct (process_matched_fields now now_iso (PDict payload) webhook_type
              (PDict data) bound) as (_ & _ & _ & _ & Hcall & _).
  destruct Hbound as [-> | (v & -> & Hprogress & Htype)].
  - split; [exact Hstatus | left; exact Hcall].
  - specialize (Hpost Htype). split; [auto|].
    right. split; [apply in_progress_iff; exact Hprogress | exact Hpost].
Qed.

End CallbackEffects.

Lemma events_go_to_the_session_room_witness :
  exists resp sessions' ev,
    create_session 5000 0 "session-c" (PStr "127.0.0.1")
      (create_request (PStr "clara")) []
    = Ok (resp, sessions')
    /\ snd (@webhook sample_lib "secret" 20000000 "2025-01-01T00:00:20"
              post_call_request sessions') = [ev]
    /\ event ev = "webhook_update"
    /\ room ev = Some (PStr "session-c").
Proof.
  eexists _, _, _. split; [reflexivity|].
  edestruct (@events_go_to_the_session_room sample_lib "secret" 5000 20000000
               "2025-01-01T00:00:20" post_call_request)
    as (Hone & Hevent & i & key & s & s' & Hi & _ & Hroom & _).
  - eapply reachable_step; [apply reachable_start|].
    eapply (step_create_session "secret" 5000 0 "session-c" (PStr "127.0.0.1")
              (create_request (PStr "clara"))).
    reflexivity.
  - apply list_elem_of_here.
  - split; [exact Hone|]. split; [exact Hevent|].
    destruct i as [|i]; [|discriminate Hi].
    injection Hi as <- <-. exact Hroom.
Defined.

Lemma callbacks_only_complete_or_fail_witness :
  exists s',
    snd (fst (@webhook sample_lib "secret" 20000000 "2025-01-01T00:00:20"
                post_call_request two_sessions)) !! 0%nat
    = Some ("session-a", s')
    /\ (status s' = status session_a
        \/ status s' = COMPLETED \/ status s' = ERROR)
    /\ (conversation_id s' = conversation_id session_a
        \/ ((status session_a = INITIALIZING \/ status session_a = ACTIVE)
            /\ status s' = COMPLETED)).
Proof.
  eexists. split; [reflexivity|].
  apply (@callbacks_only_complete_or_fail sample_lib "secret" 20000000
           "2025-01-01T00:00:20" post_call_request two_sessions 0%nat
           "session-a" "session-a" session_a _ eq_refl eq_refl).
Defined.

(** ** The realtime handlers *)

Lemma key_index_lookup (key : string) (sessions : store) (i : nat) :
  key_index key sessions = Some i ->
  exists s, sessions !! i = Some (key, s) /\ assoc key sessions = Some s.
Proof.
  revert i. induction sessions as [|[key' s'] sessions IH]; intros i; simpl;
    [discriminate|].
  destruct (String.eqb_spec key key') as [->|_].
  - intros [= <-]. exists s'. split; reflexivity.
  - destruct (key_index key sessions) as [j|]; [|discriminate].
    intros [= <-]. exact (IH j eq_refl).
Qed.

(** X25. [conversation_started] for a stored session binds the call the
    client names: the session gets that call identity, becomes active
    and is stamped with the time of the event; no other session
    changes, and the update is published to the room of the session.
    From then on, provided no session stored before it holds the same
    call identity, every callback about that call, of whatever type and
    agent, is attributed to that session, and correlation leaves the
    store alone. *)
Theorem conversation_started_binds_call (now : Z) (data : dict)
    (sessions : store) (key call : string) (s : ConversationSession) :
  assoc "session_id" data = Some (PStr key) ->
  assoc "conversation_id" data = Some (PStr call) ->
  assoc key sessions = Some s ->
  exists i sessions',
    sessions !! i = Some (key, s)
    /\ handle_conversation_started now (PDict data) sessions
       = Ok (sessions',
             [{| event := "conversation_update";
                 event_data := [("session_id", PStr key);
                                ("conversation_id", PStr call);
                                ("status", PStr "started")];
                 room := Some (PStr key) |}])
    /\ sessions' !! i = Some (key, started now call s)
    /\ (forall j, j <> i -> sessions' !! j = sessions !! j)
    /\ ((forall j kj sj, sessions !! j = Some (kj, sj) -> (j < i)%nat ->
                         conversation_id sj <> PStr call) ->
        forall now' webhook_type data',
          correlate now' webhook_type data' (PStr call) sessions'
          = Ok (Some (i, started now call s), sessions')).
Proof.
  intros Hkey Hcall Hs.
  destruct (key_index_assoc _ _ _ Hs) as [i Hindex].
  destruct (key_index_lookup _ _ _ Hindex) as (s0 & Hi & Hs0).
  rewrite Hs in Hs0. injection Hs0 as <-.
  exists i. eexists. split; [exact Hi|].
  split.
  { unfold handle_conversation_started. look_up. rewrite Hkey, Hcall.
    cbn [from_option id sessions_get mbind result_bind]. rewrite Hindex.
    reflexivity. }
  split; [apply (lookup_update_session _ _ _ _ _ Hi)|].
  split; [intros j Hne; apply lookup_update_session_ne; congruence|].
  intros Hfirst now' webhook_type data'. unfold correlate.
  match goal with
  | |- context [find_by_call_id ?v ?l] =>
      assert (Hfind : find_by_call_id v l = Some (i, (key, started now call s)))
  end.
  { unfold find_by_call_id. apply list_find_Some.
    split; [apply (lookup_update_session _ _ _ _ _ Hi)|].
    split; [cbn [snd started conversation_id set_updated_at set_status
                 set_conversation_id]; apply py_eq_str_r; reflexivity|].
    intros j [kj sj] Hj Hlt Heq.
    rewrite lookup_update_session_ne in Hj by lia.
    apply py_eq_str_r in Heq. exact (Hfirst j kj sj Hj Hlt Heq). }
  rewrite Hfind. reflexivity.
Qed.

Lemma conversation_started_binds_call_witness :
  exists sessions' out,
    handle_conversation_started 30000000 (started_event "session-b" "conv-1")
      two_sessions
    = Ok (sessions', out)
    /\ sessions' !! 1%nat = Some ("session-b", started 30000000 "conv-1" session_b)
    /\ correlate 40000000 (PStr "conversation.completed")
         (completion_data "conv-1" "agent-q") (PStr "conv-1") sessions'
       = Ok (Some (1%nat, started 30000000 "conv-1" session_b), sessions').
Proof.
  destruct (conversation_started_binds_call 30000000
              [("session_id", PStr "session-b");
               ("conversation_id", PStr "conv-1")]
              two_sessions "session-b" "conv-1" session_b
              eq_refl eq_refl eq_refl)
    as (i & sessions' & Hi & Hstarted & Hbound & _ & Hlater).
  destruct i as [|[|i]]; try discriminate Hi.
  exists sessions'. eexists. split; [exact Hstarted|]. split; [exact Hbound|].
  apply Hlater. intros j kj sj Hj Hlt.
  destruct j as [|j]; [|lia]. injection Hj as <- <-. discriminate.
Defined.

Lemma active_after_update (sessions : store) (i : nat) (key : string)
    (s : ConversationSession) (f : ConversationSession -> ConversationSession) :
  sessions !! i = Some (key, s) ->
  (length (List.filter (fun kv => bool_decide (status (snd kv) = ACTIVE))
             (update_session i f sessions))
   + (if bool_decide (status s = ACTIVE) then 1 else 0)
   = length (List.filter (fun kv => bool_decide (status (snd kv) = ACTIVE))
               sessions)
     + (if bool_decide (status (f s) = ACTIVE) then 1 else 0))%nat.
Proof.
  unfold update_session. revert i.
  induction sessions as [|[key' s'] sessions IH]; intros [|i]; simpl;
    try discriminate.
  - intros [= -> ->].
    destruct (bool_decide (status s = ACTIVE)),
      (bool_decide (status (f s) = ACTIVE)); simpl; lia.
  - intros Hi. specialize (IH i Hi). unfold alter in IH.
    destruct (bool_decide (status s' = ACTIVE)); simpl;
      [f_equal|]; exact IH.
Qed.

(** X26. Joining shows in the health check: after [join_session] for a
    stored session, the number of active sessions that [health_check]
    reports is one more than before when the session was not active,
    and the same when it was. *)
Theorem joining_shows_in_health_check `{PyLib} (now now' : Z) (data : dict)
    (sessions : store) (key : string) (s : ConversationSession) :
  assoc "session_id" data = Some (PStr key) ->
  assoc key sessions = Some s ->
  exists sessions' out n,
    handle_join_session (PDict data) sessions = Ok (sessions', out)
    /\ assoc "sessions_active" (response_body (health_check now sessions))
       = Some (PInt n)
    /\ assoc "sessions_active" (response_body (health_check now' sessions'))
       = Some (PInt (if bool_decide (status s = ACTIVE) then n else n + 1)).
Proof.
  intros Hkey Hs.
  destruct (key_index_assoc _ _ _ Hs) as [i Hindex].
  destruct (key_index_lookup _ _ _ Hindex) as (s0 & Hi & Hs0).
  rewrite Hs in Hs0. injection Hs0 as <-.
  eexists _, _, _. split.
  { unfold handle_join_session. look_up. rewrite Hkey.
    cbn [from_option id sessions_get mbind result_bind]. rewrite Hindex.
    reflexivity. }
  split; [reflexivity|].
  cbn [health_check response_body assoc String.eqb Ascii.eqb Bool.eqb].
  do 2 f_equal.
  pose proof (active_after_update sessions i key s (set_status ACTIVE) Hi)
    as Hcount.
  cbn [status set_status] in Hcount.
  rewrite (bool_decide_eq_true_2 (ACTIVE = ACTIVE)) in Hcount by reflexivity.
  destruct (bool_decide (status s = ACTIVE)); lia.
Qed.

Lemma joining_shows_in_health_check_witness :
  exists sessions' out,
    handle_join_session (PDict [("session_id", PStr "session-a")]) two_sessions
    = Ok (sessions', out)
    /\ assoc "sessions_active"
         (response_body (@health_check sample_lib 0 two_sessions))
       = Some (PInt 1)
    /\ assoc "sessions_active"
         (response_body (@health_check sample_lib 1 sessions'))
       = Some (PInt 2).
Proof.
  destruct (@joining_shows_in_health_check sample_lib 0 1
              [("session_id", PStr "session-a")] two_sessions "session-a"
              session_a eq_refl eq_refl)
    as (sessions' & out & n & Hjoin & Hbefore & Hafter).
  exists sessions', out. split; [exact Hjoin|].
  injection Hbefore as <-. split; [reflexivity | exact Hafter].
Defined.

(** ** What a callback writes *)

Section ProcessedDataWriters.
Context `{PyLib} (WEBHOOK_SECRET : string).

Lemma post_call_processing_fresh (now_iso : string) (payload previous : dict) :
  post_call_processing now_iso (PDict payload) previous
  = post_call_processing now_iso (PDict payload) [].
Proof.
  destruct (process_post_call_webhook_ok now_iso payload) as [r Hr].
  unfold post_call_processing. rewrite Hr. reflexivity.
Qed.

Lemma process_matched_processed (now : Z) (now_iso : string)
    (webhook_json webhook_type data : pyval) (session : ConversationSession) :
  processed_data
    (fst (process_matched now now_iso webhook_json webhook_type data session))
  = if py_eq webhook_type (PStr "post_call_transcription")
    then post_call_processing now_iso webhook_json (processed_data session)
    else processed_data session.
Proof.
  unfold process_matched, is_type. cbn [fst].
  destruct (py_eq webhook_type (PStr "post_call_transcription"));
    rewrite ?orb_true_r;
    repeat match goal with |- context [if ?b then _ else _] => destruct b end;
    reflexivity.
Qed.

(** X27. Only a post-call transcription writes the processed data of a
    session: after any other request every session holds the processed
    data it held before.  When the processed data of a session change,
    the request carried a post-call transcription, the new data are
    what the processing makes of that payload alone, and the session is
    completed. *)
Theorem only_post_call_writes_processed_data (now : Z) (now_iso : string)
    (req : request) (sessions : store) i key key' s s' :
  sessions !! i = Some (key, s) ->
  snd (fst (webhook WEBHOOK_SECRET now now_iso req sessions)) !! i
  = Some (key', s') ->
  processed_data s' = processed_data s
  \/ exists payload,
       request_json req = Ok (PDict payload)
       /\ assoc "type" payload = Some (PStr "post_call_transcription")
       /\ processed_data s' = post_call_processing now_iso (PDict payload) []
       /\ status s' = COMPLETED.
Proof.
  intros Hi Hi'.
  destruct (webhook_store WEBHOOK_SECRET now now_iso req sessions)
    as [[Hsame _] | (p & kp & sp & bound & payload & webhook_type & data
                     & Hp & Hjson & Htype & Hbound & Hstore & _)].
  { rewrite Hsame, Hi in Hi'. injection Hi' as <- <-. left. reflexivity. }
  rewrite Hstore in Hi'.
  apply lookup_update_session_inv in Hi'
    as [[_ Hi'] | (-> & s0 & Hp' & ->)].
  { rewrite Hi in Hi'. injection Hi' as <- <-. left. reflexivity. }
  rewrite Hi in Hp. injection Hp as <- <-.
  rewrite process_matched_processed.
  destruct (process_matched_status now now_iso (PDict payload) webhook_type
              (PDict data) bound) as [_ Hpost].
  assert (Hrecord : processed_data bound = processed_data s).
  { destruct Hbound as [-> | (v & -> & _)]; reflexivity. }
  destruct (py_eq webhook_type (PStr "post_call_transcription")) eqn:Hposted.
  - right. exists payload. split; [exact Hjson|].
    apply py_eq_str_r in Hposted. rewrite Htype in Hposted.
    split.
    { destruct (assoc "type" payload); [simpl in Hposted; congruence|].
      discriminate. }
    split; [apply post_call_processing_fresh | apply Hpost; reflexivity].
  - left. exact Hrecord.
Qed.

End ProcessedDataWriters.

Lemma only_post_call_writes_processed_data_witness :
  exists s',
    snd (fst (@webhook sample_lib "secret" 20000000 "2025-01-01T00:00:20"
                post_call_request two_sessions)) !! 1%nat
    = Some ("session-b", s')
    /\ (processed_data s' = processed_data session_b
        \/ exists payload,
             request_json post_call_request = Ok (PDict payload)
             /\ assoc "type" payload = Some (PStr "post_call_transcription")
             /\ processed_data s'
                = @post_call_processing sample_lib "2025-01-01T00:00:20"
                    (PDict payload) []
             /\ status s' = COMPLETED).
Proof.
  eexists. split; [reflexivity|].
  apply (@only_post_call_writes_processed_data sample_lib "secret" 20000000
           "2025-01-01T00:00:20" post_call_request two_sessions 1%nat
           "session-b" "session-b" session_b _ eq_refl eq_refl).
Defined.

(** ** The agents *)

Lemma assoc_of_distinct_keys {V} (k : string) (v : V) (d : list (string * V)) :
  NoDup (map fst d) -> (k, v) ∈ d -> assoc k d = Some v.
Proof.
  induction d as [|[k' v'] d IH]; simpl; intros Hkeys Hin.
  - apply elem_of_nil in Hin. destruct Hin.
  - apply NoDup_cons in Hkeys as [Hfresh Hkeys].
    apply elem_of_cons in Hin as [[= -> ->] | Hin].
    + rewrite String.eqb_refl. reflexivity.
    + destruct (String.eqb_spec k k') as [->|_]; [|exact (IH Hkeys Hin)].
      exfalso. apply Hfresh. apply list_elem_of_fmap. exists (k', v).
      split; [reflexivity | exact Hin].
Qed.

Lemma agent_configs_distinct : NoDup (map fst agent_configs).
Proof.
  repeat (apply NoDup_cons_2 || apply NoDup_nil_2);
    intros Hin; apply list_elem_of_In in Hin; simpl in Hin;
    intuition discriminate.
Qed.

(** X28. Every agent that [get_agents] lists can be used: the entry
    holds a key, a name, a role and an agent identifier, and
    [create_session] with that key answers 200 and stores, under the new
    identifier, a session of that agent. *)
Theorem listed_agents_are_accepted (SERVER_PORT : Z) (agents : list pyval)
    (entry : pyval) :
  assoc "agents" (response_body get_agents) = Some (PList agents) ->
  entry ∈ agents ->
  exists key name role agent,
    entry = PDict [("key", PStr key); ("name", PStr name);
                   ("role", PStr role); ("agent_id", PStr agent)]
    /\ forall now fresh_id remote_addr req data sessions,
         request_json req = Ok (PDict data) ->
         assoc "agent_key" data = Some (PStr key) ->
         exists resp sessions' s,
           create_session SERVER_PORT now fresh_id remote_addr req sessions
           = Ok (resp, sessions')
           /\ status_code resp = 200
           /\ assoc fresh_id sessions' = Some s
           /\ agent_id s = agent
           /\ status s = INITIALIZING.
Proof.
  intros Hagents Hentry.
  assert (Hlisted :
            agents
            = map (fun '(key, (agent, name, role)) =>
                     PDict [("key", PStr key); ("name", PStr name);
                            ("role", PStr role); ("agent_id", PStr agent)])
                  agent_configs).
  { injection Hagents as <-. reflexivity. }
  rewrite Hlisted in Hentry. clear Hagents Hlisted.
  apply list_elem_of_In, in_map_iff in Hentry
    as ([key [[agent name] role]] & <- & Hin).
  apply list_elem_of_In in Hin.
  exists key, name, role, agent. split; [reflexivity|].
  intros now fresh_id remote_addr req data sessions Hjson Hkey.
  pose proof (assoc_of_distinct_keys _ _ _ agent_configs_distinct Hin) as Hknown.
  unfold create_session. rewrite Hjson. look_up. rewrite Hkey.
  cbn [from_option id mbind result_bind]. rewrite Hknown.
  eexists _, _, _. split; [reflexivity|]. split; [reflexivity|].
  split; [apply assoc_set_eq|]. split; reflexivity.
Qed.

Lemma listed_agents_are_accepted_witness :
  exists resp sessions' s,
    create_session 5000 0 "session-c" (PStr "127.0.0.1")
      (create_request (PStr "marcus")) two_sessions
    = Ok (resp, sessions')
    /\ status_code resp = 200
    /\ assoc "session-c" sessions' = Some s
    /\ agent_id s = "agent_01jz2jh0cdekqv8j35hqpw9wbb"
    /\ status s = INITIALIZING.
Proof.
  destruct (listed_agents_are_accepted 5000 _
              (PDict [("key", PStr "marcus"); ("name", PStr "Marcus");
                      ("role", PStr "Authorization Coordinator");
                      ("agent_id", PStr "agent_01jz2jh0cdekqv8j35hqpw9wbb")])
              eq_refl)
    as (key & name & role & agent & Hentry & Haccepted).
  - apply list_elem_of_further, list_elem_of_here.
  - injection Hentry as <- <- <- <-.
    apply (Haccepted 0 "session-c" (PStr "127.0.0.1")
             (create_request (PStr "marcus"))
             [("agent_key", PStr "marcus")] two_sessions eq_refl eq_refl).
Defined.
